(** * Cannabis Intelligence Index: extraction, normalization and outlier audit

    A shallow embedding of the three-stage core of the repository:
    - [src/ingestion/data_extractor.py]   (class [CannabisDataExtractor]),
    - [src/processing/medallion_processor.py] (class [MedallionProcessor]),
    - [src/utils/outlier_detection.py]    (class [CannabisOutlierDetector]),
    and of the text post-processing of [src/processing/html_sanitizer.py].

    The tails of [data_extractor.py] and [outlier_detection.py] are stored
    with escaped line breaks; they are read here with the escapes decoded.

    Conventions of the model.
    - Text is [string] (8-bit characters, read as ASCII): [str.lower],
      [str.strip], [\s] and [\d] follow Python on code points below 128.
    - [float] values are exact rationals [Q], kept in lowest terms; rounding
      of binary floating point is not modelled.
    - Python's [None] is [None]; a raised exception is [Raise e]. *)

From Stdlib Require Import ZArith QArith Qabs Ascii String List Bool Lia.
From Stdlib Require Import DecimalString.
From stdpp Require Import gmap strings.

Local Open Scope string_scope.

(** ** Results of fallible code *)

Inductive exn : Set :=
| ValueError
| TypeError
| AttributeError
| JSONDecodeError.

Inductive res (A : Type) : Type :=
| Ok (a : A)
| Raise (e : exn).
Arguments Ok {A} a.
Arguments Raise {A} e.

#[global] Instance res_bind : MBind res := fun A B f m =>
  match m with
  | Ok a => f a
  | Raise e => Raise e
  end.

Definition returns {A} (m : res A) : Prop := exists a, m = Ok a.

(** ** Python strings *)

Module PyStr.

(** [str.isspace] on ASCII: TAB, LF, VT, FF, CR, the separators FS, GS, RS,
    US and the space. *)
Definition is_space (a : ascii) : bool :=
  let n := nat_of_ascii a in
  ((9 <=? n)%nat && (n <=? 13)%nat) || ((28 <=? n)%nat && (n <=? 32)%nat).

Definition is_digit (a : ascii) : bool :=
  let n := nat_of_ascii a in (48 <=? n)%nat && (n <=? 57)%nat.

Definition lower_ascii (a : ascii) : ascii :=
  let n := nat_of_ascii a in
  if (65 <=? n)%nat && (n <=? 90)%nat then ascii_of_nat (n + 32) else a.

(** [s.lower()] *)
Fixpoint lower (s : string) : string :=
  match s with
  | EmptyString => EmptyString
  | String a t => String (lower_ascii a) (lower t)
  end.

Fixpoint lstrip (s : string) : string :=
  match s with
  | EmptyString => EmptyString
  | String a t => if is_space a then lstrip t else s
  end.

Fixpoint rstrip (s : string) : string :=
  match s with
  | EmptyString => EmptyString
  | String a t =>
      match rstrip t with
      | EmptyString => if is_space a then EmptyString else String a EmptyString
      | t' => String a t'
      end
  end.

(** [s.strip()] *)
Definition strip (s : string) : string := rstrip (lstrip s).

(** [sub in s] *)
Fixpoint contains (sub s : string) : bool :=
  String.prefix sub s ||
  match s with
  | EmptyString => false
  | String _ t => contains sub t
  end.

(** Runs of decimal digits. *)
Fixpoint all_digits (s : string) : bool :=
  match s with
  | EmptyString => true
  | String a t => is_digit a && all_digits t
  end.

(** Truth value of a string: non-empty. *)
Definition truthy (s : string) : bool :=
  match s with EmptyString => false | _ => true end.

(** [sep.join(l)] *)
Fixpoint join (sep : string) (l : list string) : string :=
  match l with
  | [] => ""
  | [x] => x
  | x :: t => x ++ sep ++ join sep t
  end.

(** [any(k in s for k in keywords)] *)
Definition any_in (keywords : list string) (s : string) : bool :=
  existsb (fun k => contains k s) keywords.

End PyStr.

(** ** The regular expressions of [re], as far as the patterns use them

    A backtracking matcher with Python's priorities: alternatives left to
    right, greedy quantifiers longest first, lazy ones shortest first.  A
    match is tried at a position of the text and hands the rest of the text
    and the captured groups to its continuation. *)

Module Re.

Inductive regex : Type :=
| Eps : regex
| Chr : (ascii -> bool) -> regex
| Seq : regex -> regex -> regex
| Alt : regex -> regex -> regex
| Star : bool -> regex -> regex
| Group : nat -> regex -> regex
| EndLine : regex.

(** Captured groups, latest capture first. *)
Definition caps := list (nat * string).

Fixpoint group (n : nat) (c : caps) : option string :=
  match c with
  | [] => None
  | (m, s) :: t => if Nat.eqb m n then Some s else group n t
  end.

Definition orelse {A} (x y : option A) : option A :=
  match x with Some _ => x | None => y end.

(** The text consumed between [s] and its suffix [s']. *)
Definition consumed (s s' : string) : string :=
  String.substring 0 (String.length s - String.length s') s.

Section Match.
Context {A : Type}.

Fixpoint rmatch (r : regex) (s : string) (c : caps)
    (k : string -> caps -> option A) {struct r} : option A :=
  match r with
  | Eps => k s c
  | Chr p =>
      match s with
      | String a t => if p a then k t c else None
      | EmptyString => None
      end
  | Seq r1 r2 => rmatch r1 s c (fun s' c' => rmatch r2 s' c' k)
  | Alt r1 r2 => orelse (rmatch r1 s c k) (rmatch r2 s c k)
  | Star greedy r1 =>
      (fix loop (fuel : nat) (s : string) (c : caps) {struct fuel} : option A :=
         match fuel with
         | O => k s c
         | S fuel' =>
             let again :=
               rmatch r1 s c (fun s' c' =>
                 if (String.length s' <? String.length s)%nat
                 then loop fuel' s' c' else None) in
             if greedy then orelse again (k s c) else orelse (k s c) again
         end) (String.length s) s c
  | Group n r1 =>
      rmatch r1 s c (fun s' c' => k s' ((n, consumed s s') :: c'))
  | EndLine =>
      match s with
      | EmptyString => k s c
      | String a _ => if Ascii.eqb a "010" then k s c else None
      end
  end.

End Match.

(** A match anchored at the start of [s]: the rest of the text and the
    groups. *)
Definition match_here (r : regex) (s : string) : option (string * caps) :=
  rmatch r s [] (fun s' c => Some (s', c)).

(** [re.search]: the leftmost match. *)
Fixpoint search (r : regex) (s : string) : option caps :=
  match match_here r s with
  | Some (_, c) => Some c
  | None =>
      match s with
      | EmptyString => None
      | String _ t => search r t
      end
  end.

(** [re.finditer]: the successive matches, left to right, none overlapping
    another.  [skip] counts the characters still covered by the last
    match.  No pattern of the code matches the empty text, so what [re]
    does after an empty match is not modelled. *)
Fixpoint finditer_from (r : regex) (s : string) (skip : nat) : list caps :=
  match skip with
  | S n =>
      match s with
      | EmptyString => []
      | String _ t => finditer_from r t n
      end
  | O =>
      match match_here r s with
      | Some (s', c) =>
          c :: match s with
               | EmptyString => []
               | String _ t =>
                   finditer_from r t
                     (Nat.pred (String.length s - String.length s'))
               end
      | None =>
          match s with
          | EmptyString => []
          | String _ t => finditer_from r t 0
          end
      end
  end.

Definition finditer (r : regex) (s : string) : list caps :=
  finditer_from r s 0.

(** *** Pattern syntax *)

Definition Plus (greedy : bool) (r : regex) : regex := Seq r (Star greedy r).
Definition Opt (r : regex) : regex := Alt r Eps.

(** A literal character; under [re.IGNORECASE] letters match both cases. *)
Definition chr (ignorecase : bool) (a : ascii) : regex :=
  Chr (fun b =>
         if ignorecase
         then Ascii.eqb (PyStr.lower_ascii b) (PyStr.lower_ascii a)
         else Ascii.eqb b a).

Fixpoint lit (ignorecase : bool) (s : string) : regex :=
  match s with
  | EmptyString => Eps
  | String a EmptyString => chr ignorecase a
  | String a t => Seq (chr ignorecase a) (lit ignorecase t)
  end.

Fixpoint seq (l : list regex) : regex :=
  match l with
  | [] => Eps
  | [r] => r
  | r :: t => Seq r (seq t)
  end.

Fixpoint alt (l : list regex) : regex :=
  match l with
  | [] => Chr (fun _ => false)
  | [r] => r
  | r :: t => Alt r (alt t)
  end.

(** [\d], [\s], [\d+], [\s*] *)
Definition digit : regex := Chr PyStr.is_digit.
Definition space : regex := Chr PyStr.is_space.
Definition digits : regex := Plus true digit.
Definition spaces : regex := Star true space.

(** [\d+(?:\.\d+)?] *)
Definition decimal : regex := Seq digits (Opt (Seq (chr false ".") digits)).

(** *** What a successful match says

    [matches r s c s' c']: from text [s] and groups [c], the pattern [r]
    can consume a prefix of [s], leaving [s'] and the groups [c']. *)

Inductive matches : regex -> string -> caps -> string -> caps -> Prop :=
| M_Eps s c : matches Eps s c s c
| M_Chr p a t c : p a = true -> matches (Chr p) (String a t) c t c
| M_Seq r1 r2 s c s1 c1 s2 c2 :
    matches r1 s c s1 c1 -> matches r2 s1 c1 s2 c2 ->
    matches (Seq r1 r2) s c s2 c2
| M_AltL r1 r2 s c s' c' :
    matches r1 s c s' c' -> matches (Alt r1 r2) s c s' c'
| M_AltR r1 r2 s c s' c' :
    matches r2 s c s' c' -> matches (Alt r1 r2) s c s' c'
| M_StarStop g r s c : matches (Star g r) s c s c
| M_StarStep g r s c s1 c1 s2 c2 :
    matches r s c s1 c1 -> matches (Star g r) s1 c1 s2 c2 ->
    matches (Star g r) s c s2 c2
| M_Group n r s c s' c' :
    matches r s c s' c' ->
    matches (Group n r) s c s' ((n, consumed s s') :: c')
| M_EndText c : matches EndLine EmptyString c EmptyString c
| M_EndLine t c :
    matches EndLine (String "010" t) c (String "010" t) c.

(** Patterns that capture nothing. *)
Fixpoint groupless (r : regex) : bool :=
  match r with
  | Eps | Chr _ | EndLine => true
  | Seq r1 r2 | Alt r1 r2 => groupless r1 && groupless r2
  | Star _ r1 => groupless r1
  | Group _ _ => false
  end.

(** Patterns in which group [n] takes part in every match. *)
Fixpoint captures (n : nat) (r : regex) : bool :=
  match r with
  | Group m r1 => Nat.eqb m n || captures n r1
  | Seq r1 r2 => captures n r1 || captures n r2
  | Alt r1 r2 => captures n r1 && captures n r2
  | Eps | Chr _ | Star _ _ | EndLine => false
  end.

(** The texts a pattern can consume, as a group around it captures them. *)
Definition numeral (num : regex) (g : string) : Prop :=
  exists s s' c, matches num s c s' c /\ consumed s s' = g.

End Re.

(** ** Numbers read from text *)

Module PyNum.

Definition digit_val (a : ascii) : Z := Z.of_nat (nat_of_ascii a) - 48.

(** The value of a run of decimal digits, [None] when another character
    occurs. *)
Fixpoint digits_val (s : string) (acc : Z) : option Z :=
  match s with
  | EmptyString => Some acc
  | String a t =>
      if PyStr.is_digit a then digits_val t (10 * acc + digit_val a)%Z
      else None
  end.

(** [int(s)] on a non-empty run of digits.  Python's [int] reads more (a
    sign, blanks around, underscores); the model raises on all of that, so
    it raises wherever Python does. *)
Definition py_int (s : string) : res Z :=
  match s with
  | EmptyString => Raise ValueError
  | _ => match digits_val s 0 with
         | Some z => Ok z
         | None => Raise ValueError
         end
  end.

(** The text before and after the first dot. *)
Fixpoint split_dot (s : string) : string * option string :=
  match s with
  | EmptyString => (EmptyString, None)
  | String a t =>
      if Ascii.eqb a "."
      then (EmptyString, Some t)
      else let '(i, f) := split_dot t in (String a i, f)
  end.

(** [float(s)] on [digits] or [digits.digits], as an exact rational; the
    model raises on every other form. *)
Definition py_float (s : string) : res Q :=
  match split_dot s with
  | (i, None) => z ← py_int i; Ok (inject_Z z)
  | (i, Some f) =>
      zi ← py_int i;
      zf ← py_int f;
      let scale := (10 ^ Z.of_nat (String.length f))%Z in
      Ok (Qred (Qmake (zi * scale + zf) (Z.to_pos scale)))
  end.

End PyNum.

(** ** The Extractor: [CannabisDataExtractor] *)

Module Extractor.
Import Re.

(** The values a bronze record holds: text, or a value of another type
    that [json.loads] produced for a key of a linked-data block (kept by
    its [repr]). *)
Inductive pyvalue : Type :=
| PStr (s : string)
| POther (repr : string).

(** What [json.loads] returns: a dictionary, by its entries in order, or a
    value of another type. *)
Inductive json : Type :=
| JDict (entries : list (string * pyvalue))
| JOther.

(** *** The parsed document, by the queries the strategies make *)

(** A [table] element: [table.get_text()] and, for each [tr], the stripped
    texts of its [td] and [th] cells. *)
Record table : Type := {
  table_text : string;
  table_rows : list (list string)
}.

(** An [img], [span] or [div] whose class names a rating: its tag name, its
    [alt] attribute and the number of its descendants whose class names a
    star. *)
Record rating_element : Type := {
  tag_name : string;
  alt_attribute : option string;
  star_elements : nat
}.

Record soup : Type := {
  (** [soup.find_all('table')] *)
  tables : list table;
  (** [soup.select(selector)], each element by its
      [get_text(separator=' ', strip=True)] *)
  selected : string -> list string;
  (** [soup.get_text(separator=' ', strip=True)] *)
  page_text : string;
  (** [soup.find_all(['img', 'span', 'div'], class_=...)] *)
  rating_elements : list rating_element;
  (** the elements whose class names a difficulty, each by its
      [get_text(strip=True)] *)
  difficulty_elements : list string;
  (** [soup.find('meta', attrs={'name': 'description'})], by its [content]
      attribute *)
  meta_description : option (option string);
  (** [soup.find('title')], by its [get_text(strip=True)] *)
  title_tag : option string;
  (** the [application/ld+json] scripts, each by its [.string]; a script
      element without a single text child has none *)
  json_ld_scripts : list (option string)
}.

(** [self.extraction_stats] *)
Record extraction_stats : Type := {
  tables_found : nat;
  descriptions_found : nat;
  patterns_matched : nat;
  images_processed : nat
}.

(** [__init__] *)
Definition init : extraction_stats :=
  {| tables_found := 0; descriptions_found := 0;
     patterns_matched := 0; images_processed := 0 |}.

(** [str(n)] *)
Definition str_of_nat (n : nat) : string :=
  NilEmpty.string_of_uint (Nat.to_uint n).

(** [d[f"{field_name}_raw"] = value; d[f"{field_name}_source"] = source] *)
Definition set_field (field_name : string) (value : pyvalue) (source : string)
    (d : gmap string pyvalue) : gmap string pyvalue :=
  <[(field_name ++ "_source")%string := PStr source]>
    (<[(field_name ++ "_raw")%string := value]> d).

(** *** Table scan *)

Definition _is_specification_table (t : table) : bool :=
  let table_text := PyStr.lower (table_text t) in
  let spec_keywords :=
    ["thc"; "cbd"; "flowering"; "height"; "yield"; "genetics"; "sativa";
     "indica"] in
  (2 <=? List.length
           (List.filter (fun keyword => PyStr.contains keyword table_text)
                        spec_keywords))%nat.

Definition field_mappings : list (string * list string) :=
  [("thc", ["thc"; "thc content"; "thc level"; "thc %"; "thc percentage"]);
   ("cbd", ["cbd"; "cbd content"; "cbd level"; "cbd %"; "cbd percentage"]);
   ("flowering_time",
    ["flowering time"; "flowering period"; "flower time"; "bloom time";
     "flowering"]);
   ("height", ["height"; "plant height"; "size"; "grows to"; "tall"]);
   ("yield", ["yield"; "harvest"; "production"; "output"]);
   ("genetics",
    ["genetics"; "genetic background"; "lineage"; "breeding"; "cross"]);
   ("effects", ["effects"; "effect"; "high"; "buzz"]);
   ("flavors", ["flavor"; "flavour"; "taste"; "aroma"; "smell"])].

Definition _map_table_field (key_text : string) : option string :=
  let key_lower := PyStr.strip (PyStr.lower key_text) in
  option_map fst
    (List.find (fun m => PyStr.any_in (snd m) key_lower) field_mappings).

(** The body of the loop over the rows of a specification table. *)
Definition table_row (table_idx : nat) (cells : list string)
    (table_data : gmap string pyvalue) : gmap string pyvalue :=
  match cells with
  | key_cell :: value_cell :: _ =>
      if PyStr.truthy key_cell && PyStr.truthy value_cell then
        match _map_table_field key_cell with
        | Some field_name =>
            set_field field_name (PStr value_cell)
              ("Table " ++ str_of_nat (table_idx + 1)) table_data
        | None => table_data
        end
      else table_data
  | _ => table_data
  end.

Definition _extract_from_tables (s : soup) : gmap string pyvalue :=
  fold_left
    (fun table_data it =>
       if _is_specification_table (snd it)
       then fold_left (fun d cells => table_row (fst it) cells d)
                      (table_rows (snd it)) table_data
       else table_data)
    (imap (fun i t => (i, t)) (tables s)) ∅.

(** *** Prose mining *)

(** The double quote. *)
Definition quote : string := String (ascii_of_nat 34) EmptyString.

Definition description_selectors : list string :=
  [".product-description"; ".strain-description"; ".description";
   ".product-details"; ".strain-info"; ".product-content";
   "[class*=" ++ quote ++ "description" ++ quote ++ "]";
   "[class*=" ++ quote ++ "details" ++ quote ++ "]"]%string.

Definition is_terminator (a : ascii) : bool :=
  Ascii.eqb a "." || Ascii.eqb a "!" || Ascii.eqb a "?".

(** [re.split(r'[.!?]+', text)]: [cur] is the piece being read, reversed;
    [in_run] says that the last character read was a terminator. *)
Fixpoint split_sentences (text : string) (cur : string) (in_run : bool)
    : list string :=
  match text with
  | EmptyString => [String.rev cur]
  | String a t =>
      if is_terminator a then
        if in_run then split_sentences t cur true
        else String.rev cur :: split_sentences t EmptyString true
      else split_sentences t (String a cur) false
  end.

Definition effect_keywords : list string :=
  ["relaxing"; "euphoric"; "uplifting"; "energetic"; "creative"; "focused";
   "happy"; "sleepy"].
Definition flavor_keywords : list string :=
  ["citrus"; "lemon"; "berry"; "sweet"; "earthy"; "pine"; "diesel"; "fruity"].
Definition growing_keywords : list string :=
  ["indoor"; "outdoor"; "hydro"; "soil"; "climate"; "temperature"].

(** One of the three keyword checks on a sentence. *)
Definition mention (keywords : list string) (category sentence : string)
    (d : gmap string pyvalue) : gmap string pyvalue :=
  if PyStr.any_in keywords (PyStr.lower sentence) then
    match d !! (category ++ "_raw")%string with
    | None => set_field category (PStr sentence) "Description context" d
    | Some _ => d
    end
  else d.

Definition _extract_contextual_mentions (text : string)
    : gmap string pyvalue :=
  fold_left
    (fun contextual_data sentence =>
       let sentence := PyStr.strip sentence in
       if negb (PyStr.truthy sentence) then contextual_data else
       mention growing_keywords "growing_context" sentence
         (mention flavor_keywords "flavors_context" sentence
            (mention effect_keywords "effects_context" sentence
               contextual_data)))
    (split_sentences text EmptyString false) ∅.

Definition _extract_from_descriptions (s : soup) : gmap string pyvalue :=
  let all_descriptions :=
    flat_map (fun selector =>
                List.filter (fun text => PyStr.truthy text &&
                                         (20 <? String.length text)%nat)
                            (selected s selector))
             description_selectors in
  match all_descriptions with
  | [] => ∅
  | _ =>
      let full_description := PyStr.join " " all_descriptions in
      _extract_contextual_mentions full_description ∪
      set_field "description" (PStr full_description) "Product descriptions" ∅
  end.

(** *** Pattern matching

    Every pattern is compiled with [re.IGNORECASE | re.MULTILINE]. *)

(** [[^\n\.]] *)
Definition not_nl_dot : regex :=
  Chr (fun a => negb (Ascii.eqb a "010") && negb (Ascii.eqb a ".")).

(** [([^\n\.]+?)(?:\.|\n|$)] *)
Definition to_end_of_sentence : regex :=
  Seq (Group 1 (Plus false not_nl_dot))
      (alt [chr true "."; chr true "010"; EndLine]).

Definition word (s : string) : regex := lit true s.
Definition words (l : list string) : regex := alt (map word l).

(** [[0-9]+] and [[0-9]+(?:\.[0-9]+)?] *)
Definition number : regex := digits.
Definition number_dec : regex := decimal.

(** [[0-9]+(?:\.[0-9]+)?(?:\s*-\s*[0-9]+(?:\.[0-9]+)?)?] *)
Definition dec_range : regex :=
  Seq number_dec (Opt (seq [spaces; chr true "-"; spaces; number_dec])).

(** [[0-9]+(?:\s*-\s*[0-9]+)?] *)
Definition int_range : regex :=
  Seq number (Opt (seq [spaces; chr true "-"; spaces; number])).

(** [s?] after a word *)
Definition plural (s : string) : regex := Seq (word s) (Opt (chr true "s")).

Definition patterns : list (string * list regex) :=
  [("thc_content",
    [ (* THC:?\s*([^\n\.]+?)(?:\.|\n|$) *)
      seq [word "THC"; Opt (chr true ":"); spaces; to_end_of_sentence];
      (* (?:THC|thc)\s*(?:content|level|percentage)?:?\s*([^\n\.]+?)(?:\.|\n|$) *)
      seq [words ["THC"; "thc"]; spaces;
           Opt (words ["content"; "level"; "percentage"]);
           Opt (chr true ":"); spaces; to_end_of_sentence];
      (* ([0-9]+(?:\.[0-9]+)?(?:\s*-\s*[0-9]+(?:\.[0-9]+)?)?\s*%\s*THC) *)
      Group 1 (seq [dec_range; spaces; chr true "%"; spaces; word "THC"]) ]);
   ("cbd_content",
    [ (* CBD:?\s*([^\n\.]+?)(?:\.|\n|$) *)
      seq [word "CBD"; Opt (chr true ":"); spaces; to_end_of_sentence];
      (* (?:CBD|cbd)\s*(?:content|level|percentage)?:?\s*([^\n\.]+?)(?:\.|\n|$) *)
      seq [words ["CBD"; "cbd"]; spaces;
           Opt (words ["content"; "level"; "percentage"]);
           Opt (chr true ":"); spaces; to_end_of_sentence];
      (* ([0-9]+(?:\.[0-9]+)?(?:\s*-\s*[0-9]+(?:\.[0-9]+)?)?\s*%\s*CBD) *)
      Group 1 (seq [dec_range; spaces; chr true "%"; spaces; word "CBD"]) ]);
   ("flowering_time",
    [ (* (?:flowering|flower)\s+(?:time|period):?\s*([^\n\.]+?)(?:\.|\n|$) *)
      seq [words ["flowering"; "flower"]; Plus true space;
           words ["time"; "period"]; Opt (chr true ":"); spaces;
           to_end_of_sentence];
      (* (?:blooms?|flowers?)\s+(?:in|for|after)\s*([^\n\.]+?)(?:\.|\n|$) *)
      seq [Alt (plural "bloom") (plural "flower"); Plus true space;
           words ["in"; "for"; "after"]; spaces; to_end_of_sentence];
      (* ([0-9]+(?:\s*-\s*[0-9]+)?\s*(?:weeks?|days?|wks?)\s*(?:flowering|flower|bloom)) *)
      Group 1 (seq [int_range; spaces;
                    alt [plural "week"; plural "day"; plural "wk"]; spaces;
                    words ["flowering"; "flower"; "bloom"]]) ]);
   ("height",
    [ (* (?:height|tall|grows?):?\s*([^\n\.]+?)(?:\.|\n|$) *)
      seq [alt [word "height"; word "tall"; plural "grow"];
           Opt (chr true ":"); spaces; to_end_of_sentence];
      (* (?:reaches|up to|grows to)\s*([^\n\.]+?)(?:\.|\n|$) *)
      seq [words ["reaches"; "up to"; "grows to"]; spaces;
           to_end_of_sentence];
      (* ([0-9]+(?:\s*-\s*[0-9]+)?\s*(?:cm|feet?|ft|inches?|in)\s*(?:tall|high|height)) *)
      Group 1 (seq [int_range; spaces;
                    alt [word "cm"; Seq (word "fee") (Opt (chr true "t"));
                         word "ft";
                         plural "inche"; word "in"];
                    spaces; words ["tall"; "high"; "height"]]) ]);
   ("yield",
    [ (* (?:yield|harvest|produces?):?\s*([^\n\.]+?)(?:\.|\n|$) *)
      seq [alt [word "yield"; word "harvest"; plural "produce"];
           Opt (chr true ":"); spaces; to_end_of_sentence];
      (* (?:up to|around|approximately)\s*([^\n\.]+?)(?:\.|\n|$) *)
      seq [words ["up to"; "around"; "approximately"]; spaces;
           to_end_of_sentence];
      (* ([0-9]+(?:\s*-\s*[0-9]+)?\s*(?:g|grams?|oz|ounces?)\s*(?:per|/|m2|plant)) *)
      Group 1 (seq [int_range; spaces;
                    alt [word "g"; plural "gram"; word "oz"; plural "ounce"];
                    spaces; words ["per"; "/"; "m2"; "plant"]]) ]);
   ("genetics",
    [ (* (?:genetics|lineage|cross|bred from):?\s*([^\n\.]+?)(?:\.|\n|$) *)
      seq [words ["genetics"; "lineage"; "cross"; "bred from"];
           Opt (chr true ":"); spaces; to_end_of_sentence];
      (* ([0-9]+\s*%\s*(?:sativa|indica)(?:\s*[^\n\.]*?)?)(?:\.|\n|$) *)
      Seq (Group 1 (seq [number; spaces; chr true "%"; spaces;
                         words ["sativa"; "indica"];
                         Opt (Seq spaces (Star false not_nl_dot))]))
          (alt [chr true "."; chr true "010"; EndLine]);
      (* (?:hybrid|cross)\s+(?:of|between)\s*([^\n\.]+?)(?:\.|\n|$) *)
      seq [words ["hybrid"; "cross"]; Plus true space;
           words ["of"; "between"]; spaces; to_end_of_sentence] ])].

(** [match.group(1).strip()] needs the group: a group that took no part in
    the match is [None], and [None.strip()] raises. *)
Definition group1 (m : caps) : res string :=
  match group 1 m with
  | Some g => Ok g
  | None => Raise AttributeError
  end.

(** The loop over the matches of one pattern: the first match whose group,
    stripped, is not empty. *)
Fixpoint first_hit (matches : list caps) : res (option string) :=
  match matches with
  | [] => Ok None
  | m :: rest =>
      g ← group1 m;
      if PyStr.truthy (PyStr.strip g) then Ok (Some (PyStr.strip g))
      else first_hit rest
  end.

(** The loop over the patterns of one field.  The [break] at a hit leaves
    the loop over the matches, not this one: every pattern is tried, and a
    pattern with a hit sets the field, whatever it held.  (The test
    [if f"{field_name}_raw" in pattern_data: continue] that follows the
    loop is the last statement of the body of the loop over the fields.) *)
Definition match_field (page_text field_name : string)
    (field_patterns : list regex) (pattern_data : gmap string pyvalue)
    : res (gmap string pyvalue) :=
  fold_left
    (fun acc pattern =>
       pattern_data ← acc;
       hit ← first_hit (finditer pattern page_text);
       match hit with
       | Some g => Ok (set_field field_name (PStr g) "Pattern matching"
                         pattern_data)
       | None => Ok pattern_data
       end)
    field_patterns (Ok pattern_data).

Definition _extract_with_patterns (s : soup) : res (gmap string pyvalue) :=
  let page_text := page_text s in
  fold_left
    (fun acc fp =>
       pattern_data ← acc;
       match_field page_text (fst fp) (snd fp) pattern_data)
    patterns (Ok ∅).

(** *** Visual indicators *)

Definition rating (image_data : gmap string pyvalue) (element : rating_element)
    : gmap string pyvalue :=
  if String.eqb (tag_name element) "img" then
    let alt_text := default "" (alt_attribute element) in
    if PyStr.contains "star" (PyStr.lower alt_text) ||
       PyStr.contains "rating" (PyStr.lower alt_text)
    then set_field "rating_visual" (PStr ("[Image: " ++ alt_text ++ "]"))
           "Image alt text" image_data
    else image_data
  else
    match star_elements element with
    | O => image_data
    | n => set_field "rating_visual"
             (PStr ("[Visual: " ++ str_of_nat n ++ " star elements]"))
             "Visual elements" image_data
    end.

Definition _extract_from_images (s : soup) : gmap string pyvalue :=
  let image_data := fold_left rating (rating_elements s) ∅ in
  match List.find PyStr.truthy (difficulty_elements s) with
  | Some text => set_field "difficulty" (PStr text) "Visual indicator" image_data
  | None => image_data
  end.

(** *** Metadata *)

Section Metadata.

(** [json.loads] on text: the value, or [None] where it raises
    [JSONDecodeError]. *)
Variable parse_json : string -> option json.

(** [json.loads(script.string)]; a script without [.string] hands it
    [None]. *)
Definition json_loads (script_string : option string) : res json :=
  match script_string with
  | None => Raise TypeError
  | Some text =>
      match parse_json text with
      | Some j => Ok j
      | None => Raise JSONDecodeError
      end
  end.

(** [key in d] and [d[key]] for the entries of a dictionary; the last entry
    of a key is the one it holds. *)
Definition json_get (key : string) (entries : list (string * pyvalue))
    : option pyvalue :=
  option_map snd
    (List.find (fun e => String.eqb (fst e) key) (List.rev entries)).

(** The body of the loop over the linked-data scripts, with its
    [except (json.JSONDecodeError, AttributeError): continue]. *)
Definition json_ld_script (meta_data : gmap string pyvalue)
    (script_string : option string) : res (gmap string pyvalue) :=
  match json_loads script_string with
  | Ok (JDict entries) =>
      let meta_data :=
        match json_get "name" entries with
        | Some v => set_field "structured_name" v "JSON-LD structured data"
                      meta_data
        | None => meta_data
        end in
      Ok (match json_get "description" entries with
          | Some v => set_field "structured_description" v
                        "JSON-LD structured data" meta_data
          | None => meta_data
          end)
  | Ok JOther => Ok meta_data
  | Raise JSONDecodeError | Raise AttributeError => Ok meta_data
  | Raise e => Raise e
  end.

Definition _extract_metadata (s : soup) : res (gmap string pyvalue) :=
  let meta_data :=
    match meta_description s with
    | Some tag =>
        let content := default "" tag in
        if PyStr.truthy content
        then set_field "meta_description" (PStr content) "HTML meta tag" ∅
        else ∅
    | None => ∅
    end in
  let meta_data :=
    match title_tag s with
    | Some title_text =>
        if PyStr.truthy title_text
        then set_field "page_title" (PStr title_text) "HTML title tag"
               meta_data
        else meta_data
    | None => meta_data
    end in
  fold_left (fun acc script => meta_data ← acc; json_ld_script meta_data script)
            (json_ld_scripts s) (Ok meta_data).

(** *** The five strategies, merged *)

(** [extracted_data] *)
Record extracted : Type := {
  source_url : string;
  extraction_timestamp : string;
  raw_data : gmap string pyvalue
}.

(** [if data: raw_data.update(data)] *)
Definition update (data raw_data : gmap string pyvalue)
    : gmap string pyvalue :=
  if bool_decide (data = ∅) then raw_data else data ∪ raw_data.

Definition found (data : gmap string pyvalue) (counter : nat) : nat :=
  if bool_decide (data = ∅) then counter else S counter.

(** [timestamp] is what [_get_timestamp()] reads off the clock. *)
Definition extract_strain_data (self : extraction_stats) (s : soup)
    (source_url timestamp : string) : res (extracted * extraction_stats) :=
  let raw_data := ∅ in
  let table_data := _extract_from_tables s in
  let raw_data := update table_data raw_data in
  let desc_data := _extract_from_descriptions s in
  let raw_data := update desc_data raw_data in
  pattern_data ← _extract_with_patterns s;
  let raw_data := update pattern_data raw_data in
  let image_data := _extract_from_images s in
  let raw_data := update image_data raw_data in
  meta_data ← _extract_metadata s;
  let raw_data := update meta_data raw_data in
  Ok ({| source_url := source_url;
         extraction_timestamp := timestamp;
         raw_data := raw_data |},
      {| tables_found := found table_data (tables_found self);
         descriptions_found := found desc_data (descriptions_found self);
         patterns_matched := found pattern_data (patterns_matched self);
         images_processed := found image_data (images_processed self) |}).

End Metadata.

(** *** Vocabulary of the properties *)

(** The hit of the earliest pattern of the list that has one. *)
Fixpoint earliest_hit (field_patterns : list regex) (page_text : string)
    : option string :=
  match field_patterns with
  | [] => None
  | pattern :: rest =>
      match first_hit (finditer pattern page_text) with
      | Ok (Some g) => Some g
      | _ => earliest_hit rest page_text
      end
  end.

(** The hit of the latest pattern of the list that has one. *)
Fixpoint latest_hit (field_patterns : list regex) (page_text : string)
    : option string :=
  match field_patterns with
  | [] => None
  | pattern :: rest =>
      match latest_hit rest page_text with
      | Some g => Some g
      | None =>
          match first_hit (finditer pattern page_text) with
          | Ok (Some g) => Some g
          | _ => None
          end
      end
  end.

(** A field set from a hit, left alone without one. *)
Definition with_hit (field_name : string) (hit : option string)
    (d : gmap string pyvalue) : gmap string pyvalue :=
  match hit with
  | Some g => set_field field_name (PStr g) "Pattern matching" d
  | None => d
  end.

(** A document that is nothing but its text. *)
Definition text_only (text : string) : soup := {|
  tables := [];
  selected := fun _ => [];
  page_text := text;
  rating_elements := [];
  difficulty_elements := [];
  meta_description := None;
  title_tag := None;
  json_ld_scripts := []
|}.

(** A document that is nothing but one linked-data script element with no
    text in it: [<script type="application/ld+json"></script>]. *)
Definition empty_script : soup := {|
  tables := [];
  selected := fun _ => [];
  page_text := "";
  rating_elements := [];
  difficulty_elements := [];
  meta_description := None;
  title_tag := None;
  json_ld_scripts := [None]
|}.

(** The first of the values that is there. *)
Fixpoint first_of {A} (l : list (option A)) : option A :=
  match l with
  | [] => None
  | Some v :: _ => Some v
  | None :: rest => first_of rest
  end.

(** A page with a specification table and a text that the height patterns
    match: table scan and pattern matching both write [height_raw]. *)
Definition sample_page : soup := {|
  tables := [{| table_text := "THC Content18-24%Height120-180cm";
                table_rows := [["THC Content"; "18-24%"];
                               ["Height"; "120-180cm"]] |}];
  selected := fun _ => [];
  page_text := "Blue Dream Height 120-180cm tall";
  rating_elements := [];
  difficulty_elements := [];
  meta_description := None;
  title_tag := Some "Blue Dream";
  json_ld_scripts := []
|}.

(** *** Vocabulary of further properties *)

(** Every populated [<field>_raw] has its [<field>_source]. *)
Definition paired (d : gmap string pyvalue) : Prop :=
  forall field_name,
    is_Some (d !! (field_name ++ "_raw")%string) ->
    is_Some (d !! (field_name ++ "_source")%string).


(** The sentences [_extract_contextual_mentions] looks at: the pieces of the
    text, stripped, without the empty ones. *)
Definition sentences (text : string) : list string :=
  List.filter PyStr.truthy
    (map PyStr.strip (split_sentences text EmptyString false)).

(** The last character of a text. *)
Fixpoint last_char (s : string) : option ascii :=
  match s with
  | EmptyString => None
  | String a EmptyString => Some a
  | String _ t => last_char t
  end.

End Extractor.

(** ** The Normalizer: [MedallionProcessor] *)

Module Normalizer.
Import Re PyNum.

(** [self.conversion_rules] *)
Record height_rules : Type := {
  Short : Z;
  Medium : Z;
  Tall : Z;
  feet_to_cm : Q
}.

Record flowering_rules : Type := {
  weeks_to_days : Z
}.

Record conversion_rules : Type := {
  height : height_rules;
  flowering : flowering_rules
}.

(** [__init__] *)
Definition init_rules : conversion_rules := {|
  height := {| Short := 80; Medium := 120; Tall := 180;
               feet_to_cm := 3048 # 100 |};
  flowering := {| weeks_to_days := 7 |}
|}.

(** The shape the range patterns share: [(num)\s*-?\s*(num)?\s*unit]. *)
Definition range (num unit : regex) : regex :=
  seq [Group 1 num; spaces; Opt (chr false "-"); spaces;
       Opt (Group 2 num); spaces; unit].

(** [(\d+(?:\.\d+)?)\s*-?\s*(\d+(?:\.\d+)?)?\s*] followed by the unit *)
Definition decimal_range (unit : regex) : regex := range decimal unit.

(** [(\d+)\s*-?\s*(\d+)?\s*] followed by the unit *)
Definition integer_range (unit : regex) : regex := range digits unit.

(** [r'(\d+(?:\.\d+)?)\s*-?\s*(\d+(?:\.\d+)?)?\s*cm'], [re.IGNORECASE] *)
Definition cm_pattern : regex := decimal_range (lit true "cm").

(** [r'(\d+(?:\.\d+)?)\s*-?\s*(\d+(?:\.\d+)?)?\s*(?:feet|ft)'],
    [re.IGNORECASE] *)
Definition feet_pattern : regex :=
  decimal_range (Alt (lit true "feet") (lit true "ft")).

(** [r'(\d+)\s*-?\s*(\d+)?\s*(?:weeks?|wks?)'], [re.IGNORECASE] *)
Definition week_pattern : regex :=
  integer_range (Alt (Seq (lit true "week") (Opt (chr true "s")))
                     (Seq (lit true "wk") (Opt (chr true "s")))).

(** [r'(\d+)\s*-?\s*(\d+)?\s*days?'], [re.IGNORECASE] *)
Definition day_pattern : regex :=
  integer_range (Seq (lit true "day") (Opt (chr true "s"))).

(** [r'(\d+(?:\.\d+)?)\s*-?\s*(\d+(?:\.\d+)?)?\s*%'], no flag *)
Definition percent_pattern : regex := decimal_range (chr false "%").

(** [rf'(\d+)\s*%\s*{genetics_type}'], [re.IGNORECASE]; the callers pass
    the plain words [sativa] and [indica]. *)
Definition genetics_pattern (genetics_type : string) : regex :=
  seq [Group 1 digits; spaces; chr false "%"; spaces; lit true genetics_type].

(** [float(match.group(1))] and [int(match.group(1))] need the group: a
    group that took no part in the match is [None], and the conversion of
    [None] raises. *)
Definition group1 (c : caps) : res string :=
  match group 1 c with
  | Some s => Ok s
  | None => Raise TypeError
  end.

(** [not raw]: absent or empty. *)
Definition absent (raw : option string) : bool :=
  match raw with
  | None => true
  | Some s => negb (PyStr.truthy s)
  end.

Section Processor.
Variable self : conversion_rules.

Definition _extract_height_range (height_raw : option string)
    (max_val : bool) : res (option Q) :=
  match height_raw with
  | None => Ok None
  | Some height_raw =>
    if negb (PyStr.truthy height_raw) then Ok None else
    let height_lower := PyStr.lower height_raw in
    if PyStr.contains "short" height_lower
    then Ok (Some (inject_Z (Short (height self))))
    else if PyStr.contains "medium" height_lower
    then Ok (Some (inject_Z (Medium (height self))))
    else if PyStr.contains "tall" height_lower
    then Ok (Some (inject_Z (Tall (height self))))
    else
    match search cm_pattern height_raw with
    | Some cm_match =>
        g1 ← group1 cm_match;
        min_val ← py_float g1;
        match group 2 cm_match with
        | Some max_val_found =>
            if PyStr.truthy max_val_found && max_val
            then v ← py_float max_val_found; Ok (Some v)
            else Ok (Some min_val)
        | None => Ok (Some min_val)
        end
    | None =>
    match search feet_pattern height_raw with
    | Some feet_match =>
        g1 ← group1 feet_match;
        f1 ← py_float g1;
        let min_val := Qred (f1 * feet_to_cm (height self)) in
        match group 2 feet_match with
        | Some max_val_found =>
            if PyStr.truthy max_val_found && max_val
            then v ← py_float max_val_found;
                 Ok (Some (Qred (v * feet_to_cm (height self))))
            else Ok (Some min_val)
        | None => Ok (Some min_val)
        end
    | None => Ok None
    end
    end
  end.

Definition _extract_flowering_range (flowering_raw : option string)
    (max_val : bool) : res (option Z) :=
  match flowering_raw with
  | None => Ok None
  | Some flowering_raw =>
    if negb (PyStr.truthy flowering_raw) then Ok None else
    match search week_pattern flowering_raw with
    | Some week_match =>
        g1 ← group1 week_match;
        min_weeks ← py_int g1;
        match group 2 week_match with
        | Some max_weeks =>
            if PyStr.truthy max_weeks && max_val
            then v ← py_int max_weeks;
                 Ok (Some (v * weeks_to_days (flowering self))%Z)
            else Ok (Some (min_weeks * weeks_to_days (flowering self))%Z)
        | None => Ok (Some (min_weeks * weeks_to_days (flowering self))%Z)
        end
    | None =>
    match search day_pattern flowering_raw with
    | Some day_match =>
        g1 ← group1 day_match;
        min_days ← py_int g1;
        match group 2 day_match with
        | Some max_days =>
            if PyStr.truthy max_days && max_val
            then v ← py_int max_days; Ok (Some v)
            else Ok (Some min_days)
        | None => Ok (Some min_days)
        end
    | None => Ok None
    end
    end
  end.

Definition _extract_percentage_range (percentage_raw : option string)
    (max_val : bool) : res (option Q) :=
  match percentage_raw with
  | None => Ok None
  | Some percentage_raw =>
    if negb (PyStr.truthy percentage_raw) then Ok None else
    match search percent_pattern percentage_raw with
    | Some percent_match =>
        g1 ← group1 percent_match;
        min_val ← py_float g1;
        match group 2 percent_match with
        | Some max_val_found =>
            if PyStr.truthy max_val_found && max_val
            then v ← py_float max_val_found; Ok (Some v)
            else Ok (Some min_val)
        | None => Ok (Some min_val)
        end
    | None => Ok None
    end
  end.

Definition _extract_genetics (genetics_raw : option string)
    (genetics_type : string) : res (option Z) :=
  match genetics_raw with
  | None => Ok None
  | Some genetics_raw =>
    if negb (PyStr.truthy genetics_raw) then Ok None else
    match search (genetics_pattern genetics_type) genetics_raw with
    | Some m => g1 ← group1 m; v ← py_int g1; Ok (Some v)
    | None => Ok None
    end
  end.

(** The keyword tables of [_standardize_effects] and [_standardize_flavors],
    in the order the dictionaries list them. *)
Definition effect_mappings : list (string * string) :=
  [("relaxing", "Relaxed"); ("euphoric", "Euphoric");
   ("uplifting", "Uplifted"); ("energetic", "Energetic");
   ("creative", "Creative"); ("focused", "Focused");
   ("happy", "Happy"); ("sleepy", "Sleepy")].

Definition flavor_mappings : list (string * string) :=
  [("citrus", "Citrus"); ("lemon", "Lemon"); ("orange", "Orange");
   ("berry", "Berry"); ("sweet", "Sweet"); ("earthy", "Earthy");
   ("pine", "Pine"); ("diesel", "Diesel"); ("skunk", "Skunk");
   ("fruity", "Fruity")].

(** The loop shared by the two: the labels whose keyword occurs in the
    lower-cased text, joined in table order. *)
Definition standardize (mappings : list (string * string))
    (raw : option string) : option string :=
  match raw with
  | None => None
  | Some raw =>
    if negb (PyStr.truthy raw) then None else
    let raw_lower := PyStr.lower raw in
    let standardized :=
      map snd (List.filter (fun m => PyStr.contains (fst m) raw_lower)
                           mappings) in
    match standardized with
    | [] => None
    | _ => Some (PyStr.join ", " standardized)
    end
  end.

Definition _standardize_effects (effects_raw : option string) : option string :=
  standardize effect_mappings effects_raw.

Definition _standardize_flavors (flavors_raw : option string) : option string :=
  standardize flavor_mappings flavors_raw.

(** [field_weights], in dictionary order. *)
Definition field_weights : list (string * Z) :=
  [("height_raw", 2); ("flowering_time_raw", 3); ("thc_content_raw", 3);
   ("cbd_content_raw", 2); ("genetics_raw", 2); ("effects_raw", 1);
   ("flavors_raw", 1)]%Z.

(** [bronze_data.get(field) and len(str(bronze_data[field]).strip()) > 2] *)
Definition counts (bronze_data : gmap string string) (field : string) : bool :=
  match bronze_data !! field with
  | Some v => PyStr.truthy v && (2 <? String.length (PyStr.strip v))%nat
  | None => false
  end.

Definition total_possible : Z :=
  fold_left Z.add (map snd field_weights) 0%Z.

Definition actual_score (bronze_data : gmap string string) : Z :=
  fold_left (fun acc fw => if counts bronze_data (fst fw)
                           then (acc + snd fw)%Z else acc)
            field_weights 0%Z.

(** [(actual_score / total_possible) * 100] *)
Definition percentage (bronze_data : gmap string string) : Q :=
  (inject_Z (actual_score bronze_data) / inject_Z total_possible) * 100.

(** The chain of comparisons that closes [_calculate_confidence]. *)
Definition confidence_bucket (percentage : Q) : Z :=
  if Qle_bool 90 percentage then 5
  else if Qle_bool 70 percentage then 4
  else if Qle_bool 50 percentage then 3
  else if Qle_bool 30 percentage then 2
  else 1.

Definition _calculate_confidence (bronze_data : gmap string string) : Z :=
  confidence_bucket (percentage bronze_data).

(** [gold_data] *)
Record GoldRecord : Type := {
  height_cm_min : option Q;
  height_cm_max : option Q;
  flowering_days_min : option Z;
  flowering_days_max : option Z;
  thc_percentage_min : option Q;
  thc_percentage_max : option Q;
  cbd_percentage_min : option Q;
  cbd_percentage_max : option Q;
  sativa_percentage : option Z;
  indica_percentage : option Z;
  effects_standardized : option string;
  flavors_standardized : option string;
  confidence_score : Z
}.

(** The value [process_bronze_to_gold] returns; its [bronze] entry is the
    dictionary the caller passed, not a copy. *)
Record layers : Type := {
  bronze : gmap string string;
  gold : GoldRecord
}.

End Processor.

(** *** The call as a state transformer

    What a call can reach: the processor's rule table and the caller's
    bronze dictionary. *)

Record heap : Type := {
  self_conversion_rules : conversion_rules;
  bronze_data : gmap string string
}.

Definition St (A : Type) : Type := heap -> res A * heap.

Definition ret {A} (a : A) : St A := fun h => (Ok a, h).

#[global] Instance St_bind : MBind St := fun A B f m h =>
  match m h with
  | (Ok a, h') => f a h'
  | (Raise e, h') => (Raise e, h')
  end.

(** [bronze_data.get(key)] *)
Definition dict_get (key : string) : St (option string) :=
  fun h => (Ok (bronze_data h !! key), h).

(** [self.conversion_rules] *)
Definition rules : St conversion_rules :=
  fun h => (Ok (self_conversion_rules h), h).

(** The dictionary itself, as [_calculate_confidence] and the result
    receive it. *)
Definition the_bronze : St (gmap string string) :=
  fun h => (Ok (bronze_data h), h).

(** A method that only computes. *)
Definition lift {A} (m : res A) : St A := fun h => (m, h).

Definition process_bronze_to_gold : St layers :=
  self ← rules;
  raw ← dict_get "height_raw";
  v_height_cm_min ← lift (_extract_height_range self raw false);
  raw ← dict_get "height_raw";
  v_height_cm_max ← lift (_extract_height_range self raw true);
  raw ← dict_get "flowering_time_raw";
  v_flowering_days_min ← lift (_extract_flowering_range self raw false);
  raw ← dict_get "flowering_time_raw";
  v_flowering_days_max ← lift (_extract_flowering_range self raw true);
  raw ← dict_get "thc_content_raw";
  v_thc_percentage_min ← lift (_extract_percentage_range raw false);
  raw ← dict_get "thc_content_raw";
  v_thc_percentage_max ← lift (_extract_percentage_range raw true);
  raw ← dict_get "cbd_content_raw";
  v_cbd_percentage_min ← lift (_extract_percentage_range raw false);
  raw ← dict_get "cbd_content_raw";
  v_cbd_percentage_max ← lift (_extract_percentage_range raw true);
  raw ← dict_get "genetics_raw";
  v_sativa_percentage ← lift (_extract_genetics raw "sativa");
  raw ← dict_get "genetics_raw";
  v_indica_percentage ← lift (_extract_genetics raw "indica");
  raw ← dict_get "effects_raw";
  let v_effects_standardized := _standardize_effects raw in
  raw ← dict_get "flavors_raw";
  let v_flavors_standardized := _standardize_flavors raw in
  b ← the_bronze;
  let v_confidence_score := _calculate_confidence b in
  let gold_data := {|
    height_cm_min := v_height_cm_min;
    height_cm_max := v_height_cm_max;
    flowering_days_min := v_flowering_days_min;
    flowering_days_max := v_flowering_days_max;
    thc_percentage_min := v_thc_percentage_min;
    thc_percentage_max := v_thc_percentage_max;
    cbd_percentage_min := v_cbd_percentage_min;
    cbd_percentage_max := v_cbd_percentage_max;
    sativa_percentage := v_sativa_percentage;
    indica_percentage := v_indica_percentage;
    effects_standardized := v_effects_standardized;
    flavors_standardized := v_flavors_standardized;
    confidence_score := v_confidence_score
  |} in
  b ← the_bronze;
  ret {| bronze := b; gold := gold_data |}.

(** *** Vocabulary of the properties *)

(** The number a request selects from what a match captured. *)
Definition selected {A} (max_val : bool) (first : A) (second : option A) : A :=
  match second with
  | Some x => if max_val then x else first
  | None => first
  end.

(** The numbers a match captured: group 1, and group 2 when it took part. *)
Definition numbers {A} (parse : string -> res A) (m : caps) : res (A * option A) :=
  g1 ← group1 m;
  first ← parse g1;
  match group 2 m with
  | Some g2 => second ← parse g2; Ok (first, Some second)
  | None => Ok (first, None)
  end.

(** The weights of the fields that count, summed. *)
Definition counted_weights (bronze_data : gmap string string) : Z :=
  fold_right Z.add 0%Z
    (map snd (List.filter (fun fw => counts bronze_data (fst fw))
                          field_weights)).

(** The text names one of the qualitative heights. *)
Definition qualitative (raw : string) : bool :=
  PyStr.contains "short" (PyStr.lower raw) ||
  PyStr.contains "medium" (PyStr.lower raw) ||
  PyStr.contains "tall" (PyStr.lower raw).

(** A record at the one boundary a record can reach: weights 3 + 3 + 1 of
    14 are half of the total. *)
Definition half_filled : gmap string string :=
  <["flowering_time_raw" := "8-9 weeks"]>
  (<["thc_content_raw" := "18%"]>
  (<["effects_raw" := "happy"]> ∅)).

End Normalizer.

(** ** The Outlier Detector: [CannabisOutlierDetector]

    The data frame is taken with the default index (the rows numbered from
    0) and with numeric or null cells in the columns the detector reads.
    [generate_report], which renders the result as text, is not part of the
    model. *)

Module Outlier.
Local Open Scope Q_scope.

(** One entry of [self.validation_rules].  [typical_max] is listed for the
    two potency fields and read by nobody. *)
Record rules : Type := {
  r_min : option Q;
  r_max : option Q;
  typical_max : option Q;
  typical_range : option (Q * Q)
}.

(** [self.outlier_stats] *)
Record stats : Type := {
  s_total_records : Z;
  s_outliers_found : Z;
  s_critical_outliers : Z;
  s_warnings : Z
}.

Record detector : Type := {
  validation_rules : list (string * rules);
  outlier_stats : stats
}.

(** [__init__] *)
Definition init : detector := {|
  validation_rules :=
    [("thc_percentage",
      {| r_min := Some 0; r_max := Some 45; typical_max := Some 35;
         typical_range := None |});
     ("cbd_percentage",
      {| r_min := Some 0; r_max := Some 30; typical_max := Some 25;
         typical_range := None |});
     ("height_cm",
      {| r_min := Some 30; r_max := Some 300; typical_max := None;
         typical_range := Some (60, 200) |});
     ("flowering_days",
      {| r_min := Some 35; r_max := Some 120; typical_max := None;
         typical_range := Some (49, 84) |});
     ("yield_grams_per_m2",
      {| r_min := Some 50; r_max := Some 1000; typical_max := None;
         typical_range := Some (300, 600) |});
     ("sativa_percentage",
      {| r_min := Some 0; r_max := Some 100; typical_max := None;
         typical_range := None |});
     ("indica_percentage",
      {| r_min := Some 0; r_max := Some 100; typical_max := None;
         typical_range := None |});
     ("confidence_score",
      {| r_min := Some 1; r_max := Some 5; typical_max := None;
         typical_range := None |})];
  outlier_stats :=
    {| s_total_records := 0; s_outliers_found := 0;
       s_critical_outliers := 0; s_warnings := 0 |}
|}.

(** A row of the data frame: the numeric cells (a missing key is a null
    cell) and the cell of the [strain_name] column, when the frame has
    one. *)
Record row : Type := {
  cells : gmap string Q;
  strain_name : option string
}.

(** The data frame: its column names and its rows, indexed from 0 in
    order. *)
Record DataFrame : Type := {
  columns : list string;
  rows : list row
}.

(** [field in df.columns] *)
Definition has_column (df : DataFrame) (field : string) : bool :=
  existsb (String.eqb field) (columns df).

(** [df[cond].index.tolist()], each index with its row. *)
Definition select (cond : row -> bool) (df : DataFrame) : list (nat * row) :=
  List.filter (fun ir => cond (snd ir)) (imap (fun i r => (i, r)) (rows df)).

(** Comparisons of a cell with a number; a null cell compares false. *)
Definition cell_lt (r : row) (field : string) (bound : Q) : bool :=
  match cells r !! field with
  | Some v => negb (Qle_bool bound v)
  | None => false
  end.

Definition cell_gt (r : row) (field : string) (bound : Q) : bool :=
  match cells r !! field with
  | Some v => negb (Qle_bool v bound)
  | None => false
  end.

Definition cell_ge (r : row) (field : string) (bound : Q) : bool :=
  match cells r !! field with
  | Some v => Qle_bool bound v
  | None => false
  end.

Definition cell_le (r : row) (field : string) (bound : Q) : bool :=
  match cells r !! field with
  | Some v => Qle_bool v bound
  | None => false
  end.

(** [df[field].notna()] *)
Definition cell_notna (r : row) (field : string) : bool :=
  match cells r !! field with
  | Some _ => true
  | None => false
  end.

Inductive severity : Set := critical | warning.

Inductive violation : Set :=
| below_minimum
| above_maximum
| below_typical
| above_typical
| min_greater_than_max
| genetics_not_100_percent
| high_thc_and_cbd.

(** A finding: the keys every finding dictionary has, and what the kind of
    finding adds: [values], the observed cell or cells (for genetics, then
    their total); [expected], the bound or the typical range the cell was
    held against; [note]. *)
Record finding : Type := {
  row_index : nat;
  violation_type : violation;
  fields : list string;
  values : list (option Q);
  expected : list Q;
  f_severity : severity;
  f_strain_name : string;
  note : option string
}.

(** [df.loc[idx].get('strain_name', 'Unknown')] *)
Definition name_of (r : row) : string :=
  match strain_name r with
  | Some n => n
  | None => "Unknown"
  end.

Definition field_finding (check_field : string) (v : violation)
    (bounds : list Q) (sev : severity) (ir : nat * row) : finding :=
  {| row_index := fst ir;
     violation_type := v;
     fields := [check_field];
     values := [cells (snd ir) !! check_field];
     expected := bounds;
     f_severity := sev;
     f_strain_name := name_of (snd ir);
     note := None |}.

(** The body of the loop over [fields_to_check]. *)
Definition check_one (df : DataFrame) (rl : rules) (check_field : string)
    : list finding :=
  if negb (has_column df check_field) then [] else
  (match r_min rl with
   | Some lo =>
       map (field_finding check_field below_minimum [lo] critical)
           (select (fun r => cell_lt r check_field lo) df)
   | None => []
   end ++
   match r_max rl with
   | Some hi =>
       map (field_finding check_field above_maximum [hi] critical)
           (select (fun r => cell_gt r check_field hi) df)
   | None => []
   end ++
   match typical_range rl with
   | Some (typical_min, typical_max) =>
       map (field_finding check_field below_typical
              [typical_min; typical_max] warning)
           (select (fun r =>
                      cell_ge r check_field (default 0 (r_min rl)) &&
                      cell_lt r check_field typical_min) df) ++
       map (field_finding check_field above_typical
              [typical_min; typical_max] warning)
           (select (fun r =>
                      match r_max rl with
                      | Some hi => cell_le r check_field hi
                      | None => cell_notna r check_field
                      end &&
                      cell_gt r check_field typical_max) df)
   | None => []
   end)%list.

Definition fields_to_check (df : DataFrame) (field : string) : list string :=
  let min_field := (field ++ "_min")%string in
  let max_field := (field ++ "_max")%string in
  ((if has_column df min_field then [min_field] else []) ++
   (if has_column df max_field then [max_field] else []) ++
   (if has_column df field then [field] else []))%list.

Definition _check_field_outliers (df : DataFrame) (field : string)
    (rl : rules) : list finding :=
  flat_map (check_one df rl) (fields_to_check df field).

Definition min_max_pairs : list (string * string) :=
  [("thc_percentage_min", "thc_percentage_max");
   ("cbd_percentage_min", "cbd_percentage_max");
   ("height_cm_min", "height_cm_max");
   ("flowering_days_min", "flowering_days_max");
   ("yield_grams_per_m2_min", "yield_grams_per_m2_max")].

(** [df[min_field] > df[max_field]] *)
Definition min_exceeds_max (min_field max_field : string) (r : row) : bool :=
  match cells r !! min_field, cells r !! max_field with
  | Some lo, Some hi => negb (Qle_bool lo hi)
  | _, _ => false
  end.

(** [abs(sativa + indica - 100)] *)
Definition deviation (sativa indica : Q) : Q := Qabs (sativa + indica - 100).

(** The filter of the genetics check: both cells present and the total off
    by more than 1. *)
Definition genetics_violation (r : row) : bool :=
  match cells r !! "sativa_percentage", cells r !! "indica_percentage" with
  | Some sativa, Some indica => negb (Qle_bool (deviation sativa indica) 1)
  | _, _ => false
  end.

Definition genetics_finding (ir : nat * row) : finding :=
  let sativa := cells (snd ir) !! "sativa_percentage" in
  let indica := cells (snd ir) !! "indica_percentage" in
  let total :=
    match sativa, indica with
    | Some s, Some i => Some (s + i)
    | _, _ => None
    end in
  {| row_index := fst ir;
     violation_type := genetics_not_100_percent;
     fields := ["sativa_percentage"; "indica_percentage"];
     values := [sativa; indica; total];
     expected := [];
     f_severity :=
       match total with
       | Some t => if Qle_bool (Qabs (t - 100)) 5 then warning else critical
       | None => critical
       end;
     f_strain_name := name_of (snd ir);
     note := None |}.

Definition _check_impossible_combinations (df : DataFrame) : list finding :=
  (flat_map
     (fun p =>
        let '(min_field, max_field) := p in
        if has_column df min_field && has_column df max_field
        then map (fun ir =>
                    {| row_index := fst ir;
                       violation_type := min_greater_than_max;
                       fields := [min_field; max_field];
                       values := [cells (snd ir) !! min_field;
                                  cells (snd ir) !! max_field];
                       expected := [];
                       f_severity := critical;
                       f_strain_name := name_of (snd ir);
                       note := None |})
                 (select (min_exceeds_max min_field max_field) df)
        else [])
     min_max_pairs ++
   (if has_column df "sativa_percentage" && has_column df "indica_percentage"
    then map genetics_finding (select genetics_violation df)
    else []) ++
   (if has_column df "thc_percentage_max" && has_column df "cbd_percentage_max"
    then map (fun ir =>
                {| row_index := fst ir;
                   violation_type := high_thc_and_cbd;
                   fields := ["thc_percentage_max"; "cbd_percentage_max"];
                   values := [cells (snd ir) !! "thc_percentage_max";
                              cells (snd ir) !! "cbd_percentage_max"];
                   expected := [];
                   f_severity := warning;
                   f_strain_name := name_of (snd ir);
                   note := Some "Rare but possible - verify source data" |})
             (select (fun r => cell_gt r "thc_percentage_max" 20 &&
                               cell_gt r "cbd_percentage_max" 15) df)
    else []))%list.

(** A pattern finding of [_check_suspicious_patterns]. *)
Inductive pattern : Type :=
| too_many_round_numbers (field : string) (round_percentage : Q)
    (total_values : nat)
| high_duplicate_rate (duplicate_count total_records : nat)
    (duplicate_percentage : Q).

(** [value % 5 == 0] *)
Definition multiple_of_5 (v : Q) : bool :=
  let q := Qred (v / 5) in Pos.eqb (Qden q) 1.

Definition count {A} (p : A -> bool) (l : list A) : nat :=
  List.length (List.filter p l).

(** Two rows agree on the fields; two null cells agree. *)
Definition same_on (subset : list string) (r1 r2 : row) : bool :=
  forallb (fun f =>
             match cells r1 !! f, cells r2 !! f with
             | Some a, Some b => Qeq_bool a b
             | None, None => true
             | _, _ => false
             end) subset.

(** [df.duplicated(subset=..., keep=False).sum()] *)
Definition duplicate_count (subset : list string) (df : DataFrame) : nat :=
  count (fun ir =>
           existsb (fun jr => negb (Nat.eqb (fst ir) (fst jr)) &&
                              same_on subset (snd ir) (snd jr))
                   (imap (fun i r => (i, r)) (rows df)))
        (imap (fun i r => (i, r)) (rows df)).

Definition _check_suspicious_patterns (df : DataFrame) : list pattern :=
  (flat_map
     (fun field =>
        if has_column df field then
          let round_values :=
            count (fun r => match cells r !! field with
                            | Some v => multiple_of_5 v
                            | None => false
                            end) (rows df) in
          let total_values := count (fun r => cell_notna r field) (rows df) in
          if (0 <? total_values)%nat then
            let round_percentage :=
              Qred (inject_Z (Z.of_nat round_values) /
                    inject_Z (Z.of_nat total_values) * 100) in
            if negb (Qle_bool round_percentage 80)
            then [too_many_round_numbers field round_percentage total_values]
            else []
          else []
        else [])
     ["thc_percentage_min"; "thc_percentage_max";
      "cbd_percentage_min"; "cbd_percentage_max"] ++
   (if (100 <? List.length (rows df))%nat then
      let available_fields :=
        List.filter (has_column df)
          ["thc_percentage_max"; "cbd_percentage_max"; "flowering_days_max"] in
      if (2 <=? List.length available_fields)%nat then
        let n := List.length (rows df) in
        let dups := duplicate_count available_fields df in
        if negb (Qle_bool (inject_Z (Z.of_nat dups))
                          (inject_Z (Z.of_nat n) * (1 # 10)))
        then [high_duplicate_rate dups n
                (Qred (inject_Z (Z.of_nat dups) / inject_Z (Z.of_nat n) * 100))]
        else []
      else []
    else []))%list.

(** [outlier_results['summary']] *)
Record summary : Type := {
  total_records : Z;
  total_outliers : Z;
  sum_critical_outliers : Z;
  sum_warnings : Z;
  clean_records : Z;
  outlier_percentage : Q;
  data_quality_score : Q
}.

(** [outlier_results]; [res_summary] is [None] until the summary is
    generated. *)
Record outlier_results : Type := {
  critical_outliers : list finding;
  warnings : list finding;
  impossible_values : list finding;
  suspicious_patterns : list pattern;
  res_summary : option summary
}.

Definition severity_eqb (a b : severity) : bool :=
  match a, b with
  | critical, critical | warning, warning => true
  | _, _ => false
  end.

(** [sum(1 for outlier in l if outlier.get('severity') == sev)] *)
Definition count_severity (sev : severity) (l : list finding) : Z :=
  Z.of_nat (count (fun f => severity_eqb (f_severity f) sev) l).

(** [max(0, x)] *)
Definition max0 (x : Q) : Q := if Qle_bool x 0 then 0 else x.

Definition _generate_summary (self : detector) (results : outlier_results)
    : summary * detector :=
  let total_outliers :=
    Z.of_nat (List.length (critical_outliers results) +
              List.length (impossible_values results)) in
  let critical_count :=
    (count_severity critical (critical_outliers results) +
     count_severity critical (impossible_values results))%Z in
  let warning_count :=
    (count_severity warning (critical_outliers results) +
     count_severity warning (impossible_values results))%Z in
  let self := {|
    validation_rules := validation_rules self;
    outlier_stats :=
      {| s_total_records := s_total_records (outlier_stats self);
         s_outliers_found := total_outliers;
         s_critical_outliers := critical_count;
         s_warnings := warning_count |} |} in
  let n := s_total_records (outlier_stats self) in
  ({| total_records := n;
      total_outliers := total_outliers;
      sum_critical_outliers := critical_count;
      sum_warnings := warning_count;
      clean_records := (n - total_outliers)%Z;
      outlier_percentage :=
        if (0 <? n)%Z
        then inject_Z total_outliers / inject_Z n * 100 else 0;
      data_quality_score :=
        if (0 <? n)%Z
        then max0 (100 - inject_Z total_outliers / inject_Z n * 100)
        else 0 |},
   self).

Definition detect_outliers (self : detector) (df : DataFrame)
    : outlier_results * detector :=
  let self := {|
    validation_rules := validation_rules self;
    outlier_stats :=
      {| s_total_records := Z.of_nat (List.length (rows df));
         s_outliers_found := s_outliers_found (outlier_stats self);
         s_critical_outliers := s_critical_outliers (outlier_stats self);
         s_warnings := s_warnings (outlier_stats self) |} |} in
  let field_outliers :=
    flat_map (fun fr =>
                if has_column df (fst fr)
                then _check_field_outliers df (fst fr) (snd fr)
                else [])
             (validation_rules self) in
  let results := {|
    critical_outliers := field_outliers;
    warnings := [];
    impossible_values := _check_impossible_combinations df;
    suspicious_patterns := _check_suspicious_patterns df;
    res_summary := None |} in
  let '(sm, self) := _generate_summary self results in
  ({| critical_outliers := critical_outliers results;
      warnings := warnings results;
      impossible_values := impossible_values results;
      suspicious_patterns := suspicious_patterns results;
      res_summary := Some sm |},
   self).

(** *** Vocabulary of the properties *)

(** The findings of the genetics kind that name row [idx]. *)
Definition genetics_findings_at (idx : nat) (l : list finding) : list finding :=
  List.filter (fun f => Nat.eqb (row_index f) idx &&
                        match violation_type f with
                        | genetics_not_100_percent => true
                        | _ => false
                        end) l.




(** A row with a cell outside the hard bounds of its field, in the plain
    column of a configured field or in its [_min] or [_max] column. *)
Definition hard_violation_row (self : detector) (df : DataFrame) (r : row)
    : bool :=
  existsb (fun fr =>
             existsb (fun c =>
                        has_column df c &&
                        (match r_min (snd fr) with
                         | Some lo => cell_lt r c lo
                         | None => false
                         end ||
                         match r_max (snd fr) with
                         | Some hi => cell_gt r c hi
                         | None => false
                         end))
                     [(fst fr ++ "_min")%string; (fst fr ++ "_max")%string;
                      fst fr])
          (validation_rules self).

(** The number of rows that contain a hard-bound violation. *)
Definition rows_with_hard_violation (self : detector) (df : DataFrame) : nat :=
  count (hard_violation_row self df) (rows df).

(** Three rows, their totals 99, 95 and 80. *)
Definition genetics_rows : DataFrame := {|
  columns := ["strain_name"; "sativa_percentage"; "indica_percentage"];
  rows :=
    [{| cells := {["sativa_percentage" := 60; "indica_percentage" := 39]};
        strain_name := Some "A" |};
     {| cells := {["sativa_percentage" := 60; "indica_percentage" := 35]};
        strain_name := Some "B" |};
     {| cells := {["sativa_percentage" := 60; "indica_percentage" := 20]};
        strain_name := Some "C" |}]
|}.


(** The gold columns of one record whose potency is out of bounds; the
    frame has no plain [thc_percentage] column. *)
Definition gold_columns_only : DataFrame := {|
  columns := ["strain_name"; "thc_percentage_min"; "thc_percentage_max"];
  rows :=
    [{| cells := {["thc_percentage_min" := 60; "thc_percentage_max" := 70]};
        strain_name := Some "Impossible Strain" |}]
|}.

(** *** Vocabulary of further properties *)

(** The findings that name row [idx] and the columns [cols]. *)
Definition findings_at (idx : nat) (cols : list string) (l : list finding)
    : list finding :=
  List.filter (fun f => Nat.eqb (row_index f) idx &&
                        bool_decide (fields f = cols)) l.

(** The kind of a finding and its severity. *)
Definition kind (f : finding) : violation * severity :=
  (violation_type f, f_severity f).

(** [a < b] on cell values. *)
Definition lt_bool (a b : Q) : bool := negb (Qle_bool b a).

(** What a value is held to be, given the hard bounds and the typical range
    of its field: outside the hard bounds, or inside them and outside the
    typical range, or unremarkable. *)
Definition verdict (lo hi : Q) (typical : option (Q * Q)) (v : Q)
    : list (violation * severity) :=
  if lt_bool v lo then [(below_minimum, critical)]
  else if lt_bool hi v then [(above_maximum, critical)]
  else match typical with
       | Some (typical_min, typical_max) =>
           if lt_bool v typical_min then [(below_typical, warning)]
           else if lt_bool typical_max v then [(above_typical, warning)]
           else []
       | None => []
       end.

(** The typical range lies within the hard bounds. *)
Definition nested (lo hi : Q) (typical : option (Q * Q)) : Prop :=
  match typical with
  | Some (typical_min, typical_max) =>
      lo <= typical_min /\ typical_min <= typical_max /\ typical_max <= hi
  | None => lo <= hi
  end.

(** The three columns the bound checks of a field can read. *)
Definition columns_of (field : string) : list string :=
  [(field ++ "_min")%string; (field ++ "_max")%string; field].

(** Heights of 20, 45, 100, 250 and 400 centimetres, and a null cell. *)
Definition heights : DataFrame := {|
  columns := ["strain_name"; "height_cm"];
  rows :=
    map (fun v => {| cells := {["height_cm" := v]}; strain_name := None |})
        [20; 45; 100; 250; 400] ++
    [{| cells := ∅; strain_name := Some "No height" |}]
|}.

(** One record whose THC bounds are the wrong way round, and one whose
    bounds are in order. *)
Definition inverted_bounds : DataFrame := {|
  columns := ["strain_name"; "thc_percentage_min"; "thc_percentage_max"];
  rows :=
    [{| cells := {["thc_percentage_min" := 24; "thc_percentage_max" := 18]};
        strain_name := Some "Inverted" |};
     {| cells := {["thc_percentage_min" := 18; "thc_percentage_max" := 24]};
        strain_name := Some "In order" |}]
|}.

End Outlier.

(** ** The sanitizer: processing/html_sanitizer.py *)

Module Sanitizer.

(** [re.sub(r'\s+', ' ', text)]: every maximal run of whitespace becomes
    one space.  [in_run] says that the character before was whitespace. *)
Fixpoint sub_spaces (in_run : bool) (text : string) : string :=
  match text with
  | EmptyString => EmptyString
  | String a t =>
      if PyStr.is_space a
      then if in_run then sub_spaces true t else String " " (sub_spaces true t)
      else String a (sub_spaces false t)
  end.

Section Sanitize.

(** What BeautifulSoup is asked for: the page parsed, the non-essential
    elements and those with an advertising or tracking class removed, and
    the text of [main], of [body] or of the whole document, in this order
    of preference, its pieces stripped and joined by spaces. *)
Variable main_text : string -> string.

Definition sanitize_html (html_content : string) : string :=
  let cleaned_text := main_text html_content in
  let cleaned_text := sub_spaces false cleaned_text in
  if (3000 <? String.length cleaned_text)%nat
  then String.substring 0 3000 cleaned_text ++ "..."
  else cleaned_text.

End Sanitize.

(** *** Vocabulary of the properties *)

(** The only whitespace is single spaces. *)
Fixpoint single_spaced (text : string) : bool :=
  match text with
  | EmptyString => true
  | String a t =>
      (if PyStr.is_space a
       then Ascii.eqb a " " &&
            match t with
            | String b _ => negb (PyStr.is_space b)
            | EmptyString => true
            end
       else true) && single_spaced t
  end.

(** [text.endswith(suffix)] *)
Definition ends_with (suffix text : string) : bool :=
  String.eqb
    (String.substring (String.length text - String.length suffix)
                      (String.length suffix) text)
    suffix.

End Sanitizer.

(** * Properties *)

(** ** Text and patterns *)

Module ReFacts.
Import Re.

Lemma orelse_Some {A} (x y : option A) v :
  orelse x y = Some v -> x = Some v \/ y = Some v.
Proof. destruct x; simpl; auto. Qed.

Lemma rmatch_sound {A} (r : regex) :
  forall s c (k : string -> caps -> option A) v,
    rmatch r s c k = Some v ->
    exists s' c', matches r s c s' c' /\ k s' c' = Some v.
Proof.
  induction r as [| p | r1 IH1 r2 IH2 | r1 IH1 r2 IH2 | g r1 IH1 | n r1 IH1 |];
    intros s c k v H; simpl in H.
  - exists s, c. split; [constructor | exact H].
  - destruct s as [| a t]; [discriminate |].
    destruct (p a) eqn:Hp; [| discriminate].
    exists t, c. split; [by constructor | exact H].
  - apply IH1 in H as (s1 & c1 & M1 & H).
    apply IH2 in H as (s2 & c2 & M2 & H).
    exists s2, c2. split; [econstructor; eauto | exact H].
  - apply orelse_Some in H as [H | H].
    + apply IH1 in H as (s' & c' & M & H). exists s', c'. split; [by apply M_AltL | done].
    + apply IH2 in H as (s' & c' & M & H). exists s', c'. split; [by apply M_AltR | done].
  - revert H. generalize (String.length s) as fuel. intros fuel. revert s c.
    induction fuel as [| fuel IHf]; intros s c H.
    + exists s, c. split; [constructor | exact H].
    + assert (Hcases :
        rmatch r1 s c (fun s' c' =>
           if (String.length s' <? String.length s)%nat
           then (fix loop (fuel : nat) (s : string) (c : caps) {struct fuel} : option A :=
         match fuel with
         | O => k s c
         | S fuel' =>
             let again :=
               rmatch r1 s c (fun s' c' =>
                 if (String.length s' <? String.length s)%nat
                 then loop fuel' s' c' else None) in
             if g then orelse again (k s c) else orelse (k s c) again
         end) fuel s' c' else None) = Some v \/ k s c = Some v).
      { destruct g; apply orelse_Some in H; tauto. }
      destruct Hcases as [H1 | H1].
      * apply IH1 in H1 as (s1 & c1 & M1 & H1).
        destruct (String.length s1 <? String.length s)%nat; [| discriminate].
        apply IHf in H1 as (s2 & c2 & M2 & H2).
        exists s2, c2. split; [eapply M_StarStep; eauto | done].
      * exists s, c. split; [constructor | done].
  - apply IH1 in H as (s' & c' & M & H).
    exists s', ((n, consumed s s') :: c'). split; [by constructor | done].
  - destruct s as [| a t].
    + exists "", c. split; [constructor | done].
    + destruct (Ascii.eqb_spec a "010"); [subst | discriminate].
      eexists _, c. split; [constructor | done].
Qed.

Lemma app_cons a (s t : string) : String a s ++ t = String a (s ++ t).
Proof. reflexivity. Qed.

Lemma app_nil (t : string) : "" ++ t = t.
Proof. reflexivity. Qed.

Lemma app_string_assoc (a b c : string) : (a ++ b) ++ c = a ++ b ++ c.
Proof. induction a; rewrite ?app_nil, ?app_cons; congruence. Qed.

Lemma length_app_string (d s : string) :
  String.length (d ++ s) = (String.length d + String.length s)%nat.
Proof. induction d; rewrite ?app_nil, ?app_cons; simpl; auto. Qed.

Lemma groupless_caps r s c s' c' :
  matches r s c s' c' -> groupless r = true -> c' = c.
Proof.
  induction 1; simpl; intros G; try done.
  - apply andb_prop in G as [G1 G2]. rewrite IHmatches2, IHmatches1; auto.
  - apply andb_prop in G as [G1 G2]. auto.
  - apply andb_prop in G as [G1 G2]. auto.
  - rewrite IHmatches2, IHmatches1; auto.
Qed.

Lemma matches_split r s c s' c' :
  matches r s c s' c' -> exists d, s = d ++ s'.
Proof.
  induction 1; try (by exists "").
  - by exists (String a "").
  - destruct IHmatches1 as [d1 ->], IHmatches2 as [d2 ->].
    exists (d1 ++ d2). by rewrite app_string_assoc.
  - done.
  - done.
  - destruct IHmatches1 as [d1 ->], IHmatches2 as [d2 ->].
    exists (d1 ++ d2). by rewrite app_string_assoc.
  - done.
Qed.

Lemma consumed_app d s : consumed (d ++ s) s = d.
Proof.
  unfold consumed. rewrite length_app_string.
  replace (String.length d + String.length s - String.length s)%nat with (String.length d) by lia.
  induction d as [| a d IH]; rewrite ?app_nil, ?app_cons; simpl.
  - by destruct s.
  - by rewrite IH.
Qed.

Lemma matches_Eps_inv s c s' c' : matches Eps s c s' c' -> s' = s /\ c' = c.
Proof. by inversion 1. Qed.

Lemma matches_Chr_inv p s c s' c' :
  matches (Chr p) s c s' c' -> exists a, s = String a s' /\ p a = true /\ c' = c.
Proof. inversion 1; subst. by eexists. Qed.

Lemma matches_Seq_inv r1 r2 s c s' c' :
  matches (Seq r1 r2) s c s' c' ->
  exists s1 c1, matches r1 s c s1 c1 /\ matches r2 s1 c1 s' c'.
Proof. inversion 1; subst. eauto. Qed.

Lemma matches_Alt_inv r1 r2 s c s' c' :
  matches (Alt r1 r2) s c s' c' -> matches r1 s c s' c' \/ matches r2 s c s' c'.
Proof. inversion 1; subst; auto. Qed.

Lemma matches_Group_inv n r s c s' c' :
  matches (Group n r) s c s' c' ->
  exists c1, matches r s c s' c1 /\ c' = (n, consumed s s') :: c1.
Proof. inversion 1; subst. eauto. Qed.

Lemma all_digits_app d1 d2 : PyStr.all_digits (d1 ++ d2) = PyStr.all_digits d1 && PyStr.all_digits d2.
Proof. induction d1; rewrite ?app_nil, ?app_cons; simpl; [done|]. by rewrite IHd1, andb_assoc. Qed.

Lemma star_digit_run g s c s' c' :
  matches (Star g digit) s c s' c' ->
  c' = c /\ exists d, s = d ++ s' /\ PyStr.all_digits d = true.
Proof.
  remember (Star g digit) as r eqn:Hr. induction 1; try discriminate.
  - split; [done|]. by exists "".
  - injection Hr as -> ->. destruct IHmatches2 as (-> & d & -> & Hd); [done|].
    apply matches_Chr_inv in H as (a & -> & Ha & ->). split; [done|].
    exists (String a d). rewrite app_cons; split; [done|]. simpl. by rewrite Ha.
Qed.

Lemma digits_run s c s' c' :
  matches digits s c s' c' ->
  c' = c /\ exists d, s = d ++ s' /\ PyStr.all_digits d = true /\ d <> "".
Proof.
  intros H. apply matches_Seq_inv in H as (s1 & c1 & H1 & H2).
  apply matches_Chr_inv in H1 as (a & -> & Ha & ->).
  apply star_digit_run in H2 as (-> & d & -> & Hd).
  split; [done|]. exists (String a d). rewrite app_cons. repeat split; try done.
  simpl. by rewrite Ha.
Qed.

Lemma search_sound r s c :
  search r s = Some c -> exists t s', matches r t [] s' c.
Proof.
  induction s as [| a s IH]; simpl; unfold match_here.
  - destruct (rmatch r "" [] _) as [[s' c']|] eqn:E; [| discriminate].
    intros [= <-]. apply rmatch_sound in E as (s1 & c1 & M & [= <- <-]). eauto.
  - destruct (rmatch r (String a s) [] _) as [[s' c']|] eqn:E; [| exact IH].
    intros [= <-]. apply rmatch_sound in E as (s1 & c1 & M & [= <- <-]). eauto.
Qed.

Lemma group_numeral n num s c s' c' :
  groupless num = true ->
  matches (Group n num) s c s' c' ->
  exists g, numeral num g /\ c' = (n, g) :: c.
Proof.
  intros G H. apply matches_Group_inv in H as (c1 & M & ->).
  pose proof (groupless_caps _ _ _ _ _ M G) as ->.
  exists (consumed s s'). split; [| done]. by exists s, s', c.
Qed.

Lemma range_groups num unit s s' c :
  groupless num = true -> groupless unit = true ->
  matches (Normalizer.range num unit) s [] s' c ->
  exists g1, numeral num g1 /\ group 1 c = Some g1 /\
    (group 2 c = None \/ exists g2, numeral num g2 /\ group 2 c = Some g2).
Proof.
  intros Gn Gu H. unfold Normalizer.range in H. simpl in H.
  apply matches_Seq_inv in H as (s1 & c1 & H1 & H).
  apply (group_numeral _ _ _ _ _ _ Gn) in H1 as (g1 & N1 & ->).
  apply matches_Seq_inv in H as (s2 & c2 & H2 & H).
  apply groupless_caps in H2 as ->; [| done].
  apply matches_Seq_inv in H as (s3 & c3 & H3 & H).
  apply groupless_caps in H3 as ->; [| done].
  apply matches_Seq_inv in H as (s4 & c4 & H4 & H).
  apply groupless_caps in H4 as ->; [| done].
  apply matches_Seq_inv in H as (s5 & c5 & H5 & H).
  apply matches_Seq_inv in H as (s6 & c6 & H6 & H).
  apply groupless_caps in H6 as ->; [| done].
  apply groupless_caps in H as ->; [| done].
  exists g1. split; [done|].
  apply matches_Alt_inv in H5 as [H5 | H5].
  - apply (group_numeral _ _ _ _ _ _ Gn) in H5 as (g2 & N2 & ->).
    simpl. split; [done|]. right. by exists g2.
  - apply matches_Eps_inv in H5 as [_ ->]. simpl. split; [done|]. by left.
Qed.

Import PyNum.

Lemma digits_val_ok d : PyStr.all_digits d = true -> forall acc, (0 <= acc)%Z ->
  exists z, digits_val d acc = Some z /\ (0 <= z)%Z.
Proof.
  induction d as [| a d IH]; simpl; intros Hd acc Hacc.
  - eauto.
  - apply andb_prop in Hd as [Ha Hd]. rewrite Ha. apply IH; [done|].
    unfold digit_val. unfold PyStr.is_digit in Ha. 
    apply andb_prop in Ha as [Ha _]. apply Nat.leb_le in Ha. lia.
Qed.

Lemma py_int_digits d : PyStr.all_digits d = true -> d <> "" ->
  exists z, py_int d = Ok z /\ (0 <= z)%Z.
Proof.
  intros Hd Hne. unfold py_int. destruct d as [| a d]; [done|].
  destruct (digits_val_ok _ Hd 0%Z) as (z & -> & Hz); [lia|]. eauto.
Qed.

Lemma numeral_digits g : numeral digits g -> PyStr.all_digits g = true /\ g <> "".
Proof.
  intros (s & s' & c & M & <-). apply digits_run in M as (_ & d & -> & Hd & Hne).
  by rewrite consumed_app.
Qed.

Lemma split_dot_digits d : PyStr.all_digits d = true -> split_dot d = (d, None).
Proof.
  induction d as [| a d IH]; simpl; [done|]. intros H.
  apply andb_prop in H as [Ha Hd]. rewrite (IH Hd).
  destruct (Ascii.eqb_spec a "."); [subst; discriminate | done].
Qed.

Lemma split_dot_point i f :
  PyStr.all_digits i = true -> split_dot (i ++ String "." f) = (i, Some f).
Proof.
  induction i as [| a i IH]; rewrite ?app_nil, ?app_cons; simpl; [done|]. intros H.
  apply andb_prop in H as [Ha Hi]. rewrite (IH Hi).
  destruct (Ascii.eqb_spec a "."); [subst; discriminate | done].
Qed.

Lemma py_float_decimal g : numeral decimal g -> exists q, py_float g = Ok q.
Proof.
  intros (s & s' & c & M & <-). unfold decimal in M.
  apply matches_Seq_inv in M as (s1 & c1 & M1 & M2).
  apply digits_run in M1 as (-> & i & -> & Hi & Hine).
  destruct (py_int_digits _ Hi Hine) as (zi & Ezi & _).
  apply matches_Alt_inv in M2 as [M2 | M2].
  - apply matches_Seq_inv in M2 as (s2 & c2 & M2 & M3).
    apply matches_Chr_inv in M2 as (a & -> & Ha & ->).
    apply digits_run in M3 as (_ & f & -> & Hf & Hfne).
    destruct (py_int_digits _ Hf Hfne) as (zf & Ezf & _).
    destruct (Ascii.eqb_spec a "."); [subst | discriminate].
    replace (i ++ String "." (f ++ s')) with ((i ++ String "." f) ++ s')
      by (by rewrite app_string_assoc, app_cons).
    rewrite consumed_app. unfold py_float. rewrite (split_dot_point _ _ Hi).
    rewrite Ezi. simpl. rewrite Ezf. simpl. eauto.
  - apply matches_Eps_inv in M2 as [-> _]. rewrite consumed_app.
    unfold py_float. rewrite (split_dot_digits _ Hi), Ezi. simpl. eauto.
Qed.

Lemma numeral_digits_truthy g : numeral digits g -> PyStr.truthy g = true.
Proof. intros H. apply numeral_digits in H as [_ H]. by destruct g. Qed.

Lemma numeral_decimal_truthy g : numeral decimal g -> PyStr.truthy g = true.
Proof.
  intros (s & s' & c & M & <-). unfold decimal in M.
  apply matches_Seq_inv in M as (s1 & c1 & M1 & M2).
  apply digits_run in M1 as (-> & i & -> & Hi & Hine).
  destruct (matches_split _ _ _ _ _ M2) as [d ->].
  rewrite <- app_string_assoc, consumed_app. destruct i; [done|]. by rewrite app_cons.
Qed.

(** *** The matcher on the patterns of the code

    The answers are those of Python's [re] on the same pattern and text. *)

Example search_cm_range :
  search Normalizer.cm_pattern "80-120cm" = Some [(2, "120"); (1, "80")].
Proof. vm_compute. reflexivity. Qed.

Example search_cm_leftmost :
  search Normalizer.cm_pattern "1 2 3 cm" = Some [(2, "3"); (1, "2")].
Proof. vm_compute. reflexivity. Qed.

Example search_cm_decimal :
  search Normalizer.cm_pattern "1.5.5cm" = Some [(1, "5.5")].
Proof. vm_compute. reflexivity. Qed.

Example search_feet_ignores_case :
  search Normalizer.feet_pattern "3 - 4.5 FT" = Some [(2, "4.5"); (1, "3")].
Proof. vm_compute. reflexivity. Qed.

Example search_percent_single :
  search Normalizer.percent_pattern "Low CBD <1%" = Some [(1, "1")].
Proof. vm_compute. reflexivity. Qed.

Example search_weeks_none :
  search Normalizer.week_pattern "63 Days" = None.
Proof. vm_compute. reflexivity. Qed.

Example finditer_lazy_group_blank :
  map (group 1)
      (finditer (nth 0 (snd (nth 0 Extractor.patterns ("", []))) Eps)
                "THC:  .  THC . cbd..cbd 3") =
  [Some " "; Some " "].
Proof. vm_compute. reflexivity. Qed.

Example finditer_end_of_line :
  map (group 1)
      (finditer (nth 0 (snd (nth 0 Extractor.patterns ("", []))) Eps)
                "THC: 20%
CBD: 1%") =
  [Some "20%"].
Proof. vm_compute. reflexivity. Qed.

Example finditer_blank_crosses_line :
  map (group 1)
      (finditer (nth 1 (snd (nth 5 Extractor.patterns ("", []))) Eps)
                "70 % INDICA.
55%sativa
5 % sativa dominant. rest") =
  [Some "70 % INDICA"; Some "55%sativa
5 % sativa dominant"].
Proof. vm_compute. reflexivity. Qed.

End ReFacts.

(** ** The Extractor *)

Module ExtractorFacts.
Import Re ReFacts Extractor.

(** *** The patterns always capture group 1 *)

Lemma group_kept n r s c s' c' :
  matches r s c s' c' -> is_Some (group n c) -> is_Some (group n c').
Proof.
  induction 1; intros G; auto.
  simpl. destruct (Nat.eqb n0 n); [done | auto].
Qed.

Lemma captures_sound n r s c s' c' :
  captures n r = true -> matches r s c s' c' -> is_Some (group n c').
Proof.
  intros C M. induction M; simpl in C; try discriminate.
  - apply orb_prop in C as [C | C].
    + eapply group_kept; eauto.
    + auto.
  - apply andb_prop in C as [C _]. auto.
  - apply andb_prop in C as [_ C]. auto.
  - simpl. destruct (Nat.eqb n0 n); [done|]. auto.
Qed.

Lemma finditer_sound r s skip m :
  In m (finditer_from r s skip) -> exists t s', matches r t [] s' m.
Proof.
  revert skip. induction s as [| a s IH]; intros skip; simpl.
  - destruct skip; [| done]. unfold match_here.
    destruct (rmatch r "" [] _) as [[s' c] |] eqn:E; [| done].
    intros [<- | []]. apply rmatch_sound in E as (s1 & c1 & M & [= <- <-]). eauto.
  - destruct skip; [| apply IH]. unfold match_here.
    destruct (rmatch r (String a s) [] _) as [[s' c] |] eqn:E; [| apply IH].
    intros [<- | H]; [| by apply IH in H].
    apply rmatch_sound in E as (s1 & c1 & M & [= <- <-]). eauto.
Qed.

Lemma first_hit_returns ms :
  (forall m, In m ms -> is_Some (group 1 m)) -> returns (first_hit ms).
Proof.
  induction ms as [| m ms IH]; intros H; simpl; [by eexists|].
  destruct (H m) as [g E]; [by left|]. unfold group1. rewrite E. simpl.
  destruct (PyStr.truthy _); [by eexists|]. apply IH. intros m' I. apply H. by right.
Qed.

Lemma pattern_hit_returns r text :
  captures 1 r = true -> returns (first_hit (finditer r text)).
Proof.
  intros C. apply first_hit_returns. intros m I.
  apply finditer_sound in I as (t & s' & M). by eapply captures_sound.
Qed.

(** *** The loop over the patterns of a field *)

Lemma raw_source_differ f : (f ++ "_raw")%string <> (f ++ "_source")%string.
Proof. intros H. by apply (inj (String.append f)) in H. Qed.

Lemma set_field_twice f v1 s1 v2 s2 d :
  set_field f v2 s2 (set_field f v1 s1 d) = set_field f v2 s2 d.
Proof.
  apply map_eq. intros k. unfold set_field.
  destruct (decide (k = (f ++ "_source")%string)) as [-> |];
    [by rewrite !lookup_insert_eq|].
  destruct (decide (k = (f ++ "_raw")%string)) as [-> |].
  - rewrite !(lookup_insert_ne _ (f ++ "_source")%string) by done.
    by rewrite !lookup_insert_eq.
  - by rewrite !lookup_insert_ne by done.
Qed.

Lemma with_hit_twice f h1 h2 d :
  with_hit f h2 (with_hit f h1 d) =
  with_hit f (match h2 with Some g => Some g | None => h1 end) d.
Proof. destruct h1, h2; simpl; try done. apply set_field_twice. Qed.

Lemma match_field_latest text f pats d :
  forallb (captures 1) pats = true ->
  match_field text f pats d = Ok (with_hit f (latest_hit pats text) d).
Proof.
  unfold match_field. revert d.
  induction pats as [| p pats IH]; intros d C; simpl; [done|].
  simpl in C. apply andb_prop in C as [Cp C].
  destruct (pattern_hit_returns p text Cp) as [h Eh]. rewrite Eh. simpl.
  destruct h as [g |]; rewrite (IH _ C).
  - change (set_field f (PStr g) "Pattern matching" d)
      with (with_hit f (Some g) d).
    rewrite with_hit_twice. by destruct (latest_hit pats text).
  - by destruct (latest_hit pats text).
Qed.

Lemma patterns_capture :
  forallb (fun fp => forallb (captures 1) (snd fp)) patterns = true.
Proof. reflexivity. Qed.

(** The pattern strategy never raises: what it returns is each field set
    from the latest of its patterns that has a hit. *)
Lemma extract_with_patterns_value s :
  _extract_with_patterns s =
  Ok (fold_left (fun d fp => with_hit (fst fp) (latest_hit (snd fp) (page_text s)) d)
                patterns ∅).
Proof.
  unfold _extract_with_patterns. generalize (∅ : gmap string pyvalue) as d.
  pose proof patterns_capture as C. revert C.
  induction patterns as [| fp l IH]; intros C d; simpl; [done|].
  simpl in C. apply andb_prop in C as [Cp C].
  rewrite (match_field_latest _ _ _ _ Cp). apply (IH C).
Qed.

Lemma lookup_with_hit_raw f h d :
  with_hit f h d !! (f ++ "_raw")%string =
  match h with
  | Some g => Some (PStr g)
  | None => d !! (f ++ "_raw")%string
  end.
Proof.
  destruct h as [g |]; simpl; [| done]. unfold set_field.
  rewrite lookup_insert_ne by (intros H; by apply (raw_source_differ f)).
  by rewrite lookup_insert_eq.
Qed.

Lemma lookup_with_hit_other f h d k :
  k <> (f ++ "_raw")%string -> k <> (f ++ "_source")%string ->
  with_hit f h d !! k = d !! k.
Proof.
  intros H1 H2. destruct h as [g |]; simpl; [| done]. unfold set_field.
  by rewrite !lookup_insert_ne.
Qed.

(** What the pattern strategy stores for a field: the hit of the latest of
    its patterns that has one. *)
Lemma pattern_value_is_latest_hit s field pats :
  In (field, pats) patterns ->
  exists d, _extract_with_patterns s = Ok d /\
    d !! (field ++ "_raw")%string = PStr <$> latest_hit pats (page_text s).
Proof.
  intros I. eexists. split; [apply extract_with_patterns_value|].
  unfold patterns in *. cbn [In] in I.
  destruct I as [I | [I | [I | [I | [I | [I | []]]]]]];
    apply pair_equal_spec in I as [<- <-];
    cbn [fold_left fst snd];
    repeat first
      [ rewrite lookup_with_hit_other by (cbv; discriminate)
      | rewrite lookup_with_hit_raw;
        match goal with |- context [latest_hit ?p ?t] =>
          destruct (latest_hit p t); [done|] end ];
    done.
Qed.

(** C1, on the code.  The loop leaves the inner [for] at a hit and goes on
    to the next pattern of the field, so the value kept is that of the last
    pattern with a hit.  On ["18% THC level: high"] the first pattern of
    [thc_content] captures ["level: high"], and the value stored is the
    ["18% THC"] of the third. *)
Theorem pattern_loop_keeps_last_hit :
  let text := "18% THC level: high" in
  exists d thc_patterns,
    In ("thc_content", thc_patterns) patterns /\
    _extract_with_patterns (text_only text) = Ok d /\
    earliest_hit thc_patterns text = Some "level: high" /\
    latest_hit thc_patterns text = Some "18% THC" /\
    d !! "thc_content_raw" = Some (PStr "18% THC").
Proof.
  eexists _, _. split; [by left|].
  split; [vm_compute; reflexivity|].
  repeat split; vm_compute; reflexivity.
Qed.

(** *** The merge *)

Lemma lookup_update data raw key :
  update data raw !! key =
  match data !! key with
  | Some v => Some v
  | None => raw !! key
  end.
Proof.
  unfold update. case_bool_decide as E.
  - subst. by rewrite lookup_empty.
  - rewrite lookup_union. by destruct (data !! key), (raw !! key).
Qed.

(** C2. The five strategies run in the order table scan, prose mining,
    pattern matching, visual indicators, metadata scan, and each output is
    merged over what is there: for every key the record returned holds the
    value of the last strategy, in this order, that produced the key. *)
Theorem merge_last_writer_wins (parse_json : string -> option json)
    (self : extraction_stats) (s : soup) (url timestamp : string)
    (meta_data : gmap string pyvalue) :
  _extract_metadata parse_json s = Ok meta_data ->
  exists pattern_data out self',
    _extract_with_patterns s = Ok pattern_data /\
    extract_strain_data parse_json self s url timestamp = Ok (out, self') /\
    forall key,
      raw_data out !! key =
      first_of [meta_data !! key;
                _extract_from_images s !! key;
                pattern_data !! key;
                _extract_from_descriptions s !! key;
                _extract_from_tables s !! key].
Proof.
  intros M. unfold extract_strain_data.
  rewrite extract_with_patterns_value, M. simpl.
  eexists _, _, _. split; [reflexivity|]. split; [reflexivity|].
  intros key. simpl. rewrite !lookup_update, lookup_empty.
  repeat match goal with |- context [match ?x !! key with _ => _ end] =>
    destruct (x !! key) end; done.
Qed.

Lemma merge_last_writer_wins_witness :
  exists out self',
    extract_strain_data (fun _ => None) init sample_page "u" "t" =
      Ok (out, self') /\
    _extract_from_tables sample_page !! "height_raw" =
      Some (PStr "120-180cm") /\
    raw_data out !! "height_raw" = Some (PStr "120-180cm tall") /\
    raw_data out !! "thc_raw" = Some (PStr "18-24%") /\
    raw_data out !! "page_title_raw" = Some (PStr "Blue Dream").
Proof.
  destruct (merge_last_writer_wins (fun _ => None) init sample_page "u" "t"
              _ eq_refl) as (pattern_data & out & self' & P & E & K).
  exists out, self'. split; [exact E|].
  vm_compute in P. injection P as <-.
  rewrite !K. repeat split; vm_compute; reflexivity.
Defined.

(** *** The metadata scan *)

(** C8, on the code.  A linked-data script element without a text child has
    no [.string]; [json.loads(None)] raises [TypeError], which the handler
    around it does not catch, and the extraction raises. *)
Theorem empty_script_raises (parse_json : string -> option json)
    (self : extraction_stats) (url timestamp : string) :
  extract_strain_data parse_json self empty_script url timestamp =
  Raise TypeError.
Proof. reflexivity. Qed.


End ExtractorFacts.

(** ** The Normalizer *)

Module NormalizerFacts.
Import Re PyNum Normalizer ReFacts.

Lemma search_nonempty r raw m :
  search r raw = Some m -> search r "" = None -> PyStr.truthy raw = true.
Proof. destruct raw; [congruence | done]. Qed.

(** What a match of a range pattern captured always reads as numbers. *)
Lemma range_numbers {A} (parse : string -> res A) num unit raw m :
  groupless num = true -> groupless unit = true ->
  (forall g, numeral num g -> PyStr.truthy g = true /\ exists v, parse g = Ok v) ->
  search (range num unit) raw = Some m ->
  exists g1 n1, group 1 m = Some g1 /\ parse g1 = Ok n1 /\
    ((group 2 m = None /\ numbers parse m = Ok (n1, None)) \/
     (exists g2 n2, group 2 m = Some g2 /\ PyStr.truthy g2 = true /\
        parse g2 = Ok n2 /\ numbers parse m = Ok (n1, Some n2))).
Proof.
  intros Gn Gu P H. apply search_sound in H as (t & s' & M).
  apply range_groups in M as (g1 & N1 & E1 & H2); [| done | done].
  destruct (P _ N1) as (_ & n1 & En1).
  exists g1, n1. split; [done|]. split; [done|].
  unfold numbers, group1. rewrite E1. simpl. rewrite En1. simpl.
  destruct H2 as [E2 | (g2 & N2 & E2)].
  - left. by rewrite E2.
  - right. destruct (P _ N2) as (T2 & n2 & En2).
    exists g2, n2. rewrite E2, En2. done.
Qed.

Lemma decimal_parses g :
  numeral decimal g -> PyStr.truthy g = true /\ exists v, py_float g = Ok v.
Proof. split; [by apply numeral_decimal_truthy | by apply py_float_decimal]. Qed.

Lemma digits_parse g :
  numeral digits g -> PyStr.truthy g = true /\ exists v, py_int g = Ok v.
Proof.
  split; [by apply numeral_digits_truthy |].
  apply numeral_digits in H as [Hd Hne].
  destruct (py_int_digits _ Hd Hne) as (z & Ez & _). eauto.
Qed.

Ltac range_cases H parse :=
  let g1 := fresh "g1" in let n1 := fresh "n1" in
  let g2 := fresh "g2" in let n2 := fresh "n2" in
  let E1 := fresh "E1" in let P1 := fresh "P1" in
  let E2 := fresh "E2" in let T2 := fresh "T2" in
  let P2 := fresh "P2" in let N := fresh "N" in
  first [ apply (range_numbers parse) in H
            as (g1 & n1 & E1 & P1 & [[E2 N] | (g2 & n2 & E2 & T2 & P2 & N)]);
          [ | | reflexivity | reflexivity | first [exact decimal_parses | exact digits_parse]] ].

Section Selection.
Variable self : conversion_rules.

Lemma percentage_selected raw max_val m :
  search percent_pattern raw = Some m ->
  exists n1 o2, numbers py_float m = Ok (n1, o2) /\
    _extract_percentage_range (Some raw) max_val = Ok (Some (selected max_val n1 o2)).
Proof.
  intros H. unfold _extract_percentage_range.
  rewrite (search_nonempty _ _ _ H eq_refl). simpl. rewrite H.
  unfold percent_pattern, decimal_range in H. range_cases H py_float.
  - exists n1, None. split; [done|]. unfold group1. rewrite E1. simpl. rewrite P1. simpl.
    by rewrite E2.
  - exists n1, (Some n2). split; [done|]. unfold group1. rewrite E1. simpl. rewrite P1. simpl.
    rewrite E2, T2. simpl. destruct max_val; simpl; [by rewrite P2 | done].
Qed.

Lemma qualitative_false raw :
  qualitative raw = false ->
  PyStr.contains "short" (PyStr.lower raw) = false /\
  PyStr.contains "medium" (PyStr.lower raw) = false /\
  PyStr.contains "tall" (PyStr.lower raw) = false.
Proof.
  unfold qualitative. intros H.
  apply orb_false_elim in H as [H H3]. apply orb_false_elim in H as [H1 H2]. done.
Qed.

Lemma height_cm_selected raw max_val m :
  qualitative raw = false ->
  search cm_pattern raw = Some m ->
  exists n1 o2, numbers py_float m = Ok (n1, o2) /\
    _extract_height_range self (Some raw) max_val = Ok (Some (selected max_val n1 o2)).
Proof.
  intros Q H. apply qualitative_false in Q as (Q1 & Q2 & Q3).
  unfold _extract_height_range.
  rewrite (search_nonempty _ _ _ H eq_refl). simpl. rewrite Q1, Q2, Q3, H.
  unfold cm_pattern, decimal_range in H. range_cases H py_float.
  - exists n1, None. split; [done|]. unfold group1. rewrite E1. simpl. rewrite P1. simpl.
    by rewrite E2.
  - exists n1, (Some n2). split; [done|]. unfold group1. rewrite E1. simpl. rewrite P1. simpl.
    rewrite E2, T2. simpl. destruct max_val; simpl; [by rewrite P2 | done].
Qed.

Lemma height_feet_selected raw max_val m :
  qualitative raw = false ->
  search cm_pattern raw = None ->
  search feet_pattern raw = Some m ->
  exists n1 o2, numbers py_float m = Ok (n1, o2) /\
    _extract_height_range self (Some raw) max_val =
      Ok (Some (Qred (selected max_val n1 o2 * feet_to_cm (height self)))).
Proof.
  intros Q C H. apply qualitative_false in Q as (Q1 & Q2 & Q3).
  unfold _extract_height_range.
  rewrite (search_nonempty _ _ _ H eq_refl). simpl. rewrite Q1, Q2, Q3, C, H.
  unfold feet_pattern, decimal_range in H. range_cases H py_float.
  - exists n1, None. split; [done|]. unfold group1. rewrite E1. simpl. rewrite P1. simpl.
    by rewrite E2.
  - exists n1, (Some n2). split; [done|]. unfold group1. rewrite E1. simpl. rewrite P1. simpl.
    rewrite E2, T2. simpl. destruct max_val; simpl; [by rewrite P2 | done].
Qed.

Lemma flowering_weeks_selected raw max_val m :
  search week_pattern raw = Some m ->
  exists n1 o2, numbers py_int m = Ok (n1, o2) /\
    _extract_flowering_range self (Some raw) max_val =
      Ok (Some (selected max_val n1 o2 * weeks_to_days (flowering self))%Z).
Proof.
  intros H. unfold _extract_flowering_range.
  rewrite (search_nonempty _ _ _ H eq_refl). simpl. rewrite H.
  unfold week_pattern, integer_range in H. range_cases H py_int.
  - exists n1, None. split; [done|]. unfold group1. rewrite E1. simpl. rewrite P1. simpl.
    by rewrite E2.
  - exists n1, (Some n2). split; [done|]. unfold group1. rewrite E1. simpl. rewrite P1. simpl.
    rewrite E2, T2. simpl. destruct max_val; simpl; [by rewrite P2 | done].
Qed.

Lemma flowering_days_selected raw max_val m :
  search week_pattern raw = None ->
  search day_pattern raw = Some m ->
  exists n1 o2, numbers py_int m = Ok (n1, o2) /\
    _extract_flowering_range self (Some raw) max_val = Ok (Some (selected max_val n1 o2)).
Proof.
  intros W H. unfold _extract_flowering_range.
  rewrite (search_nonempty _ _ _ H eq_refl). simpl. rewrite W, H.
  unfold day_pattern, integer_range in H. range_cases H py_int.
  - exists n1, None. split; [done|]. unfold group1. rewrite E1. simpl. rewrite P1. simpl.
    by rewrite E2.
  - exists n1, (Some n2). split; [done|]. unfold group1. rewrite E1. simpl. rewrite P1. simpl.
    rewrite E2, T2. simpl. destruct max_val; simpl; [by rewrite P2 | done].
Qed.

End Selection.
(** *** No normalizer raises *)

Section Totality.
Variable self : conversion_rules.

Lemma height_returns raw max_val :
  returns (_extract_height_range self raw max_val).
Proof.
  destruct raw as [raw |]; [| by eexists].
  destruct (qualitative raw) eqn:Q.
  - unfold _extract_height_range. unfold qualitative in Q.
    destruct (PyStr.truthy raw); simpl; [| by eexists].
    destruct (PyStr.contains "short" _); [by eexists |].
    destruct (PyStr.contains "medium" _); [by eexists |].
    destruct (PyStr.contains "tall" _); [by eexists | done].
  - destruct (search cm_pattern raw) as [m |] eqn:C.
    { destruct (height_cm_selected self raw max_val m Q C) as (? & ? & _ & ->). by eexists. }
    destruct (search feet_pattern raw) as [m |] eqn:F.
    { destruct (height_feet_selected self raw max_val m Q C F) as (? & ? & _ & ->). by eexists. }
    apply qualitative_false in Q as (Q1 & Q2 & Q3).
    unfold _extract_height_range. destruct (PyStr.truthy raw); simpl; [| by eexists].
    rewrite Q1, Q2, Q3, C, F. by eexists.
Qed.

Lemma flowering_returns raw max_val :
  returns (_extract_flowering_range self raw max_val).
Proof.
  destruct raw as [raw |]; [| by eexists].
  destruct (search week_pattern raw) as [m |] eqn:W.
  { destruct (flowering_weeks_selected self raw max_val m W) as (? & ? & _ & ->). by eexists. }
  destruct (search day_pattern raw) as [m |] eqn:D.
  { destruct (flowering_days_selected self raw max_val m W D) as (? & ? & _ & ->). by eexists. }
  unfold _extract_flowering_range. destruct (PyStr.truthy raw); simpl; [| by eexists].
  rewrite W, D. by eexists.
Qed.

Lemma percentage_returns raw max_val :
  returns (_extract_percentage_range raw max_val).
Proof.
  destruct raw as [raw |]; [| by eexists].
  destruct (search percent_pattern raw) as [m |] eqn:P.
  { destruct (percentage_selected raw max_val m P) as (? & ? & _ & ->). by eexists. }
  unfold _extract_percentage_range. destruct (PyStr.truthy raw); simpl; [| by eexists].
  rewrite P. by eexists.
Qed.

Lemma genetics_groups genetics_type s s' c :
  matches (genetics_pattern genetics_type) s [] s' c ->
  exists g1, numeral digits g1 /\ c = [(1, g1)].
Proof.
  intros H. unfold genetics_pattern in H. simpl in H.
  apply matches_Seq_inv in H as (s1 & c1 & H1 & H).
  apply group_numeral in H1 as (g1 & N1 & ->); [| done].
  apply matches_Seq_inv in H as (s2 & c2 & H2 & H).
  apply groupless_caps in H2 as ->; [| done].
  apply matches_Seq_inv in H as (s3 & c3 & H3 & H).
  apply groupless_caps in H3 as ->; [| done].
  apply matches_Seq_inv in H as (s4 & c4 & H4 & H).
  apply groupless_caps in H4 as ->; [| done].
  apply groupless_caps in H as ->; [by exists g1 |].
  clear. induction genetics_type as [| a [| b t] IH]; try done.
Qed.

Lemma genetics_returns raw genetics_type :
  returns (_extract_genetics raw genetics_type).
Proof.
  destruct raw as [raw |]; [| by eexists].
  unfold _extract_genetics. destruct (PyStr.truthy raw); simpl; [| by eexists].
  destruct (search _ raw) as [m |] eqn:G; [| by eexists].
  apply search_sound in G as (t & s' & M).
  apply genetics_groups in M as (g1 & N1 & ->).
  destruct (digits_parse _ N1) as (_ & v & Ev).
  unfold group1. simpl. rewrite Ev. by eexists.
Qed.

End Totality.

(** *** The call reads and never writes *)

Lemma bind_dict_get {B} key (f : option string -> St B) h :
  (x ← dict_get key; f x) h = f (bronze_data h !! key) h.
Proof. reflexivity. Qed.

Lemma bind_lift {A B} (m : res A) (f : A -> St B) h a :
  m = Ok a -> (x ← lift m; f x) h = f a h.
Proof. by intros ->. Qed.

(** The gold record, as a function of the rule table and the bronze
    dictionary alone. *)
Lemma process_returns h :
  exists g, process_bronze_to_gold h = (Ok {| bronze := bronze_data h; gold := g |}, h).
Proof.
  unfold process_bronze_to_gold.
  set (self := self_conversion_rules h). set (b := bronze_data h).
  destruct (height_returns self (b !! "height_raw") false) as [v1 E1].
  destruct (height_returns self (b !! "height_raw") true) as [v2 E2].
  destruct (flowering_returns self (b !! "flowering_time_raw") false) as [v3 E3].
  destruct (flowering_returns self (b !! "flowering_time_raw") true) as [v4 E4].
  destruct (percentage_returns (b !! "thc_content_raw") false) as [v5 E5].
  destruct (percentage_returns (b !! "thc_content_raw") true) as [v6 E6].
  destruct (percentage_returns (b !! "cbd_content_raw") false) as [v7 E7].
  destruct (percentage_returns (b !! "cbd_content_raw") true) as [v8 E8].
  destruct (genetics_returns (b !! "genetics_raw") "sativa") as [v9 E9].
  destruct (genetics_returns (b !! "genetics_raw") "indica") as [v10 E10].
  eexists.
  cbv beta iota delta [mbind St_bind rules dict_get lift the_bronze ret].
  fold self b.
  rewrite E1, E2, E3, E4, E5, E6, E7, E8, E9, E10. reflexivity.
Qed.

Lemma process_frame h : snd (process_bronze_to_gold h) = h.
Proof. destruct (process_returns h) as [g ->]. reflexivity. Qed.
End NormalizerFacts.

Module NormalizerClaims.
Import Re PyNum Normalizer ReFacts NormalizerFacts.
Local Open Scope Q_scope.

Lemma actual_score_from acc b l :
  fold_left (fun acc fw => if counts b (fst fw) then (acc + snd fw)%Z else acc) l acc
  = (acc + fold_right Z.add 0%Z
             (map snd (List.filter (fun fw => counts b (fst fw)) l)))%Z.
Proof.
  revert acc. induction l as [| fw l IH]; intros acc; simpl; [lia|].
  rewrite IH. destruct (counts b (fst fw)); simpl; lia.
Qed.

Lemma strip_empty_short v : PyStr.truthy v = false -> String.length (PyStr.strip v) = 0%nat.
Proof. by destruct v. Qed.

Lemma counts_iff b f :
  counts b f = true <->
  exists v, b !! f = Some v /\ (2 < String.length (PyStr.strip v))%nat.
Proof.
  unfold counts. destruct (b !! f) as [v |]; split.
  - intros H. apply andb_prop in H as [_ H]. apply Nat.ltb_lt in H. eauto.
  - intros (v' & [= <-] & H). apply andb_true_intro. split.
    + destruct (PyStr.truthy v) eqn:T; [done|]. apply strip_empty_short in T. lia.
    + by apply Nat.ltb_lt.
  - done.
  - by intros (v & ? & _).
Qed.

Lemma bucket_ge q lo : Qle_bool lo q = true <-> lo <= q.
Proof. apply Qle_bool_iff. Qed.

Lemma bucket_lt q lo : q < lo -> Qle_bool lo q = false.
Proof.
  intros H. destruct (Qle_bool lo q) eqn:E; [| done].
  apply Qle_bool_iff in E. exfalso. eapply Qlt_not_le; eauto.
Qed.

(** C3. The confidence score counts seven weighted fields, a field counting
    iff it is present and its trimmed text is longer than 2 characters; the
    score is the counted weight over the total weight, times 100, put in
    buckets whose lower bounds 90, 70, 50 and 30 are inclusive: exactly 90,
    70, 50, 30 give 5, 4, 3, 2, and anything below 30 (29.9, say) gives 1. *)
Theorem confidence_score_buckets :
  List.length field_weights = 7%nat /\
  (forall b f, counts b f = true <->
     exists v, b !! f = Some v /\ (2 < String.length (PyStr.strip v))%nat) /\
  (forall b, _calculate_confidence b =
     confidence_bucket
       (inject_Z (counted_weights b) /
        inject_Z (fold_right Z.add 0%Z (map snd field_weights)) * 100)) /\
  (confidence_bucket 90 = 5%Z /\ confidence_bucket 70 = 4%Z /\
   confidence_bucket 50 = 3%Z /\ confidence_bucket 30 = 2%Z /\
   confidence_bucket (299 # 10) = 1%Z) /\
  (forall p, 90 <= p -> confidence_bucket p = 5%Z) /\
  (forall p, 70 <= p -> p < 90 -> confidence_bucket p = 4%Z) /\
  (forall p, 50 <= p -> p < 70 -> confidence_bucket p = 3%Z) /\
  (forall p, 30 <= p -> p < 50 -> confidence_bucket p = 2%Z) /\
  (forall p, p < 30 -> confidence_bucket p = 1%Z).
Proof.
  split; [reflexivity|]. split; [exact counts_iff|]. split.
  { intros b. unfold _calculate_confidence, percentage, actual_score.
    rewrite actual_score_from. reflexivity. }
  split; [by repeat split|].
  unfold confidence_bucket. repeat split; intros p.
  - intros H. by rewrite (proj2 (bucket_ge p 90) H).
  - intros H1 H2. by rewrite (bucket_lt _ _ H2), (proj2 (bucket_ge p 70) H1).
  - intros H1 H2. rewrite (bucket_lt p 90), (bucket_lt _ _ H2), (proj2 (bucket_ge p 50) H1); [done|].
    eapply Qlt_trans; [exact H2 | reflexivity].
  - intros H1 H2. rewrite (bucket_lt p 90), (bucket_lt p 70), (bucket_lt _ _ H2), (proj2 (bucket_ge p 30) H1); [done| |];
    (eapply Qlt_trans; [exact H2 | reflexivity]).
  - intros H. rewrite (bucket_lt p 90), (bucket_lt p 70), (bucket_lt p 50), (bucket_lt _ _ H); [done| | |];
    (eapply Qlt_trans; [exact H | reflexivity]).
Qed.

Lemma confidence_score_buckets_witness :
  (exists v, half_filled !! "effects_raw" = Some v /\ (2 < String.length (PyStr.strip v))%nat) /\
  _calculate_confidence half_filled = confidence_bucket 50 /\
  confidence_bucket 50 = 3%Z /\
  confidence_bucket (299 # 10) = 1%Z.
Proof.
  pose proof confidence_score_buckets as (_ & Hc & Hs & _ & _ & _ & H50 & _ & H30).
  split; [apply (proj1 (Hc half_filled "effects_raw")); reflexivity |].
  split; [rewrite (Hs half_filled); reflexivity |].
  split; [apply H50; [discriminate | reflexivity] | apply H30; reflexivity].
Defined.

Lemma contains_nonempty k raw :
  PyStr.contains k (PyStr.lower raw) = true -> PyStr.truthy k = true ->
  PyStr.truthy raw = true.
Proof. destruct raw; [| done]. by destruct k. Qed.

(** C4, as the code has it.  A text that names a qualitative height gets the
    fixed value of the table (short 80, medium 120, tall 180, tried in this
    order); otherwise a centimetre number (or range) is taken as it stands;
    otherwise a feet number is multiplied by 30.48, that is 2.54 x 12
    centimetres to the foot.  ["5 feet"] gives 152.4 for both bounds and
    ["80-120cm"] gives 80 and 120. *)
Theorem height_normalization (raw : string) (max_val : bool) :
  let short := PyStr.contains "short" (PyStr.lower raw) in
  let medium := PyStr.contains "medium" (PyStr.lower raw) in
  let tall := PyStr.contains "tall" (PyStr.lower raw) in
  let result := _extract_height_range init_rules (Some raw) max_val in
  (short = true -> result = Ok (Some 80)) /\
  (short = false -> medium = true -> result = Ok (Some 120)) /\
  (short = false -> medium = false -> tall = true -> result = Ok (Some 180)) /\
  (forall m, qualitative raw = false -> search cm_pattern raw = Some m ->
     exists n1 o2, numbers py_float m = Ok (n1, o2) /\
       result = Ok (Some (selected max_val n1 o2))) /\
  (forall m, qualitative raw = false -> search cm_pattern raw = None ->
     search feet_pattern raw = Some m ->
     exists n1 o2, numbers py_float m = Ok (n1, o2) /\
       result = Ok (Some (Qred (selected max_val n1 o2 * (3048 # 100))))) /\
  feet_to_cm (height init_rules) == (254 # 100) * 12 /\
  _extract_height_range init_rules (Some "5 feet") max_val = Ok (Some (762 # 5)) /\
  762 # 5 == 1524 # 10 /\
  _extract_height_range init_rules (Some "80-120cm") false = Ok (Some 80) /\
  _extract_height_range init_rules (Some "80-120cm") true = Ok (Some 120).
Proof.
  intros short medium tall result. subst short medium tall result.
  repeat split.
  - intros S. unfold _extract_height_range.
    rewrite (contains_nonempty "short" raw S eq_refl). simpl. by rewrite S.
  - intros S M. unfold _extract_height_range.
    rewrite (contains_nonempty "medium" raw M eq_refl). simpl. by rewrite S, M.
  - intros S M T. unfold _extract_height_range.
    rewrite (contains_nonempty "tall" raw T eq_refl). simpl. by rewrite S, M, T.
  - intros m Q C. exact (height_cm_selected init_rules raw max_val m Q C).
  - intros m Q C F. exact (height_feet_selected init_rules raw max_val m Q C F).
Qed.

Lemma height_normalization_witness :
  (exists n1 o2,
     numbers py_float [(2%nat, "120"); (1%nat, "80")] = Ok (n1, o2) /\
     _extract_height_range init_rules (Some "80-120cm") true =
       Ok (Some (selected true n1 o2))) /\
  (exists n1 o2,
     numbers py_float [(1%nat, "5")] = Ok (n1, o2) /\
     _extract_height_range init_rules (Some "5 feet") true =
       Ok (Some (Qred (selected true n1 o2 * (3048 # 100))))) /\
  _extract_height_range init_rules (Some "Tall and bushy") true = Ok (Some 180).
Proof.
  split; [| split].
  - exact (proj1 (proj2 (proj2 (proj2 (height_normalization "80-120cm" true))))
             [(2%nat, "120"); (1%nat, "80")] eq_refl eq_refl).
  - exact (proj1 (proj2 (proj2 (proj2 (proj2 (height_normalization "5 feet" true)))))
             [(1%nat, "5")] eq_refl eq_refl eq_refl).
  - exact (proj1 (proj2 (proj2 (height_normalization "Tall and bushy" true)))
             eq_refl eq_refl eq_refl).
Defined.

(** C4 with the constant as the specification words it, 2.54 x 12 / 100,
    fails: that is the number of metres to the foot, and with it ["5 feet"]
    would come out as 1.524. *)
Lemma height_feet_constant_counterexample :
  exists v, _extract_height_range init_rules (Some "5 feet") false = Ok (Some v) /\
            ~ v == 5 * ((254 # 100) * 12 / 100).
Proof. exists (762 # 5). split; [reflexivity | discriminate]. Qed.






End NormalizerClaims.

(** ** The Outlier Detector *)

Module OutlierFacts.
Import Outlier.
Local Open Scope Q_scope.

Lemma in_select cond df i r :
  In (i, r) (select cond df) <-> rows df !! i = Some r /\ cond r = true.
Proof.
  unfold select. rewrite filter_In, <- list_elem_of_In, elem_of_lookup_imap.
  simpl. split.
  - intros [(j & x & [= -> ->] & L) C]. done.
  - intros [L C]. split; [by exists i, r | done].
Qed.

Lemma select_nil cond cols : select cond {| columns := cols; rows := [] |} = [].
Proof. reflexivity. Qed.

Lemma not_le_bool_lt a b : negb (Qle_bool a b) = true <-> b < a.
Proof.
  rewrite negb_true_iff. split.
  - intros H. apply Qnot_le_lt. intros L. apply Qle_bool_iff in L. congruence.
  - intros H. destruct (Qle_bool a b) eqn:E; [| done].
    apply Qle_bool_iff in E. exfalso. by apply (Qlt_not_le _ _ H).
Qed.

(** The genetics findings are the findings of that kind. *)
Lemma in_impossible_genetics df f :
  violation_type f = genetics_not_100_percent ->
  In f (_check_impossible_combinations df) <->
  (has_column df "sativa_percentage" && has_column df "indica_percentage" = true /\
   exists ir, In ir (select genetics_violation df) /\ f = genetics_finding ir).
Proof.
  intros V. unfold _check_impossible_combinations.
  rewrite !in_app_iff, in_flat_map. split.
  - intros [(p & _ & H) | [H | H]].
    + destruct p as [a b]. destruct (_ && _); [| done].
      apply in_map_iff in H as (ir & <- & _). discriminate.
    + destruct (_ && _); [| done]. split; [done|].
      apply in_map_iff in H as (ir & <- & I). eauto.
    + destruct (_ && _); [| done].
      apply in_map_iff in H as (ir & <- & _). discriminate.
  - intros [C (ir & I & ->)]. right. left. rewrite C. by apply in_map.
Qed.

Lemma genetics_violation_cells r sativa indica :
  cells r !! "sativa_percentage" = Some sativa ->
  cells r !! "indica_percentage" = Some indica ->
  genetics_violation r = negb (Qle_bool (deviation sativa indica) 1) /\
  forall i, f_severity (genetics_finding (i, r)) =
            if Qle_bool (deviation sativa indica) 5 then warning else critical.
Proof.
  intros S I. unfold genetics_violation, genetics_finding. simpl.
  by rewrite S, I.
Qed.

Lemma in_genetics_findings_at idx l f :
  In f (genetics_findings_at idx l) <->
  In f l /\ row_index f = idx /\ violation_type f = genetics_not_100_percent.
Proof.
  unfold genetics_findings_at. rewrite filter_In, andb_true_iff, Nat.eqb_eq.
  destruct (violation_type f); intuition congruence.
Qed.

(** C6. In a row whose sativa and indica percentages are both present, the
    detector reports a genetics finding iff the total is off 100 by more
    than 1; the finding is a warning when it is off by at most 5 and
    critical beyond. *)
Theorem genetics_tolerance (self : detector) (df : DataFrame) (idx : nat)
    (r : row) (sativa indica : Q) :
  has_column df "sativa_percentage" = true ->
  has_column df "indica_percentage" = true ->
  rows df !! idx = Some r ->
  cells r !! "sativa_percentage" = Some sativa ->
  cells r !! "indica_percentage" = Some indica ->
  let reported := impossible_values (fst (detect_outliers self df)) in
  ((exists f, In f (genetics_findings_at idx reported)) <->
   1 < Qabs (sativa + indica - 100)) /\
  (forall f, In f (genetics_findings_at idx reported) ->
     f_severity f =
       if Qle_bool (Qabs (sativa + indica - 100)) 5 then warning else critical).
Proof.
  intros Cs Ci L S I reported.
  assert (E : reported = _check_impossible_combinations df) by reflexivity.
  rewrite E. clear E reported.
  destruct (genetics_violation_cells r sativa indica S I) as [GV GS].
  assert (K : forall f, In f (genetics_findings_at idx (_check_impossible_combinations df)) <->
                        genetics_violation r = true /\ f = genetics_finding (idx, r)).
  { intros f. rewrite in_genetics_findings_at. split.
    - intros (H & Hi & Hv). apply (in_impossible_genetics df f Hv) in H as (_ & [i r'] & Hs & ->).
      simpl in Hi. subst i. apply in_select in Hs as [L' G]. rewrite L in L'.
      injection L' as <-. done.
    - intros [G ->]. split; [| done].
      apply in_impossible_genetics; [done|]. rewrite Cs, Ci. split; [done|].
      exists (idx, r). split; [| done]. by apply in_select. }
  split.
  - rewrite <- not_le_bool_lt. fold (deviation sativa indica). rewrite <- GV. split.
    + intros [f H]. by apply K in H as [G _].
    + intros G. exists (genetics_finding (idx, r)). by apply K.
  - intros f H. apply K in H as [_ ->]. apply GS.
Qed.

Lemma genetics_tolerance_witness :
  let reported := impossible_values (fst (detect_outliers init genetics_rows)) in
  (((exists f, In f (genetics_findings_at 1 reported)) <->
    1 < Qabs (60 + 35 - 100)) /\
   (forall f, In f (genetics_findings_at 1 reported) -> f_severity f = warning)) /\
  map (fun f => (row_index f, f_severity f)) reported =
    [(1%nat, warning); (2%nat, critical)].
Proof.
  split.
  - exact (genetics_tolerance init genetics_rows 1 _ 60 35
             eq_refl eq_refl eq_refl eq_refl eq_refl).
  - reflexivity.
Defined.

(** *** Counting findings *)











(** The bound checks run for a field only when the frame has its plain
    column: the [_min] and [_max] columns of the gold record alone are not
    read. *)
Lemma min_max_columns_need_plain_column :
  critical_outliers (fst (detect_outliers init gold_columns_only)) = [] /\
  rows_with_hard_violation init gold_columns_only = 1%nat.
Proof. split; reflexivity. Qed.

(** *** The empty dataset *)

Lemma flat_map_nil {A B} (f : A -> list B) l :
  (forall x, f x = []) -> flat_map f l = [].
Proof. intros H. induction l; simpl; [done|]. by rewrite H, IHl. Qed.

Lemma check_one_empty cols rl c :
  check_one {| columns := cols; rows := [] |} rl c = [].
Proof.
  unfold check_one. destruct (negb _); [done|].
  by destruct (r_min rl), (r_max rl), (typical_range rl) as [[? ?] |].
Qed.

Lemma impossible_empty cols :
  _check_impossible_combinations {| columns := cols; rows := [] |} = [].
Proof.
  unfold _check_impossible_combinations.
  rewrite flat_map_nil.
  - by do 2 (destruct (_ && _)).
  - intros [a b]. by destruct (_ && _).
Qed.

(** C10. For a dataset without rows the detector returns, and its summary
    has no records, no outliers, no clean records, an outlier percentage of
    0 and a quality score of 0 (not 100). *)
Theorem empty_dataset_summary (self : detector) (cols : list string) :
  res_summary (fst (detect_outliers self {| columns := cols; rows := [] |})) =
  Some {| total_records := 0;
          total_outliers := 0;
          sum_critical_outliers := 0;
          sum_warnings := 0;
          clean_records := 0;
          outlier_percentage := 0;
          data_quality_score := 0 |}.
Proof.
  unfold detect_outliers, _generate_summary. simpl.
  rewrite impossible_empty, flat_map_nil; [reflexivity|].
  intros [f rl]. simpl. destruct (has_column _ f); [| done].
  unfold _check_field_outliers. apply flat_map_nil. intros c. apply check_one_empty.
Qed.

End OutlierFacts.

(** ** Further properties of the Extractor *)

Module ExtractorExtras.
Import Re ReFacts Extractor ExtractorFacts.

(** *** Keys *)

Lemma last_char_app s t : t <> "" -> last_char (s ++ t) = last_char t.
Proof.
  intros Ht. induction s as [| a s IH]; rewrite ?app_nil, ?app_cons; [done|].
  simpl. rewrite IH. destruct (s ++ t) eqn:E; [| done].
  destruct s; [by rewrite app_nil in E | by rewrite app_cons in E].
Qed.

Lemma raw_is_no_source f g : (f ++ "_raw")%string <> (g ++ "_source")%string.
Proof.
  intros H. apply (f_equal last_char) in H.
  rewrite !last_char_app in H by done. discriminate.
Qed.

Lemma app_inv_tail_string (s s' t : string) : s ++ t = s' ++ t -> s = s'.
Proof.
  revert s'. induction s as [| a s IH]; intros [| b s'] H;
    rewrite ?app_nil, ?app_cons in H.
  - done.
  - apply (f_equal String.length) in H. simpl in H.
    rewrite length_app_string in H. lia.
  - apply (f_equal String.length) in H. simpl in H.
    rewrite length_app_string in H. lia.
  - injection H as -> H. f_equal. by apply IH.
Qed.

Lemma Ok_inj {A} (a b : A) : Ok a = Ok b -> a = b.
Proof. congruence. Qed.

Lemma paired_empty : paired ∅.
Proof. intros f [v H]. by rewrite lookup_empty in H. Qed.

Lemma paired_set_field g v src d : paired d -> paired (set_field g v src d).
Proof.
  intros P f H. unfold set_field in *.
  destruct (decide (f = g)) as [-> |]; [by rewrite lookup_insert_eq|].
  rewrite lookup_insert_ne in H by (intros E; by apply (raw_is_no_source f g)).
  rewrite lookup_insert_ne in H
    by (intros E; by apply app_inv_tail_string in E).
  rewrite lookup_insert_ne by (intros E; by apply app_inv_tail_string in E).
  rewrite lookup_insert_ne
    by (intros E; by apply (raw_is_no_source g f)).
  by apply P.
Qed.

Lemma paired_union a b : paired a -> paired b -> paired (a ∪ b).
Proof.
  intros Pa Pb f H. rewrite lookup_union_is_Some in *.
  destruct H as [H | H]; [left; by apply Pa | right; by apply Pb].
Qed.

Lemma paired_update data raw : paired data -> paired raw -> paired (update data raw).
Proof.
  intros Pd Pr. unfold update. case_bool_decide; [done | by apply paired_union].
Qed.

Lemma paired_fold {A} (step : gmap string pyvalue -> A -> gmap string pyvalue) l :
  (forall d x, paired d -> paired (step d x)) ->
  forall d, paired d -> paired (fold_left step l d).
Proof. intros S. induction l as [| x l IH]; simpl; auto. Qed.

Lemma paired_tables s : paired (_extract_from_tables s).
Proof.
  unfold _extract_from_tables. apply paired_fold; [| apply paired_empty].
  intros d [i t] P. simpl. destruct (_is_specification_table t); [| done].
  revert P. apply paired_fold. clear. intros d cells P. unfold table_row.
  destruct cells as [| k [| v ?]]; try done.
  destruct (_ && _); [| done].
  destruct (_map_table_field k); [by apply paired_set_field | done].
Qed.

Lemma paired_mention keywords category sentence d :
  paired d -> paired (mention keywords category sentence d).
Proof.
  intros P. unfold mention. destruct (PyStr.any_in _ _); [| done].
  destruct (d !! _); [done | by apply paired_set_field].
Qed.

Lemma paired_descriptions s : paired (_extract_from_descriptions s).
Proof.
  unfold _extract_from_descriptions. destruct (flat_map _ _); [apply paired_empty|].
  apply paired_union.
  - unfold _extract_contextual_mentions. apply paired_fold; [| apply paired_empty].
    intros d x P. destruct (negb _); [done|]. by do 3 apply paired_mention.
  - apply paired_set_field, paired_empty.
Qed.

Lemma paired_with_hit f h d : paired d -> paired (with_hit f h d).
Proof. intros P. destruct h; simpl; [by apply paired_set_field | done]. Qed.

Lemma paired_patterns s d : _extract_with_patterns s = Ok d -> paired d.
Proof.
  rewrite extract_with_patterns_value. intros H.
  apply Ok_inj in H. subst d.
  apply paired_fold; [| apply paired_empty]. intros. by apply paired_with_hit.
Qed.

Lemma paired_images s : paired (_extract_from_images s).
Proof.
  unfold _extract_from_images.
  assert (P : paired (fold_left rating (rating_elements s) ∅)).
  { apply paired_fold; [| apply paired_empty]. intros d e P. unfold rating.
    destruct (String.eqb _ _).
    - destruct (_ || _); [by apply paired_set_field | done].
    - destruct (star_elements e); [done | by apply paired_set_field]. }
  destruct (List.find _ _); [by apply paired_set_field | done].
Qed.

Lemma paired_script parse_json d script d' :
  paired d -> json_ld_script parse_json d script = Ok d' -> paired d'.
Proof.
  intros P. unfold json_ld_script.
  destruct (json_loads parse_json script) as [[entries |] | []]; intros [= <-]; try done.
  destruct (json_get "description" entries), (json_get "name" entries);
    repeat apply paired_set_field; done.
Qed.

Lemma paired_metadata parse_json s d :
  _extract_metadata parse_json s = Ok d -> paired d.
Proof.
  unfold _extract_metadata.
  set (d0 := match title_tag s with Some _ => _ | None => _ end).
  assert (P0 : paired d0).
  { subst d0.
    assert (P : paired match meta_description s with
                       | Some tag =>
                           if PyStr.truthy (default "" tag)
                           then set_field "meta_description" (PStr (default "" tag))
                                  "HTML meta tag" ∅
                           else ∅
                       | None => ∅
                       end).
    { destruct (meta_description s); [| apply paired_empty].
      destruct (PyStr.truthy _); [apply paired_set_field|]; apply paired_empty. }
    destruct (title_tag s); [| done].
    destruct (PyStr.truthy _); [by apply paired_set_field | done]. }
  revert P0. generalize d0. clear d0.
  induction (json_ld_scripts s) as [| script l IH]; intros d0 P0; simpl.
  - by intros [= <-].
  - destruct (json_ld_script parse_json d0 script) as [d1 | e] eqn:E.
    + apply IH. by eapply paired_script.
    + intros H. exfalso. clear -H. induction l; simpl in H; [done | auto].
Qed.

(** X1. Every [<field>_raw] of the record an extraction returns comes with
    its [<field>_source]. *)
Theorem extraction_keeps_provenance (parse_json : string -> option json)
    (self self' : extraction_stats) (s : soup) (url timestamp : string)
    (out : extracted) :
  extract_strain_data parse_json self s url timestamp = Ok (out, self') ->
  paired (raw_data out).
Proof.
  unfold extract_strain_data.
  destruct (_extract_with_patterns s) as [pattern_data |] eqn:P; [| done].
  destruct (_extract_metadata parse_json s) as [meta_data |] eqn:M; [| done].
  simpl. intros [= <- _]. simpl.
  repeat apply paired_update;
    eauto using paired_empty, paired_tables, paired_descriptions,
      paired_patterns, paired_images, paired_metadata.
Qed.

Lemma extraction_keeps_provenance_witness :
  paired (update {["page_title_source" := PStr "HTML title tag";
                   "page_title_raw" := PStr "Blue Dream"]}
            (update (_extract_from_images sample_page)
               (update {["height_source" := PStr "Pattern matching";
                         "height_raw" := PStr "120-180cm tall"]}
                  (update (_extract_from_descriptions sample_page)
                     (update (_extract_from_tables sample_page) ∅))))).
Proof.
  exact (extraction_keeps_provenance (fun _ => None) init _ sample_page
           "u" "t" _ eq_refl).
Defined.

(** *** The pattern strategy *)

Lemma lookup_with_hit_source f h d :
  with_hit f h d !! (f ++ "_source")%string =
  match h with
  | Some _ => Some (PStr "Pattern matching")
  | None => d !! (f ++ "_source")%string
  end.
Proof.
  destruct h as [g |]; simpl; [| done]. unfold set_field.
  by rewrite lookup_insert_eq.
Qed.

(** X2. The pattern strategy returns for every document, and for each of its
    six fields it holds the hit of the latest pattern of the field that has
    one, tagged ["Pattern matching"]; a field none of whose patterns has a
    hit is left out. *)
Theorem pattern_strategy_value (s : soup) (field_name : string)
    (field_patterns : list regex) :
  In (field_name, field_patterns) patterns ->
  exists d,
    _extract_with_patterns s = Ok d /\
    d !! (field_name ++ "_raw")%string =
      PStr <$> latest_hit field_patterns (page_text s) /\
    d !! (field_name ++ "_source")%string =
      (fun _ => PStr "Pattern matching") <$>
        latest_hit field_patterns (page_text s).
Proof.
  intros I. eexists. split; [apply extract_with_patterns_value|].
  unfold patterns in *. cbn [In] in I.
  destruct I as [I | [I | [I | [I | [I | [I | []]]]]]];
    apply pair_equal_spec in I as [<- <-];
    cbn [fold_left fst snd]; split;
    repeat first
      [ rewrite lookup_with_hit_other by (cbv; discriminate)
      | rewrite lookup_with_hit_raw;
        match goal with |- context [latest_hit ?p ?t] =>
          destruct (latest_hit p t); [done|] end
      | rewrite lookup_with_hit_source;
        match goal with |- context [latest_hit ?p ?t] =>
          destruct (latest_hit p t); [done|] end ];
    done.
Qed.

Lemma pattern_strategy_value_witness :
  exists d,
    _extract_with_patterns sample_page = Ok d /\
    d !! "height_raw" = Some (PStr "120-180cm tall") /\
    d !! "height_source" = Some (PStr "Pattern matching").
Proof.
  destruct (pattern_strategy_value sample_page "height"
              (snd (nth 3 patterns ("", []))))
    as (d & E & R & S); [do 3 right; by left|].
  exists d. split; [exact E|].
  split; [etransitivity; [exact R|] | etransitivity; [exact S|]];
    vm_compute; reflexivity.
Defined.

(** *** Linked-data scripts *)








(** *** The table scan *)

Lemma table_row_keys idx cells d key :
  is_Some (table_row idx cells d !! key) ->
  is_Some (d !! key) \/
  exists field_name, In field_name (map fst field_mappings) /\
    (key = (field_name ++ "_raw")%string \/
     key = (field_name ++ "_source")%string).
Proof.
  unfold table_row. destruct cells as [| k [| v ?]]; auto.
  destruct (_ && _); auto.
  destruct (_map_table_field k) as [f |] eqn:M; auto.
  unfold _map_table_field in M.
  destruct (List.find _ field_mappings) as [m |] eqn:F; [| done].
  injection M as <-. apply find_some in F as [F _].
  unfold set_field. intros H.
  destruct (decide (key = (fst m ++ "_source")%string)) as [-> |].
  { right. exists (fst m). split; [by apply in_map | by right]. }
  rewrite lookup_insert_ne in H by done.
  destruct (decide (key = (fst m ++ "_raw")%string)) as [-> |].
  { right. exists (fst m). split; [by apply in_map | by left]. }
  rewrite lookup_insert_ne in H by done. by left.
Qed.

(** X5. The table scan writes no key but [<field>_raw] and [<field>_source] for
    the eight field names of its synonym table.  The potency of a table is
    therefore kept as [thc_raw] and [cbd_raw], never as the
    [thc_content_raw] and [cbd_content_raw] that the pattern strategy
    writes and the Normalizer reads. *)
Theorem table_scan_keys (s : soup) :
  (forall key, is_Some (_extract_from_tables s !! key) ->
     exists field_name,
       In field_name ["thc"; "cbd"; "flowering_time"; "height"; "yield";
                      "genetics"; "effects"; "flavors"] /\
       (key = (field_name ++ "_raw")%string \/
        key = (field_name ++ "_source")%string)) /\
  _extract_from_tables s !! "thc_content_raw" = None /\
  _extract_from_tables s !! "cbd_content_raw" = None.
Proof.
  assert (K : forall key, is_Some (_extract_from_tables s !! key) ->
     exists field_name, In field_name (map fst field_mappings) /\
       (key = (field_name ++ "_raw")%string \/
        key = (field_name ++ "_source")%string)).
  { intros key. unfold _extract_from_tables.
    assert (G : forall l (d : gmap string pyvalue),
      is_Some (fold_left
        (fun table_data (it : nat * table) =>
           if _is_specification_table (snd it)
           then fold_left (fun d cells => table_row (fst it) cells d)
                  (table_rows (snd it)) table_data
           else table_data) l d !! key) ->
      is_Some (d !! key) \/
      exists field_name, In field_name (map fst field_mappings) /\
        (key = (field_name ++ "_raw")%string \/
         key = (field_name ++ "_source")%string)).
    { induction l as [| [i t] l IH]; intros d; simpl; [auto|].
      intros H. apply IH in H as [H | H]; [| auto].
      destruct (_is_specification_table t); [| auto].
      revert d H. induction (table_rows t) as [| cells rows IHr]; intros d; simpl; [auto|].
      intros H. apply IHr in H as [H | H]; [| auto].
      by apply table_row_keys in H. }
    intros H. apply G in H as [H | H]; [| done].
    rewrite lookup_empty in H. by destruct H. }
  split; [exact K|].
  split.
  - destruct (_extract_from_tables s !! "thc_content_raw") eqn:E; [| done].
    destruct (K "thc_content_raw") as (f & I & [H | H]); [by eexists | |].
    + apply (app_inv_tail_string "thc_content" f "_raw") in H. subst f.
      simpl in I. intuition discriminate.
    + by apply (raw_is_no_source "thc_content" f) in H.
  - destruct (_extract_from_tables s !! "cbd_content_raw") eqn:E; [| done].
    destruct (K "cbd_content_raw") as (f & I & [H | H]); [by eexists | |].
    + apply (app_inv_tail_string "cbd_content" f "_raw") in H. subst f.
      simpl in I. intuition discriminate.
    + by apply (raw_is_no_source "cbd_content" f) in H.
Qed.

Lemma table_scan_keys_witness :
  _extract_from_tables sample_page !! "thc_raw" = Some (PStr "18-24%") /\
  (exists field_name,
     In field_name ["thc"; "cbd"; "flowering_time"; "height"; "yield";
                    "genetics"; "effects"; "flavors"] /\
     ("thc_raw" = (field_name ++ "_raw")%string \/
      "thc_raw" = (field_name ++ "_source")%string)) /\
  _extract_from_tables sample_page !! "thc_content_raw" = None.
Proof.
  destruct (table_scan_keys sample_page) as (K & T & _).
  split; [reflexivity|]. split; [| exact T].
  apply K. by eexists.
Defined.

(** *** Prose mining *)

Lemma lookup_mention_other keywords c c' sentence d :
  c <> c' ->
  mention keywords c' sentence d !! (c ++ "_raw")%string =
  d !! (c ++ "_raw")%string.
Proof.
  intros N. unfold mention. destruct (PyStr.any_in _ _); [| done].
  destruct (d !! (c' ++ "_raw")%string); [done|]. unfold set_field.
  rewrite lookup_insert_ne by (intros E; by apply (raw_is_no_source c c')).
  by rewrite lookup_insert_ne
    by (intros E; apply app_inv_tail_string in E; congruence).
Qed.

Lemma lookup_mention_same keywords c sentence d :
  mention keywords c sentence d !! (c ++ "_raw")%string =
  match d !! (c ++ "_raw")%string with
  | Some v => Some v
  | None => if PyStr.any_in keywords (PyStr.lower sentence)
            then Some (PStr sentence) else None
  end.
Proof.
  unfold mention. destruct (PyStr.any_in _ _).
  - destruct (d !! (c ++ "_raw")%string) eqn:E; [by rewrite E|].
    unfold set_field.
    rewrite lookup_insert_ne by (intros H; by apply (raw_is_no_source c c)).
    by rewrite lookup_insert_eq.
  - by destruct (d !! (c ++ "_raw")%string).
Qed.

Lemma first_mention_kept c keywords
    (step : gmap string pyvalue -> string -> gmap string pyvalue) :
  (forall d x,
     step d x !! (c ++ "_raw")%string =
     if negb (PyStr.truthy (PyStr.strip x)) then d !! (c ++ "_raw")%string
     else match d !! (c ++ "_raw")%string with
          | Some v => Some v
          | None => if PyStr.any_in keywords (PyStr.lower (PyStr.strip x))
                    then Some (PStr (PyStr.strip x)) else None
          end) ->
  forall l d,
    fold_left step l d !! (c ++ "_raw")%string =
    match d !! (c ++ "_raw")%string with
    | Some v => Some v
    | None =>
        PStr <$> List.find (fun s => PyStr.any_in keywords (PyStr.lower s))
                   (List.filter PyStr.truthy (map PyStr.strip l))
    end.
Proof.
  intros S. induction l as [| x l IH]; intros d; simpl.
  - by destruct (d !! _).
  - rewrite IH, S. destruct (PyStr.truthy (PyStr.strip x)); simpl; [| done].
    destruct (d !! (c ++ "_raw")%string); [done|].
    by destruct (PyStr.any_in keywords _).
Qed.

(** X6. Of the sentences of a description the first that names an effect is
    kept as [effects_context_raw], the first that names a flavour as
    [flavors_context_raw] and the first that names a growing condition as
    [growing_context_raw]; a later sentence never replaces it. *)
Theorem first_sentence_wins (text : string) :
  let d := _extract_contextual_mentions text in
  let first keywords :=
    PStr <$> List.find (fun s => PyStr.any_in keywords (PyStr.lower s))
               (sentences text) in
  d !! "effects_context_raw" = first effect_keywords /\
  d !! "flavors_context_raw" = first flavor_keywords /\
  d !! "growing_context_raw" = first growing_keywords.
Proof.
  unfold _extract_contextual_mentions, sentences. repeat split.
  - rewrite (first_mention_kept "effects_context" effect_keywords); [done|].
    intros d x. destruct (PyStr.truthy (PyStr.strip x)); simpl; [| done].
    rewrite !lookup_mention_other by discriminate. apply lookup_mention_same.
  - rewrite (first_mention_kept "flavors_context" flavor_keywords); [done|].
    intros d x. destruct (PyStr.truthy (PyStr.strip x)); simpl; [| done].
    rewrite lookup_mention_other by discriminate.
    rewrite lookup_mention_same, lookup_mention_other by discriminate. done.
  - rewrite (first_mention_kept "growing_context" growing_keywords); [done|].
    intros d x. destruct (PyStr.truthy (PyStr.strip x)); simpl; [| done].
    rewrite lookup_mention_same, !lookup_mention_other by discriminate. done.
Qed.

End ExtractorExtras.

(** ** Further properties of the Normalizer *)

Module NormalizerExtras.
Import Re PyNum Normalizer ReFacts NormalizerFacts.
Local Open Scope Q_scope.







(** *** Bounds come in pairs *)





(** *** No number below zero *)











(** The confidence score as a function of which fields count. *)
Ltac by_counted_fields b :=
  unfold _calculate_confidence, percentage, actual_score, field_weights;
  cbn [fold_left fst snd];
  destruct (counts b "height_raw"), (counts b "flowering_time_raw"),
           (counts b "thc_content_raw"), (counts b "cbd_content_raw"),
           (counts b "genetics_raw"), (counts b "effects_raw"),
           (counts b "flavors_raw").




(** *** The confidence score in weight points *)

(** X10. The score counted in weight points of the fourteen there are: 13
    or more give 5, 10 to 12 give 4, 7 to 9 give 3, 5 or 6 give 2, less
    gives 1.  So the score is 5 exactly when the five fields of weight 2 or
    3 all count and at most one of effects and flavors is missing, and a
    record in which only the two potency fields count (6 points) gets 2. *)
Theorem confidence_by_weight (b : gmap string string) :
  let points := actual_score b in
  (0 <= points <= 14)%Z /\
  _calculate_confidence b =
    (if 13 <=? points then 5 else if 10 <=? points then 4
     else if 7 <=? points then 3 else if 5 <=? points then 2 else 1)%Z /\
  (_calculate_confidence b = 5%Z <->
     counts b "height_raw" && counts b "flowering_time_raw" &&
     counts b "thc_content_raw" && counts b "cbd_content_raw" &&
     counts b "genetics_raw" &&
     (counts b "effects_raw" || counts b "flavors_raw") = true).
Proof.
  by_counted_fields b; vm_compute; (split; [split; discriminate |]);
    (split; [reflexivity |]); split; (discriminate || reflexivity).
Qed.

(** X11. Filling in more fields never lowers the score: when every field
    that counts in one record counts in another, the other's score is at
    least as high. *)
Theorem confidence_monotone (b b' : gmap string string) :
  (forall field, counts b field = true -> counts b' field = true) ->
  (_calculate_confidence b <= _calculate_confidence b')%Z.
Proof.
  intros H.
  unfold _calculate_confidence, percentage, actual_score, field_weights.
  cbn [fold_left fst snd].
  pose proof (H "height_raw") as H1. pose proof (H "flowering_time_raw") as H2.
  pose proof (H "thc_content_raw") as H3. pose proof (H "cbd_content_raw") as H4.
  pose proof (H "genetics_raw") as H5. pose proof (H "effects_raw") as H6.
  pose proof (H "flavors_raw") as H7. clear H.
  destruct (counts b "height_raw");
    [rewrite (H1 eq_refl) | destruct (counts b' "height_raw")]; clear H1;
  (destruct (counts b "flowering_time_raw");
    [rewrite (H2 eq_refl) | destruct (counts b' "flowering_time_raw")]); clear H2;
  (destruct (counts b "thc_content_raw");
    [rewrite (H3 eq_refl) | destruct (counts b' "thc_content_raw")]); clear H3;
  (destruct (counts b "cbd_content_raw");
    [rewrite (H4 eq_refl) | destruct (counts b' "cbd_content_raw")]); clear H4;
  (destruct (counts b "genetics_raw");
    [rewrite (H5 eq_refl) | destruct (counts b' "genetics_raw")]); clear H5;
  (destruct (counts b "effects_raw");
    [rewrite (H6 eq_refl) | destruct (counts b' "effects_raw")]); clear H6;
  (destruct (counts b "flavors_raw");
    [rewrite (H7 eq_refl) | destruct (counts b' "flavors_raw")]); clear H7;
  vm_compute; discriminate.
Qed.

Lemma confidence_monotone_witness :
  (_calculate_confidence (<["effects_raw" := "happy"]> ∅) <=
   _calculate_confidence half_filled)%Z.
Proof.
  apply (confidence_monotone (<["effects_raw" := "happy"]> ∅) half_filled).
  intros field H. unfold counts in *.
  destruct (decide (field = "effects_raw")) as [-> | N].
  - vm_compute. reflexivity.
  - rewrite lookup_insert_ne, lookup_empty in H by done. discriminate.
Defined.

(** *** Texts in the canonical form are read back *)

Lemma orelse_left {A} (x y : option A) v : x = Some v -> orelse x y = Some v.
Proof. by intros ->. Qed.

(** A greedy run of digits takes all the digits there are. *)
Lemma star_digit_greedy {A} ds rest c (k : string -> caps -> option A) x :
  PyStr.all_digits ds = true ->
  (forall y t, rest = String y t -> PyStr.is_digit y = false) ->
  k rest c = Some x ->
  rmatch (Star true digit) (ds ++ rest) c k = Some x.
Proof.
  intros D R K. cbn [rmatch].
  assert (F : (String.length ds <= String.length (ds ++ rest))%nat)
    by (rewrite length_app_string; lia).
  revert F. generalize (String.length (ds ++ rest)) as fuel.
  induction ds as [| a t IH]; intros fuel F.
  - rewrite app_nil. destruct fuel as [| fuel]; [done |].
    destruct rest as [| r rest]; cbn; [done |].
    unfold digit. cbn. rewrite (R r rest eq_refl). done.
  - cbn in D. apply andb_prop in D as [Da Dt].
    destruct fuel as [| fuel]; [cbn in F; lia |].
    rewrite app_cons. unfold digit. cbn [rmatch]. rewrite Da.
    replace (String.length (t ++ rest) <? String.length (String a (t ++ rest)))%nat
      with true by (symmetry; apply Nat.ltb_lt; cbn; lia).
    rewrite IH; [done | done | cbn in F; lia].
Qed.

Lemma digits_greedy {A} ds rest c (k : string -> caps -> option A) x :
  PyStr.all_digits ds = true -> ds <> "" ->
  (forall y t, rest = String y t -> PyStr.is_digit y = false) ->
  k rest c = Some x ->
  rmatch digits (ds ++ rest) c k = Some x.
Proof.
  intros D N R K. destruct ds as [| a t]; [done |].
  cbn in D. apply andb_prop in D as [Da Dt].
  rewrite app_cons. unfold digits, Plus. cbn [rmatch].
  unfold digit at 1. cbn [rmatch]. rewrite Da.
  by apply star_digit_greedy.
Qed.

(** A star whose character class the next character is not in takes
    nothing. *)
Lemma star_skip {A} g p y t c (k : string -> caps -> option A) :
  p y = false ->
  rmatch (Star g (Chr p)) (String y t) c k = k (String y t) c.
Proof.
  intros P. cbn. rewrite P. destruct g; cbn; [done |].
  by destruct (k (String y t) c).
Qed.

Lemma digit_no_space y : PyStr.is_digit y = true -> PyStr.is_space y = false.
Proof.
  unfold PyStr.is_digit, PyStr.is_space. intros H.
  apply andb_prop in H as [H1 H2]. apply Nat.leb_le in H1. apply Nat.leb_le in H2.
  apply orb_false_intro; apply andb_false_intro2; apply Nat.leb_gt; lia.
Qed.

(** What [int] and [float] read are runs of digits, and two of them around
    a dot. *)
Lemma digits_val_all s : forall acc z,
  digits_val s acc = Some z -> PyStr.all_digits s = true.
Proof.
  induction s as [| a t IH]; simpl; intros acc z H; [done |].
  destruct (PyStr.is_digit a); [| discriminate]. by apply IH in H.
Qed.

Lemma py_int_text s z : py_int s = Ok z -> PyStr.all_digits s = true /\ s <> "".
Proof.
  unfold py_int. destruct s as [| a t]; [discriminate |].
  destruct (digits_val _ 0) as [z' |] eqn:D; [| discriminate].
  intros _. split; [by apply digits_val_all in D | discriminate].
Qed.

Lemma split_dot_text s : forall i f,
  split_dot s = (i, f) ->
  s = match f with Some f => i ++ String "." f | None => i end.
Proof.
  induction s as [| a t IH]; simpl; intros i f H.
  - by injection H as <- <-.
  - destruct (Ascii.eqb a ".") eqn:E.
    + apply Ascii.eqb_eq in E as ->. injection H as <- <-. by rewrite app_nil.
    + destruct (split_dot t) as [i' f']. injection H as <- <-.
      rewrite (IH i' f' eq_refl). destruct f'; by rewrite ?app_cons.
Qed.

Lemma py_float_text s q :
  py_float s = Ok q ->
  (PyStr.all_digits s = true /\ s <> "") \/
  (exists i f, s = i ++ String "." f /\
     PyStr.all_digits i = true /\ i <> "" /\
     PyStr.all_digits f = true /\ f <> "").
Proof.
  unfold py_float. destruct (split_dot s) as [i [f |]] eqn:S;
    apply split_dot_text in S as ->.
  - destruct (py_int i) as [zi |] eqn:I; simpl; [| discriminate].
    destruct (py_int f) as [zf |] eqn:F; simpl; [| discriminate].
    intros _. right. exists i, f.
    apply py_int_text in I as []. apply py_int_text in F as []. done.
  - destruct (py_int i) as [zi |] eqn:I; simpl; [| discriminate].
    intros _. left. by apply py_int_text in I.
Qed.

Lemma text_starts_with_digit s :
  PyStr.all_digits s = true -> s <> "" ->
  exists y t, s = String y t /\ PyStr.is_digit y = true.
Proof.
  destruct s as [| y t]; [done |]. cbn. intros H _.
  apply andb_prop in H as [H _]. by exists y, t.
Qed.

Lemma float_starts_with_digit s q :
  py_float s = Ok q -> exists y t, s = String y t /\ PyStr.is_digit y = true.
Proof.
  intros H. apply py_float_text in H as [[D N] | (i & f & -> & D & N & _)].
  - by apply text_starts_with_digit.
  - destruct (text_starts_with_digit i D N) as (y & t & -> & Y).
    exists y, (t ++ String "." f). by rewrite app_cons.
Qed.


(** A numeral followed by neither a digit nor a dot is taken whole. *)
Lemma decimal_greedy {A} g q rest c (k : string -> caps -> option A) x :
  py_float g = Ok q ->
  (forall y t, rest = String y t -> PyStr.is_digit y = false /\ y <> "."%char) ->
  k rest c = Some x ->
  rmatch decimal (g ++ rest) c k = Some x.
Proof.
  intros G R K. unfold decimal, Opt. cbn [rmatch].
  apply py_float_text in G as [[D N] | (i & f & -> & Di & Ni & Df & Nf)].
  - apply digits_greedy; [done | done | intros y t E; by apply (R y t) |].
    destruct rest as [| y t]; cbn; [done |].
    destruct (R y t eq_refl) as [_ Hy].
    unfold chr. cbn.
    destruct (Ascii.eqb y ".") eqn:E; [by apply Ascii.eqb_eq in E | done].
  - rewrite app_string_assoc, app_cons.
    apply digits_greedy; [done | done | by intros y t [= <- _] |].
    apply orelse_left. unfold chr. cbn [rmatch]. cbn [Ascii.eqb Bool.eqb].
    apply digits_greedy; [done | done | intros y t E; by apply (R y t) | done].
Qed.


Section Canonical.
Context {N : Type} (parse : string -> res N) (num unit : regex).
Hypothesis starts_with_digit :
  forall g v, parse g = Ok v -> exists y t, g = String y t /\ PyStr.is_digit y = true.
Hypothesis greedy :
  forall A g v rest c (k : string -> caps -> option A) x,
    parse g = Ok v ->
    (forall y t, rest = String y t -> PyStr.is_digit y = false /\ y <> "."%char) ->
    k rest c = Some x ->
    rmatch num (g ++ rest) c k = Some x.
Variable u : string.
Hypothesis unit_starts :
  forall y t, u = String y t -> PyStr.is_digit y = false /\ y <> "."%char.
Hypothesis unit_matches :
  forall c, rmatch (Seq spaces unit) u c (fun s' c' => Some (s', c')) = Some ("", c).

(** [a-b] and the unit, at the start of the text, are what the search
    finds. *)
Lemma search_canonical a b va vb :
  parse a = Ok va -> parse b = Ok vb ->
  search (range num unit) (a ++ "-" ++ b ++ u) = Some [(2%nat, b); (1%nat, a)].
Proof.
  intros Pa Pb.
  assert (M : match_here (range num unit) (a ++ "-" ++ b ++ u) =
              Some ("", [(2%nat, b); (1%nat, a)])).
  { unfold match_here, range. cbn [seq rmatch].
    rewrite (app_cons "-"), app_nil.
    eapply greedy; [exact Pa | by intros y t [= <- _] |].
    cbn beta. rewrite consumed_app.
    unfold spaces at 1, space. rewrite star_skip by done.
    unfold Opt at 1. cbn [rmatch]. apply orelse_left.
    unfold chr. cbn [rmatch]. cbn [Ascii.eqb Bool.eqb].
    destruct (starts_with_digit _ _ Pb) as (y & t & Eb & Y).
    unfold spaces at 1, space. rewrite Eb at 1. rewrite app_cons.
    rewrite star_skip by (by apply digit_no_space).
    rewrite <- app_cons, <- Eb.
    unfold Opt at 1. cbn [rmatch]. apply orelse_left.
    eapply greedy; [exact Pb | exact unit_starts |].
    cbn beta. rewrite consumed_app. apply unit_matches. }
  destruct (starts_with_digit _ _ Pa) as (y & t & Ea & _).
  revert M. rewrite Ea at 1 3. rewrite app_cons. intros M.
  cbn [search]. by rewrite M.
Qed.

End Canonical.


(** Digits and dots hold none of the letters the qualitative words and the
    units start with. *)
Lemma lower_digit y : PyStr.is_digit y = true -> PyStr.lower_ascii y = y.
Proof.
  unfold PyStr.is_digit, PyStr.lower_ascii. intros H.
  apply andb_prop in H as [_ H]. apply Nat.leb_le in H.
  replace (nat_of_ascii y <=? 90)%nat with true by (symmetry; apply Nat.leb_le; lia).
  replace (65 <=? nat_of_ascii y)%nat with false by (symmetry; apply Nat.leb_gt; lia).
  done.
Qed.

Lemma contains_skip_char s0 sub y t :
  PyStr.lower_ascii y <> s0 ->
  PyStr.contains (String s0 sub) (PyStr.lower (String y t)) =
  PyStr.contains (String s0 sub) (PyStr.lower t).
Proof.
  intros H. cbn. destruct (ascii_dec s0 (PyStr.lower_ascii y)); [by subst | done].
Qed.

Lemma contains_skip_digits s0 sub d rest :
  PyStr.is_digit s0 = false ->
  PyStr.all_digits d = true ->
  PyStr.contains (String s0 sub) (PyStr.lower (d ++ rest)) =
  PyStr.contains (String s0 sub) (PyStr.lower rest).
Proof.
  intros S. induction d as [| y t IH]; intros D; [by rewrite app_nil |].
  cbn in D. apply andb_prop in D as [Dy Dt].
  rewrite app_cons, contains_skip_char; [by apply IH |].
  rewrite (lower_digit _ Dy). intros ->. congruence.
Qed.

Lemma contains_skip_float s0 sub g q rest :
  PyStr.is_digit s0 = false -> PyStr.lower_ascii "." <> s0 ->
  py_float g = Ok q ->
  PyStr.contains (String s0 sub) (PyStr.lower (g ++ rest)) =
  PyStr.contains (String s0 sub) (PyStr.lower rest).
Proof.
  intros S P G. apply py_float_text in G as [[D _] | (i & f & -> & Di & _ & Df & _)].
  - by apply contains_skip_digits.
  - rewrite app_string_assoc, app_cons.
    rewrite contains_skip_digits, contains_skip_char by done.
    by apply contains_skip_digits.
Qed.


Lemma canonical_has_no s0 sub a b va vb u :
  PyStr.is_digit s0 = false -> PyStr.lower_ascii "." <> s0 ->
  PyStr.lower_ascii "-" <> s0 ->
  py_float a = Ok va -> py_float b = Ok vb ->
  PyStr.contains (String s0 sub) (PyStr.lower (a ++ "-" ++ b ++ u)) =
  PyStr.contains (String s0 sub) (PyStr.lower u).
Proof.
  intros S P M A B.
  rewrite (contains_skip_float _ _ _ _ _ S P A).
  rewrite (app_cons "-"), app_nil, contains_skip_char by done.
  by rewrite (contains_skip_float _ _ _ _ _ S P B).
Qed.


Lemma canonical_not_qualitative a b va vb u :
  py_float a = Ok va -> py_float b = Ok vb ->
  qualitative u = false ->
  qualitative (a ++ "-" ++ b ++ u) = false.
Proof.
  intros A B. unfold qualitative.
  by rewrite !(canonical_has_no _ _ a b va vb u) by done.
Qed.

(** A pattern finds nothing in a text that lacks the letter its unit
    starts with. *)
Lemma search_suffix r s c :
  search r s = Some c -> exists p t s', s = p ++ t /\ matches r t [] s' c.
Proof.
  induction s as [| a s IH]; simpl; unfold match_here.
  - destruct (rmatch r "" [] _) as [[s' c']|] eqn:E; [| discriminate].
    intros [= <-]. apply rmatch_sound in E as (s1 & c1 & M & [= <- <-]).
    by exists "", "", s1.
  - destruct (rmatch r (String a s) [] _) as [[s' c']|] eqn:E.
    + intros [= <-]. apply rmatch_sound in E as (s1 & c1 & M & [= <- <-]).
      by exists "", (String a s), s1.
    + intros H. apply IH in H as (p & t & s' & -> & M).
      exists (String a p), t, s'. by rewrite app_cons.
Qed.

Lemma matches_Seq_tail r1 r2 s c s' c' :
  matches (Seq r1 r2) s c s' c' ->
  exists d s1 c1, s = d ++ s1 /\ matches r2 s1 c1 s' c'.
Proof.
  intros H. apply matches_Seq_inv in H as (s1 & c1 & H1 & H2).
  apply matches_split in H1 as [d ->]. by exists d, s1, c1.
Qed.

Lemma contains_char c0 p y r :
  PyStr.lower_ascii y = c0 ->
  PyStr.contains (String c0 "") (PyStr.lower (p ++ String y r)) = true.
Proof.
  intros <-. induction p as [| x p IH].
  - rewrite app_nil. cbn. destruct (ascii_dec _ _); [| done].
    by destruct (PyStr.lower r).
  - rewrite app_cons. cbn. rewrite IH. apply orb_true_r.
Qed.

Lemma search_needs_unit num unit c0 s :
  (forall s5 c5 s' c, matches unit s5 c5 s' c ->
     exists y r, s5 = String y r /\ PyStr.lower_ascii y = c0) ->
  PyStr.contains (String c0 "") (PyStr.lower s) = false ->
  search (range num unit) s = None.
Proof.
  intros U C. destruct (search _ s) as [c |] eqn:E; [| done].
  apply search_suffix in E as (p & t & s' & -> & M).
  unfold range in M. cbn [seq] in M.
  apply matches_Seq_tail in M as (d1 & s1 & c1 & -> & M).
  apply matches_Seq_tail in M as (d2 & s2 & c2 & -> & M).
  apply matches_Seq_tail in M as (d3 & s3 & c3 & -> & M).
  apply matches_Seq_tail in M as (d4 & s4 & c4 & -> & M).
  apply matches_Seq_tail in M as (d5 & s5 & c5 & -> & M).
  apply matches_Seq_tail in M as (d6 & s6 & c6 & -> & M).
  apply U in M as (y & r & -> & Y).
  rewrite <- !app_string_assoc in C.
  by rewrite (contains_char c0 _ y r Y) in C.
Qed.

Lemma cm_starts_with_c s5 c5 s' c :
  matches (lit true "cm") s5 c5 s' c ->
  exists y r, s5 = String y r /\ PyStr.lower_ascii y = "c"%char.
Proof.
  cbn [lit]. intros M. apply matches_Seq_inv in M as (s1 & c1 & M & _).
  apply matches_Chr_inv in M as (y & -> & Y & _).
  exists y, s1. split; [done |]. by apply Ascii.eqb_eq in Y.
Qed.


Lemma numbers_canonical {A} (parse : string -> res A) a b va vb :
  parse a = Ok va -> parse b = Ok vb ->
  numbers parse [(2%nat, b); (1%nat, a)] = Ok (va, Some vb).
Proof. intros Pa Pb. unfold numbers, group1. cbn. rewrite Pa. cbn. by rewrite Pb. Qed.

Ltac unit_cases := intros y t [= <- _]; split; [reflexivity | discriminate].

(** X12. A pair of numerals joined by a hyphen and followed by the unit is
    read back as that pair: for whatever numerals [a] and [b] that [float]
    reads (digits, or digits around a dot), [a-b%] gives [a] and [b] as the
    two bounds, [a-bcm] gives them as centimetres and [a-b feet] gives each
    times the feet factor. *)
Theorem canonical_ranges_are_read (self : conversion_rules)
    (a b : string) (va vb : Q) (max_val : bool) :
  py_float a = Ok va -> py_float b = Ok vb ->
  let bound := if max_val then vb else va in
  _extract_percentage_range (Some (a ++ "-" ++ b ++ "%")) max_val =
    Ok (Some bound) /\
  _extract_height_range self (Some (a ++ "-" ++ b ++ "cm")) max_val =
    Ok (Some bound) /\
  _extract_height_range self (Some (a ++ "-" ++ b ++ " feet")) max_val =
    Ok (Some (Qred (bound * feet_to_cm (height self)))).
Proof.
  intros Pa Pb bound.
  pose proof (numbers_canonical py_float a b va vb Pa Pb) as Nm.
  assert (S : forall unit u,
             (forall y t, u = String y t ->
                PyStr.is_digit y = false /\ y <> "."%char) ->
             (forall c, rmatch (Seq spaces unit) u c (fun s' c' => Some (s', c')) =
                        Some ("", c)) ->
             search (decimal_range unit) (a ++ "-" ++ b ++ u) =
             Some [(2%nat, b); (1%nat, a)]).
  { intros unit u U1 U2.
    apply (search_canonical py_float decimal unit float_starts_with_digit
             (@decimal_greedy) u U1 U2 a b va vb Pa Pb). }
  split; [| split].
  - assert (E := S (Re.chr false "%") "%" ltac:(unit_cases) ltac:(done)).
    destruct (percentage_selected _ max_val _ E) as (n1 & o2 & N & ->).
    rewrite Nm in N. injection N as <- <-. done.
  - assert (E := S (lit true "cm") "cm" ltac:(unit_cases) ltac:(done)).
    assert (Q : qualitative (a ++ "-" ++ b ++ "cm") = false)
      by (by apply (canonical_not_qualitative a b va vb)).
    destruct (height_cm_selected self _ max_val _ Q E) as (n1 & o2 & N & ->).
    rewrite Nm in N. injection N as <- <-. done.
  - assert (E := S (Alt (lit true "feet") (lit true "ft")) " feet"
                   ltac:(unit_cases) ltac:(done)).
    assert (Q : qualitative (a ++ "-" ++ b ++ " feet") = false)
      by (by apply (canonical_not_qualitative a b va vb)).
    assert (C : search cm_pattern (a ++ "-" ++ b ++ " feet") = None).
    { apply (search_needs_unit _ _ "c"%char); [exact cm_starts_with_c |].
      by rewrite (canonical_has_no _ _ a b va vb). }
    destruct (height_feet_selected self _ max_val _ Q C E) as (n1 & o2 & N & ->).
    rewrite Nm in N. injection N as <- <-. done.
Qed.

Lemma canonical_ranges_are_read_witness :
  _extract_percentage_range (Some ("18.5" ++ "-" ++ "22" ++ "%")) true =
    Ok (Some 22) /\
  _extract_height_range init_rules (Some ("18.5" ++ "-" ++ "22" ++ "cm")) true =
    Ok (Some 22) /\
  _extract_height_range init_rules (Some ("18.5" ++ "-" ++ "22" ++ " feet")) true =
    Ok (Some (Qred (22 * feet_to_cm (height init_rules)))).
Proof.
  exact (canonical_ranges_are_read init_rules "18.5" "22" (37 # 2) 22 true
           eq_refl eq_refl).
Defined.



End NormalizerExtras.

(** ** Further properties of the detector *)

From Stdlib Require Import Lqa.

Module OutlierExtras.
Import Outlier OutlierFacts.
Local Open Scope Q_scope.

(** *** Findings by row *)

Lemma filter_off_index (g : nat * row -> finding) (P : finding -> bool) cond
    (l : list row) :
  forall (h : nat -> nat) t,
    (forall ir, row_index (g ir) = fst ir) ->
    (forall i, h i <> t) ->
    List.filter (fun f => Nat.eqb (row_index f) t && P f)
      (map g (List.filter (fun ir : nat * row => cond (snd ir))
                          (imap (fun i r => (h i, r)) l))) = [].
Proof.
  induction l as [| x l IH]; intros h t G H; [done |].
  cbn [imap List.filter]. cbn [snd].
  assert (T : List.filter (fun f => Nat.eqb (row_index f) t && P f)
                (map g (List.filter (fun ir : nat * row => cond (snd ir))
                          (imap ((fun i r => (h i, r)) ∘ S) l))) = []).
  { apply (IH (h ∘ S)); [done | intros i; apply H]. }
  destruct (cond x); [| exact T].
  cbn [map List.filter]. rewrite G. cbn [fst].
  destruct (Nat.eqb_spec (h 0%nat) t) as [E | _]; [by apply H in E |].
  exact T.
Qed.

Lemma filter_at_index (g : nat * row -> finding) (P : finding -> bool) cond
    (l : list row) :
  forall (h : nat -> nat) idx r,
    (forall ir, row_index (g ir) = fst ir) ->
    (forall i j, h i = h j -> i = j) ->
    l !! idx = Some r ->
    List.filter (fun f => Nat.eqb (row_index f) (h idx) && P f)
      (map g (List.filter (fun ir : nat * row => cond (snd ir))
                          (imap (fun i r => (h i, r)) l))) =
    if cond r && P (g (h idx, r)) then [g (h idx, r)] else [].
Proof.
  induction l as [| x l IH]; intros h idx r G H L; [done |].
  cbn [imap List.filter]. cbn [snd].
  destruct idx as [| idx].
  - injection L as ->.
    assert (T : List.filter (fun f => Nat.eqb (row_index f) (h 0%nat) && P f)
                  (map g (List.filter (fun ir : nat * row => cond (snd ir))
                            (imap ((fun i r => (h i, r)) ∘ S) l))) = []).
    { apply (filter_off_index g P cond l (h ∘ S)); [done |].
      intros i E. by apply H in E. }
    destruct (cond r); [| by rewrite T].
    cbn [map List.filter]. rewrite G. cbn [fst]. rewrite Nat.eqb_refl, T.
    by destruct (P _).
  - assert (T := IH (h ∘ S) idx r G ltac:(intros i j E; apply H in E; lia) L).
    cbn [compose] in T.
    destruct (cond x); [| exact T].
    cbn [map List.filter]. rewrite G. cbn [fst].
    destruct (Nat.eqb_spec (h 0%nat) (h (S idx))) as [E | _];
      [by apply H in E |].
    exact T.
Qed.

(** The findings a selection gives for one row. *)
Lemma findings_at_select (g : nat * row -> finding) cond df idx cols r :
  (forall ir, row_index (g ir) = fst ir) ->
  rows df !! idx = Some r ->
  findings_at idx cols (map g (select cond df)) =
  if cond r && bool_decide (fields (g (idx, r)) = cols) then [g (idx, r)] else [].
Proof.
  intros G L. unfold findings_at, select.
  apply (filter_at_index g (fun f => bool_decide (fields f = cols)) cond
           (rows df) id idx r G); [by intros i j | done].
Qed.

Lemma findings_at_app idx cols l1 l2 :
  findings_at idx cols (l1 ++ l2)%list =
  (findings_at idx cols l1 ++ findings_at idx cols l2)%list.
Proof. unfold findings_at. apply List.filter_app. Qed.



Lemma lt_bool_spec a b : reflect (a < b) (lt_bool a b).
Proof.
  unfold lt_bool. destruct (Qle_bool b a) eqn:E; constructor.
  - apply Qle_bool_iff in E. lra.
  - apply Qnot_le_lt. intros L. apply Qle_bool_iff in L. congruence.
Qed.

Lemma le_bool_lt a b : Qle_bool a b = negb (lt_bool b a).
Proof. unfold lt_bool. by rewrite negb_involutive. Qed.

Lemma has_column_check_one df rl c :
  has_column df c = true ->
  check_one df rl c =
  (match r_min rl with
   | Some lo =>
       map (field_finding c below_minimum [lo] critical)
           (select (fun r => cell_lt r c lo) df)
   | None => []
   end ++
   match r_max rl with
   | Some hi =>
       map (field_finding c above_maximum [hi] critical)
           (select (fun r => cell_gt r c hi) df)
   | None => []
   end ++
   match typical_range rl with
   | Some (typical_min, typical_max) =>
       map (field_finding c below_typical [typical_min; typical_max] warning)
           (select (fun r => cell_ge r c (default 0 (r_min rl)) &&
                             cell_lt r c typical_min) df) ++
       map (field_finding c above_typical [typical_min; typical_max] warning)
           (select (fun r => match r_max rl with
                             | Some hi => cell_le r c hi
                             | None => cell_notna r c
                             end && cell_gt r c typical_max) df)
   | None => []
   end)%list.
Proof. intros H. unfold check_one. by rewrite H. Qed.

(** The findings of one column, for a row whose cell holds a value. *)
Lemma check_one_verdict df rl c idx r v lo hi :
  r_min rl = Some lo -> r_max rl = Some hi ->
  nested lo hi (typical_range rl) ->
  has_column df c = true ->
  rows df !! idx = Some r ->
  cells r !! c = Some v ->
  map kind (findings_at idx [c] (check_one df rl c)) =
  verdict lo hi (typical_range rl) v.
Proof.
  intros Lo Hi N H R V. rewrite (has_column_check_one _ _ _ H), Lo, Hi.
  rewrite !findings_at_app.
  rewrite !(findings_at_select _ _ df idx [c] r) by done.
  assert (T : map kind
                (findings_at idx [c]
                   match typical_range rl with
                   | Some (typical_min, typical_max) =>
                       (map (field_finding c below_typical
                               [typical_min; typical_max] warning)
                          (select (fun r => cell_ge r c (default 0 (Some lo)) &&
                                            cell_lt r c typical_min) df) ++
                        map (field_finding c above_typical
                               [typical_min; typical_max] warning)
                          (select (fun r => cell_le r c hi &&
                                            cell_gt r c typical_max) df))%list
                   | None => []
                   end) =
              match typical_range rl with
              | Some (typical_min, typical_max) =>
                  ((if negb (lt_bool v lo) && lt_bool v typical_min
                    then [(below_typical, warning)] else []) ++
                   (if negb (lt_bool hi v) && lt_bool typical_max v
                    then [(above_typical, warning)] else []))%list
              | None => []
              end).
  { destruct (typical_range rl) as [[tlo thi] |]; [| done].
    rewrite findings_at_app, !(findings_at_select _ _ df idx [c] r) by done.
    unfold cell_ge, cell_le, cell_lt, cell_gt. rewrite V. cbn [default fields field_finding].
    rewrite !bool_decide_eq_true_2 by done. rewrite !andb_true_r.
    rewrite !le_bool_lt, !negb_involutive. unfold id.
    rewrite map_app.
    by destruct (negb (lt_bool v lo) && lt_bool v tlo),
                (negb (lt_bool hi v) && lt_bool thi v). }
  rewrite !map_app, T. clear T.
  unfold cell_lt, cell_gt. rewrite V. cbn [fields field_finding].
  rewrite !bool_decide_eq_true_2 by done. rewrite !andb_true_r.
  fold (lt_bool v lo). fold (lt_bool hi v).
  unfold verdict, nested in *.
  destruct (typical_range rl) as [[tlo thi] |].
  - destruct (lt_bool_spec v lo), (lt_bool_spec hi v),
             (lt_bool_spec v tlo), (lt_bool_spec thi v);
      cbn; try reflexivity; exfalso; lra.
  - destruct (lt_bool_spec v lo), (lt_bool_spec hi v);
      cbn; try reflexivity; exfalso; lra.
Qed.

Lemma check_one_null df rl c idx r cols :
  rows df !! idx = Some r ->
  cells r !! c = None ->
  findings_at idx cols (check_one df rl c) = [].
Proof.
  intros R V. unfold check_one.
  destruct (has_column df c); [| done]. cbn [negb].
  rewrite !findings_at_app.
  assert (T : forall cond g,
             (forall ir, row_index (g ir) = fst ir) -> cond r = false ->
             findings_at idx cols (map g (select cond df)) = []).
  { intros cond g G C. rewrite (findings_at_select _ _ df idx cols r) by done.
    by rewrite C. }
  destruct (r_min rl), (r_max rl), (typical_range rl) as [[? ?] |];
    rewrite ?findings_at_app;
    rewrite ?T; try done;
    unfold cell_lt, cell_gt, cell_ge, cell_le, cell_notna; by rewrite V.
Qed.

Lemma check_one_other df rl c c' idx :
  c <> c' -> findings_at idx [c] (check_one df rl c') = [].
Proof.
  intros N. unfold findings_at.
  assert (A : forall f, In f (check_one df rl c') -> fields f = [c']).
  { intros f. unfold check_one. destruct (has_column df c'); [| done].
    cbn [negb]. rewrite !in_app_iff.
    destruct (r_min rl), (r_max rl), (typical_range rl) as [[? ?] |];
      rewrite ?in_app_iff, ?in_map_iff; intros I;
      repeat match goal with
      | H : _ \/ _ |- _ => destruct H
      | H : exists _, _ |- _ => destruct H as (? & <- & _)
      | H : In _ [] |- _ => destruct H
      end; done. }
  induction (check_one df rl c') as [| f l IH]; [done |].
  cbn [List.filter]. rewrite (A f) by by left.
  rewrite bool_decide_eq_false_2 by congruence. rewrite andb_false_r.
  apply IH. intros g I. apply A. by right.
Qed.

(** *** The three columns of a field *)

Lemma append_grows (s t : string) : t <> "" -> (s ++ t)%string <> s.
Proof.
  intros T. induction s as [| a s IH].
  - by rewrite ReFacts.app_nil.
  - rewrite ReFacts.app_cons. intros [= E]. by apply IH.
Qed.

Lemma append_inj (s t t' : string) : (s ++ t)%string = (s ++ t')%string -> t = t'.
Proof.
  induction s as [| a s IH].
  - by rewrite !ReFacts.app_nil.
  - rewrite !ReFacts.app_cons. intros [= E]. by apply IH.
Qed.

Lemma columns_of_NoDup field : List.NoDup (columns_of field).
Proof.
  unfold columns_of. repeat constructor; cbn [In].
  - intros [E | [E | []]].
    + by apply append_inj in E.
    + symmetry in E. by apply append_grows in E.
  - intros [E | []]. symmetry in E. by apply append_grows in E.
  - intros [].
Qed.

Lemma fields_to_check_sub df field c :
  In c (fields_to_check df field) <->
  In c (columns_of field) /\ has_column df c = true.
Proof.
  unfold fields_to_check, columns_of. rewrite !in_app_iff. cbn [In]. split.
  - intros [H | [H | H]];
      match type of H with
      | In _ (if ?b then _ else _) => destruct b eqn:E; [| done]
      end; destruct H as [<- | []]; tauto.
  - intros [[<- | [<- | [<- | []]]] H]; rewrite H; cbn [In]; intuition.
Qed.

Lemma fields_to_check_NoDup df field : List.NoDup (fields_to_check df field).
Proof.
  pose proof (columns_of_NoDup field) as N. unfold columns_of in N.
  unfold fields_to_check.
  inversion_clear N as [| ? ? N1 N']. inversion_clear N' as [| ? ? N2 _].
  cbn [In] in N1, N2.
  destruct (has_column df (field ++ "_min")%string),
           (has_column df (field ++ "_max")%string),
           (has_column df field); cbn [app];
    repeat constructor; cbn [In]; tauto.
Qed.

(** The findings of the method that name one of its columns are those of
    the pass over that column. *)
Lemma field_outliers_at df field rl c idx :
  In c (fields_to_check df field) ->
  findings_at idx [c] (_check_field_outliers df field rl) =
  findings_at idx [c] (check_one df rl c).
Proof.
  unfold _check_field_outliers.
  pose proof (fields_to_check_NoDup df field) as N.
  induction N as [| c' l N1 N IH]; [done |].
  cbn [flat_map]. rewrite findings_at_app. intros [-> | I].
  - assert (T : findings_at idx [c] (flat_map (check_one df rl) l) = []).
    { clear IH N. induction l as [| c' l IH]; [done |].
      cbn [flat_map]. rewrite findings_at_app, check_one_other, IH; [done | |].
      - intros I. apply N1. by right.
      - intros ->. apply N1. by left. }
    by rewrite T, app_nil_r.
  - rewrite check_one_other, IH; [done | done |].
    intros ->. done.
Qed.

Lemma field_outliers_elsewhere df field rl c idx :
  ~ In c (columns_of field) ->
  findings_at idx [c] (_check_field_outliers df field rl) = [].
Proof.
  intros N. unfold _check_field_outliers.
  assert (S : forall c', In c' (fields_to_check df field) -> c <> c').
  { intros c' I ->. apply fields_to_check_sub in I as [I _]. done. }
  induction (fields_to_check df field) as [| c' l IH]; [done |].
  cbn [flat_map]. rewrite findings_at_app, check_one_other, IH; [done | |].
  - intros c'' I. apply S. by right.
  - apply S. by left.
Qed.

(** The findings of the method for one cell of one of its columns. *)
Lemma field_outliers_verdict df field rl c idx r lo hi :
  r_min rl = Some lo -> r_max rl = Some hi ->
  nested lo hi (typical_range rl) ->
  In c (fields_to_check df field) ->
  rows df !! idx = Some r ->
  map kind (findings_at idx [c] (_check_field_outliers df field rl)) =
  match cells r !! c with
  | Some v => verdict lo hi (typical_range rl) v
  | None => []
  end.
Proof.
  intros Lo Hi N I R. rewrite (field_outliers_at _ _ _ _ _ I).
  apply fields_to_check_sub in I as [_ H].
  destruct (cells r !! c) as [v |] eqn:V.
  - by apply (check_one_verdict df rl c idx r v lo hi).
  - by rewrite (check_one_null df rl c idx r).
Qed.

Lemma guarded_elsewhere df field rl c idx :
  ~ In c (columns_of field) ->
  findings_at idx [c]
    (if has_column df field then _check_field_outliers df field rl else []) = [].
Proof.
  intros N. destruct (has_column df field); [| done].
  by apply field_outliers_elsewhere.
Qed.

Lemma critical_outliers_detect self df :
  critical_outliers (fst (detect_outliers self df)) =
  flat_map (fun fr => if has_column df (fst fr)
                      then _check_field_outliers df (fst fr) (snd fr)
                      else [])
           (validation_rules self).
Proof. reflexivity. Qed.

Lemma impossible_values_detect self df :
  impossible_values (fst (detect_outliers self df)) =
  _check_impossible_combinations df.
Proof. reflexivity. Qed.

(** X14. What the detector, with the rules of its constructor, says of one
    cell.  For a configured field whose plain column the frame has, and a
    column of the field that the frame has (the plain one, [_min] or
    [_max]), the findings of the bound checks that name a row and the
    column are: nothing for a null cell; for a value, one critical finding
    when it is outside the hard bounds of the field, one warning when it is
    inside them and outside the typical range, and nothing otherwise.  No
    cell gets two findings; the potency fields, which have a
    [typical_max] and no typical range, never get a warning. *)
Theorem cell_verdict (df : DataFrame) (field : string) (rl : rules)
    (c : string) (idx : nat) (r : row) :
  In (field, rl) (validation_rules init) ->
  has_column df field = true ->
  In c (columns_of field) -> has_column df c = true ->
  rows df !! idx = Some r ->
  exists lo hi,
    r_min rl = Some lo /\ r_max rl = Some hi /\
    map kind (findings_at idx [c]
                (critical_outliers (fst (detect_outliers init df)))) =
    match cells r !! c with
    | Some v => verdict lo hi (typical_range rl) v
    | None => []
    end.
Proof.
  intros I H C Hc R. rewrite critical_outliers_detect.
  assert (F : In c (fields_to_check df field)) by (by apply fields_to_check_sub).
  cbn [validation_rules init flat_map fst snd]. rewrite !findings_at_app.
  cbn [validation_rules init In] in I.
  unfold columns_of in C. cbn [In] in C.
  decompose [or] I; try contradiction;
    match goal with E : (_, _) = (_, _) |- _ =>
      apply pair_equal_spec in E as [<- <-] end;
    rewrite H; cbv iota;
    (destruct C as [<- | [<- | [<- | []]]];
     rewrite ?guarded_elsewhere by (vm_compute; intuition discriminate);
     cbn [app]; rewrite ?app_nil_r;
     eexists _, _; (split; [reflexivity |]); (split; [reflexivity |]);
     apply field_outliers_verdict;
       first [reflexivity | exact F | exact R | cbn; lra]).
Qed.

Lemma cell_verdict_witness :
  map (fun idx =>
         map kind (findings_at idx ["height_cm"]
                     (critical_outliers (fst (detect_outliers init heights)))))
      [0; 1; 2; 3; 4; 5]%nat =
  [[(below_minimum, critical)]; [(below_typical, warning)]; [];
   [(above_typical, warning)]; [(above_maximum, critical)]; []].
Proof.
  pose (rl := {| r_min := Some 30; r_max := Some 300; typical_max := None;
                 typical_range := Some (60, 200) |}).
  assert (V : forall idx r, rows heights !! idx = Some r ->
            map kind (findings_at idx ["height_cm"]
                        (critical_outliers (fst (detect_outliers init heights)))) =
            match cells r !! "height_cm" with
            | Some v => verdict 30 300 (Some (60, 200)) v
            | None => []
            end).
  { intros idx r R.
    destruct (cell_verdict heights "height_cm" rl "height_cm" idx r)
      as (lo & hi & Lo & Hi & E);
      [cbn; tauto | reflexivity | cbn; tauto | reflexivity | exact R |].
    injection Lo as <-. injection Hi as <-. exact E. }
  cbn [map].
  rewrite (V 0%nat _ eq_refl), (V 1%nat _ eq_refl), (V 2%nat _ eq_refl),
          (V 3%nat _ eq_refl), (V 4%nat _ eq_refl), (V 5%nat _ eq_refl).
  reflexivity.
Defined.

(** *** Which columns the bound checks read *)

Lemma in_check_one df rl c f :
  In f (check_one df rl c) ->
  has_column df c = true /\ fields f = [c] /\
  exists i r, rows df !! i = Some r /\ row_index f = i /\
              f_strain_name f = name_of r.
Proof.
  unfold check_one. destruct (has_column df c); [| done]. cbn [negb].
  intros I. split; [done |].
  assert (S : forall g cond,
             (forall ir, fields (g ir) = [c] /\ row_index (g ir) = fst ir /\
                         f_strain_name (g ir) = name_of (snd ir)) ->
             In f (map g (select cond df)) ->
             fields f = [c] /\
             exists i r, rows df !! i = Some r /\ row_index f = i /\
                         f_strain_name f = name_of r).
  { intros g cond G J. apply in_map_iff in J as ([i r] & <- & J).
    apply in_select in J as [J _]. destruct (G (i, r)) as (G1 & G2 & G3).
    split; [done |]. by exists i, r. }
  rewrite !in_app_iff in I.
  destruct (r_min rl), (r_max rl), (typical_range rl) as [[? ?] |];
    rewrite ?in_app_iff in I;
    repeat match goal with
    | H : _ \/ _ |- _ => destruct H
    | H : In _ [] |- _ => destruct H
    | H : In _ (map _ (select _ _)) |- _ => by apply S in H
    end.
Qed.

Lemma in_field_outliers df field rl f :
  In f (_check_field_outliers df field rl) ->
  exists c, In c (columns_of field) /\ has_column df c = true /\
            fields f = [c] /\
            exists i r, rows df !! i = Some r /\ row_index f = i /\
                        f_strain_name f = name_of r.
Proof.
  unfold _check_field_outliers. rewrite in_flat_map.
  intros (c & C & I). apply fields_to_check_sub in C as [C _].
  apply in_check_one in I as (H & F & R). by exists c.
Qed.

(** X15. Every finding of the bound checks names one column, and the
    column belongs to a configured field whose plain column the frame has:
    it is that column or the field's [_min] or [_max] column.  So the
    bounds of a field are not checked at all in a frame that has only its
    [_min] and [_max] columns, as the gold record has for potency, height
    and flowering time. *)
Theorem bound_checks_need_plain_column (self : detector) (df : DataFrame) :
  let found := critical_outliers (fst (detect_outliers self df)) in
  (forall f, In f found ->
     exists field rl c,
       In (field, rl) (validation_rules self) /\
       has_column df field = true /\
       In c (columns_of field) /\ has_column df c = true /\
       fields f = [c]) /\
  ((forall field rl, In (field, rl) (validation_rules self) ->
      has_column df field = false) ->
   found = []).
Proof.
  cbv zeta. rewrite critical_outliers_detect. split.
  - intros f I. apply in_flat_map in I as ([field rl] & R & I). cbn [fst snd] in I.
    destruct (has_column df field) eqn:H; [| done].
    apply in_field_outliers in I as (c & C & Hc & F & _).
    by exists field, rl, c.
  - intros N. induction (validation_rules self) as [| [field rl] l IH]; [done |].
    cbn [flat_map fst snd]. rewrite (N field rl) by (by left).
    apply IH. intros field' rl' I. apply (N field' rl'). by right.
Qed.

Lemma bound_checks_need_plain_column_witness :
  critical_outliers (fst (detect_outliers init gold_columns_only)) = [].
Proof.
  apply (bound_checks_need_plain_column init gold_columns_only).
  intros field rl I. cbn in I.
  decompose [or] I; try contradiction;
    match goal with H : (_, _) = (_, _) |- _ =>
      apply pair_equal_spec in H as [<- <-] end;
    reflexivity.
Defined.

(** *** The summary *)

Lemma count_severity_total l :
  (count_severity critical l + count_severity warning l)%Z =
  Z.of_nat (List.length l).
Proof.
  unfold count_severity, count.
  induction l as [| f l IH]; [done |].
  cbn [List.filter List.length]. destruct (f_severity f); cbn [severity_eqb List.length]; lia.
Qed.

Lemma max0_range x : x <= 100 -> 0 <= max0 x /\ max0 x <= 100.
Proof.
  intros H. unfold max0. destruct (Qle_bool x 0) eqn:E; [lra |].
  split; [| done].
  apply Qlt_le_weak, Qnot_le_lt. intros L. apply Qle_bool_iff in L. congruence.
Qed.

Lemma share_nonneg (t n : Z) :
  (0 <= t)%Z -> (0 < n)%Z -> 0 <= inject_Z t / inject_Z n * 100.
Proof.
  intros T N. apply Qmult_le_0_compat; [| lra].
  apply Qmult_le_0_compat.
  - change 0 with (inject_Z 0). by rewrite <- Zle_Qle.
  - apply Qinv_le_0_compat. change 0 with (inject_Z 0). rewrite <- Zle_Qle. lia.
Qed.

(** X16. What holds of every summary.  Critical findings and warnings
    together are all the outliers counted; the outlier percentage is not
    negative and the quality score lies between 0 and 100; the [warnings]
    list of the result is empty whatever the warning count is, the
    warnings being kept among the other findings; and the detector's own
    counters end up equal to the summary's, its rules unchanged. *)
Theorem summary_invariants (self : detector) (df : DataFrame) :
  let results := fst (detect_outliers self df) in
  let self' := snd (detect_outliers self df) in
  exists sm,
    res_summary results = Some sm /\
    (sum_critical_outliers sm + sum_warnings sm = total_outliers sm)%Z /\
    0 <= outlier_percentage sm /\
    0 <= data_quality_score sm /\ data_quality_score sm <= 100 /\
    warnings results = [] /\
    outlier_stats self' =
      {| s_total_records := total_records sm;
         s_outliers_found := total_outliers sm;
         s_critical_outliers := sum_critical_outliers sm;
         s_warnings := sum_warnings sm |} /\
    validation_rules self' = validation_rules self.
Proof.
  cbv zeta. eexists. split; [reflexivity |].
  cbn [total_outliers sum_critical_outliers sum_warnings outlier_percentage
       data_quality_score total_records].
  cbn [critical_outliers impossible_values outlier_stats s_total_records
       validation_rules].
  set (found := flat_map _ (validation_rules self)).
  set (combos := _check_impossible_combinations df).
  set (n := Z.of_nat (List.length (rows df))).
  set (t := Z.of_nat (List.length found + List.length combos)).
  split.
  { pose proof (count_severity_total found).
    pose proof (count_severity_total combos). unfold t. lia. }
  assert (T : (0 <= t)%Z) by (unfold t; lia).
  destruct (0 <? n)%Z eqn:N.
  - apply Z.ltb_lt in N. pose proof (share_nonneg t n T N) as S.
    split; [exact S |].
    destruct (max0_range (100 - inject_Z t / inject_Z n * 100)) as [M1 M2]; [lra |].
    done.
  - repeat (split; [done || lra |]). done.
Qed.

(** A detector can be used again: what a call returns, and the state it
    leaves, do not depend on the calls made before. *)
Lemma detector_can_be_reused (self : detector) (earlier df : DataFrame) :
  detect_outliers (snd (detect_outliers self earlier)) df =
  detect_outliers self df.
Proof. reflexivity. Qed.

(** *** Findings and rows *)

Lemma in_impossible df f :
  In f (_check_impossible_combinations df) ->
  exists i r, rows df !! i = Some r /\ row_index f = i /\
              f_strain_name f = name_of r.
Proof.
  unfold _check_impossible_combinations. rewrite !in_app_iff, in_flat_map.
  assert (S : forall g cond,
             (forall ir, row_index (g ir) = fst ir /\
                         f_strain_name (g ir) = name_of (snd ir)) ->
             In f (map g (select cond df)) ->
             exists i r, rows df !! i = Some r /\ row_index f = i /\
                         f_strain_name f = name_of r).
  { intros g cond G J. apply in_map_iff in J as ([i r] & <- & J).
    apply in_select in J as [J _]. destruct (G (i, r)) as (G1 & G2).
    by exists i, r. }
  intros [([a b] & _ & I) | [I | I]].
  - destruct (has_column df a && has_column df b); [| done]. by apply S in I.
  - destruct (has_column df _ && has_column df _); [| done]. by apply S in I.
  - destruct (has_column df _ && has_column df _); [| done]. by apply S in I.
Qed.

(** X17. Every finding points at a row of the frame: the row index of a
    finding of the bound checks or of the combination checks is the
    position of a row, and the strain name the finding carries is that
    row's, or [Unknown] when the frame has no such column. *)
Theorem findings_point_at_rows (self : detector) (df : DataFrame) (f : finding) :
  In f (critical_outliers (fst (detect_outliers self df))) \/
  In f (impossible_values (fst (detect_outliers self df))) ->
  exists r, rows df !! row_index f = Some r /\
            f_strain_name f = match strain_name r with
                              | Some name => name
                              | None => "Unknown"%string
                              end.
Proof.
  rewrite critical_outliers_detect, impossible_values_detect.
  intros [I | I].
  - apply in_flat_map in I as ([field rl] & _ & I). cbn [fst snd] in I.
    destruct (has_column df field); [| done].
    apply in_field_outliers in I as (c & _ & _ & _ & i & r & R & <- & N).
    by exists r.
  - apply in_impossible in I as (i & r & R & <- & N). by exists r.
Qed.

Lemma findings_point_at_rows_witness :
  exists r, rows genetics_rows !! 2%nat = Some r /\ strain_name r = Some "C"%string.
Proof.
  destruct (findings_point_at_rows init genetics_rows
              (genetics_finding
                 (2%nat,
                  {| cells := {["sativa_percentage" := 60;
                                "indica_percentage" := 20]};
                     strain_name := Some "C"%string |})))
    as (r & R & N).
  - right. vm_compute. right. by left.
  - exists r. split; [exact R |].
    cbn in R. injection R as <-. reflexivity.
Defined.

(** *** Bounds the wrong way round *)

Lemma findings_at_guarded (b : bool) (g : nat * row -> finding) cond df idx cols r :
  (forall ir, row_index (g ir) = fst ir) ->
  rows df !! idx = Some r ->
  findings_at idx cols (if b then map g (select cond df) else []) =
  if b && cond r && bool_decide (fields (g (idx, r)) = cols)
  then [g (idx, r)] else [].
Proof.
  intros G R. destruct b; [| done].
  by rewrite (findings_at_select g cond df idx cols r G R).
Qed.

(** X18. A record is reported as having its minimum above its maximum
    exactly when both cells are there and the minimum is the greater: for
    each of the five pairs of bound columns, a row gets one critical
    finding then and none otherwise, a null bound included. *)
Theorem inverted_bounds_reported (self : detector) (df : DataFrame)
    (min_field max_field : string) (idx : nat) (r : row) :
  In (min_field, max_field) min_max_pairs ->
  has_column df min_field = true ->
  has_column df max_field = true ->
  rows df !! idx = Some r ->
  map kind (findings_at idx [min_field; max_field]
              (impossible_values (fst (detect_outliers self df)))) =
  match cells r !! min_field, cells r !! max_field with
  | Some lo, Some hi =>
      if lt_bool hi lo then [(min_greater_than_max, critical)] else []
  | _, _ => []
  end.
Proof.
  intros P Hmin Hmax R. rewrite impossible_values_detect.
  unfold _check_impossible_combinations. cbn [min_max_pairs flat_map].
  rewrite !findings_at_app.
  rewrite !(findings_at_guarded _ _ _ df idx _ r) by done.
  cbn [fields genetics_finding findings_at List.filter].
  cbn [In min_max_pairs] in P.
  decompose [or] P; try contradiction;
    match goal with H : (_, _) = (_, _) |- _ =>
      apply pair_equal_spec in H as [<- <-] end;
    rewrite Hmin, Hmax; cbn [andb];
    repeat match goal with
    | |- context [bool_decide (?a = ?b)] =>
        first [ rewrite (bool_decide_eq_true_2 (a = b)) by reflexivity
              | rewrite (bool_decide_eq_false_2 (a = b)) by discriminate ]
    end;
    rewrite ?andb_false_r, ?andb_true_r; cbn [app map];
    unfold min_exceeds_max, lt_bool;
    destruct (cells r !! _) as [lo |]; try done;
    destruct (cells r !! _) as [hi |]; try done;
    by destruct (Qle_bool lo hi).
Qed.

Lemma inverted_bounds_reported_witness :
  map (fun idx =>
         map kind
           (findings_at idx ["thc_percentage_min"; "thc_percentage_max"]%string
              (impossible_values (fst (detect_outliers init inverted_bounds)))))
      [0; 1]%nat =
  [[(min_greater_than_max, critical)]; []].
Proof.
  cbn [map].
  rewrite (inverted_bounds_reported init inverted_bounds
             "thc_percentage_min" "thc_percentage_max" 0 _
             ltac:(by left) eq_refl eq_refl eq_refl).
  rewrite (inverted_bounds_reported init inverted_bounds
             "thc_percentage_min" "thc_percentage_max" 1 _
             ltac:(by left) eq_refl eq_refl eq_refl).
  reflexivity.
Defined.

End OutlierExtras.

(** ** The sanitizer *)

Module SanitizerExtras.
Import Sanitizer ReFacts.

Lemma length_prefix n : forall s,
  String.length (String.substring 0 n s) = Nat.min n (String.length s).
Proof.
  induction n as [| n IH]; intros [| a s]; cbn; try done.
  by rewrite IH.
Qed.

Lemma single_spaced_prefix n : forall s,
  single_spaced s = true -> single_spaced (String.substring 0 n s) = true.
Proof.
  induction n as [| n IH]; intros [| a s]; cbn; try done.
  intros H. apply andb_prop in H as [H1 H2]. rewrite (IH s H2), andb_true_r.
  destruct (PyStr.is_space a); [| done].
  apply andb_prop in H1 as [E H1]. rewrite E. cbn.
  destruct n as [| n]; [by destruct s |].
  by destruct s.
Qed.

Lemma single_spaced_app s : forall t,
  single_spaced s = true -> single_spaced t = true ->
  (forall b t', t = String b t' -> PyStr.is_space b = false) ->
  single_spaced (s ++ t) = true.
Proof.
  induction s as [| a s IH]; intros t Hs Ht Hb.
  - by rewrite app_nil.
  - rewrite app_cons. cbn in *. apply andb_prop in Hs as [H1 H2].
    rewrite (IH t H2 Ht Hb), andb_true_r.
    destruct (PyStr.is_space a); [| done].
    apply andb_prop in H1 as [E H1]. rewrite E. cbn.
    destruct s as [| b s].
    + rewrite app_nil. destruct t as [| b t]; [done |].
      by rewrite (Hb b t eq_refl).
    + by rewrite app_cons.
Qed.

Lemma sub_spaces_single text : forall in_run,
  single_spaced (sub_spaces in_run text) = true /\
  (in_run = true ->
   forall b t, sub_spaces in_run text = String b t -> PyStr.is_space b = false).
Proof.
  induction text as [| a text IH]; intros in_run; [done |].
  cbn. destruct (PyStr.is_space a) eqn:A.
  - destruct (IH true) as [S1 S2]. destruct in_run.
    + split; [done |]. intros _. by apply S2.
    + split; [| done]. cbn. rewrite S1, andb_true_r.
      destruct (sub_spaces true text) as [| b t] eqn:E; [done |].
      by rewrite (S2 eq_refl b t eq_refl).
  - destruct (IH false) as [S1 _]. split.
    + cbn. by rewrite A, S1.
    + intros _ b t [= <- _]. done.
Qed.

(** X19. What the sanitizer returns, whatever the page: a text of at most
    3003 characters, so the limit of 3000 is passed by the three dots of
    the ellipsis, and exactly 3003 characters ending in the dots when the
    text was cut; and a text in which the only whitespace is single
    spaces. *)
Theorem sanitized_text_shape (main_text : string -> string)
    (html_content : string) :
  let cleaned := sub_spaces false (main_text html_content) in
  let out := sanitize_html main_text html_content in
  (String.length out <= 3003)%nat /\
  ((String.length cleaned <= 3000)%nat -> out = cleaned) /\
  ((3000 < String.length cleaned)%nat ->
     String.length out = 3003%nat /\ ends_with "..." out = true) /\
  single_spaced out = true.
Proof.
  cbv zeta. unfold sanitize_html.
  set (cleaned := sub_spaces false (main_text html_content)).
  destruct (sub_spaces_single (main_text html_content) false) as [S _].
  fold cleaned in S.
  destruct (3000 <? String.length cleaned)%nat eqn:L.
  - apply Nat.ltb_lt in L.
    assert (P : String.length (String.substring 0 3000 cleaned) = 3000%nat)
      by (rewrite length_prefix; lia).
    assert (N : String.length (String.substring 0 3000 cleaned ++ "...") = 3003%nat)
      by (rewrite length_app_string, P; reflexivity).
    split; [lia |]. split; [lia |]. split.
    + intros _. split; [done |]. unfold ends_with. rewrite N.
      replace (3003 - String.length "...")%nat with
        (String.length (String.substring 0 3000 cleaned) + 0)%nat
        by (rewrite P; reflexivity).
      generalize (String.substring 0 3000 cleaned) as p.
      induction p as [| a p IH]; [done |]. by rewrite app_cons.
    + apply single_spaced_app; [by apply single_spaced_prefix | done |].
      by intros b t' [= <- _].
  - apply Nat.ltb_ge in L. split; [lia |]. split; [done |]. split; [lia | done].
Qed.

End SanitizerExtras.
